(** * OpenSASE VPP data plane: a shallow embedding of the packet path

    The development follows the graph nodes of
    [opensase-core/vpp/plugins/opensase]: tenant lookup, session tracking,
    policy matching, the fall-back IPS scanner, NAT44 and QoS marking.
    Every C function that the properties below talk about is transcribed
    as a Rocq function of the same name; mutable worker state is threaded
    explicitly, fixed-width integers are [Z] with the wrap-around written
    out, [f64] is the primitive binary64 float, VPP vectors are lists and
    VPP [uword] hashes are [gmap Z nat].

    Part I holds the definitions, Part II the properties. *)

From Stdlib Require Import ZArith Lia Bool Ascii PrimFloat Uint63.
From stdpp Require Import gmap list strings.

#[local] Open Scope Z_scope.

(* ===================================================================== *)
(** * Part I. Definitions                                                 *)
(* ===================================================================== *)

(** ** Fixed-width integers and byte order *)

Definition u8 (x : Z) : Z := x mod 2 ^ 8.
Definition u16 (x : Z) : Z := x mod 2 ^ 16.
Definition u32 (x : Z) : Z := x mod 2 ^ 32.
Definition u64 (x : Z) : Z := x mod 2 ^ 64.

(** [~0] at type [u32]. *)
Definition U32_MAX : Z := 4294967295.

Definition f64 : Set := float.

(** The data plane runs on little-endian hosts, where the [clib] byte
    order conversions swap bytes. *)
Definition bswap16 (x : Z) : Z :=
  Z.lor (Z.shiftl (Z.land x 255) 8) (Z.land (Z.shiftr x 8) 255).

Definition bswap32 (x : Z) : Z :=
  Z.lor (Z.lor (Z.shiftl (Z.land x 255) 24)
               (Z.shiftl (Z.land (Z.shiftr x 8) 255) 16))
        (Z.lor (Z.shiftl (Z.land (Z.shiftr x 16) 255) 8)
               (Z.land (Z.shiftr x 24) 255)).

(** Bit [i] of [bswap32 x] is bit [bswap_bit i] of [x]. *)
Definition bswap_bit (i : Z) : Z :=
  if i <? 8 then i + 24 else if i <? 16 then i + 8
  else if i <? 24 then i - 8 else i - 24.

Definition clib_net_to_host_u16 : Z -> Z := bswap16.
Definition clib_host_to_net_u16 : Z -> Z := bswap16.
Definition clib_host_to_net_u32 : Z -> Z := bswap32.
Definition clib_net_to_host_u32 : Z -> Z := bswap32.

(** [x[i]] for a byte pointer [x] into packet memory; bytes past the end
    of the modelled buffer read as 0. *)
Definition byte_at (data : list Z) (i : Z) : Z :=
  if i <? 0 then 0 else nth (Z.to_nat i) data 0.

(** A [u16] load from two consecutive bytes on a little-endian host. *)
Definition load_u16 (data : list Z) (i : Z) : Z :=
  byte_at data i + 256 * byte_at data (i + 1).

(** An address [a.b.c.d] as the [as_u32] word found in packet memory. *)
Definition ip4_addr (a b c d : Z) : Z :=
  a + 256 * b + 65536 * c + 16777216 * d.

(** ** The hash function

    [clib_xxhash] comes from VPP's [vppinfra/xxhash.h], which is outside
    this repository.  The nodes are therefore parameterised by it. *)
Class XXHash := clib_xxhash : Z -> Z.

Definition XXH_rotl64 (x r : Z) : Z :=
  Z.lor (u64 (Z.shiftl x r)) (Z.shiftr x (64 - r)).

Definition PRIME64_1 : Z := 11400714785074694791.
Definition PRIME64_2 : Z := 14029467366897019727.
Definition PRIME64_3 : Z := 1609587929392839161.
Definition PRIME64_4 : Z := 9650029242287828579.
Definition PRIME64_5 : Z := 2870177450012600261.

(** A transcription of VPP's single-word xxhash, used for the concrete
    runs of Part II; the general theorems hold for every hash. *)
Definition clib_xxhash_vpp (key : Z) : Z :=
  let k1 := u64 (key * PRIME64_2) in
  let k1 := XXH_rotl64 k1 31 in
  let k1 := u64 (k1 * PRIME64_1) in
  let h64 := u64 (0x9e3779b97f4a7c13 + PRIME64_5 + 8) in
  let h64 := Z.lxor h64 k1 in
  let h64 := u64 (XXH_rotl64 h64 27 * PRIME64_1 + PRIME64_4) in
  let h64 := Z.lxor h64 (Z.shiftr h64 33) in
  let h64 := u64 (h64 * PRIME64_2) in
  let h64 := Z.lxor h64 (Z.shiftr h64 29) in
  let h64 := u64 (h64 * PRIME64_3) in
  Z.lxor h64 (Z.shiftr h64 32).

Definition vpp_xxhash : XXHash := clib_xxhash_vpp.

(** ** Packet buffers *)

Definition IP_PROTOCOL_TCP : Z := 6.
Definition IP_PROTOCOL_UDP : Z := 17.

(** [ip4_header_t]: multi-byte fields hold the word as it lies in packet
    memory (network byte order). *)
Record ip4_header_t := {
  ip_version_and_header_length : Z;
  ip4_tos : Z;
  ip4_length : Z;
  ip4_fragment_id : Z;
  ip4_flags_and_fragment_offset : Z;
  ip4_ttl : Z;
  ip4_protocol : Z;
  ip4_checksum : Z;
  ip4_src_address : Z;
  ip4_dst_address : Z
}.

(** [opensase_buffer_opaque_t] *)
Record opensase_buffer_opaque_t := {
  op_tenant_id : Z;
  op_policy_id : Z;
  op_app_id : Z;
  op_qos_class : Z;
  op_flags : Z;
  op_session_idx : Z
}.

Definition OPENSASE_FLAG_DLP_INSPECTED : Z := 1.
Definition OPENSASE_FLAG_ENCRYPTED : Z := 2.
Definition OPENSASE_FLAG_LOGGED : Z := 4.
Definition OPENSASE_FLAG_RATE_LIMITED : Z := 8.

(** A [vlib_buffer_t] whose current data is an IPv4 packet: the fixed
    20-byte header, the bytes that follow it (what [ip4 + 1] points to)
    and the opaque metadata. *)
Record vlib_buffer_t := {
  b_ip4 : ip4_header_t;
  b_l4 : list Z;
  b_opaque : opensase_buffer_opaque_t
}.

Definition vlib_buffer_length_in_chain (b : vlib_buffer_t) : Z :=
  20 + Z.of_nat (length (b_l4 b)).

Definition set_ip4 (b : vlib_buffer_t) (h : ip4_header_t) : vlib_buffer_t :=
  {| b_ip4 := h; b_l4 := b_l4 b; b_opaque := b_opaque b |}.

Definition set_l4 (b : vlib_buffer_t) (l : list Z) : vlib_buffer_t :=
  {| b_ip4 := b_ip4 b; b_l4 := l; b_opaque := b_opaque b |}.

Definition set_opaque (b : vlib_buffer_t) (o : opensase_buffer_opaque_t)
  : vlib_buffer_t :=
  {| b_ip4 := b_ip4 b; b_l4 := b_l4 b; b_opaque := o |}.

(** [ports = (u16 * )(ip4 + 1)] followed by [clib_net_to_host_u16]. *)
Definition l4_src_port (b : vlib_buffer_t) : Z :=
  clib_net_to_host_u16 (load_u16 (b_l4 b) 0).
Definition l4_dst_port (b : vlib_buffer_t) : Z :=
  clib_net_to_host_u16 (load_u16 (b_l4 b) 2).

(** The port extraction of the security and policy nodes: ports are read
    for TCP and UDP only, and are 0 otherwise. *)
Definition extract_ports (b : vlib_buffer_t) : Z * Z :=
  if (ip4_protocol (b_ip4 b) =? IP_PROTOCOL_TCP)
     || (ip4_protocol (b_ip4 b) =? IP_PROTOCOL_UDP)
  then (l4_src_port b, l4_dst_port b)
  else (0, 0).

(** ** The frame loop shared by all nodes

    [while (n_left_from >= 4) { quad }  while (n_left_from > 0) { single }]:
    [quad] handles four buffers at once, [single] one.  Each returns the
    new worker state and the buffers paired with their next index. *)
Section frame_loop.
Context {St B N : Type}.
Variable quad : St -> B -> B -> B -> B -> St * list (B * N).
Variable single : St -> B -> St * (B * N).

Fixpoint single_loop (s : St) (bufs : list B) : St * list (B * N) :=
  match bufs with
  | [] => (s, [])
  | b0 :: rest =>
      let '(s1, o0) := single s b0 in
      let '(s2, outs) := single_loop s1 rest in
      (s2, o0 :: outs)
  end.

Fixpoint frame_loop (s : St) (bufs : list B) : St * list (B * N) :=
  match bufs with
  | b0 :: b1 :: b2 :: b3 :: rest =>
      let '(s1, o) := quad s b0 b1 b2 b3 in
      let '(s2, outs) := frame_loop s1 rest in
      (s2, o ++ outs)
  | _ => single_loop s bufs
  end.
End frame_loop.

(** ** Clock

    [vlib_time_now (vm)] samples the CPU clock; successive calls may return
    different values.  The clock is a stream of readings and [vm] counts
    the calls made so far. *)
Record vlib_main_t := {
  cpu_time : nat -> f64;
  cpu_reads : nat
}.

Definition vlib_time_now (vm : vlib_main_t) : f64 * vlib_main_t :=
  (cpu_time vm (cpu_reads vm),
   {| cpu_time := cpu_time vm; cpu_reads := S (cpu_reads vm) |}).

(** ** Plugin state ([opensase.h]) *)

Definition OPENSASE_QOS_REALTIME : Z := 0.
Definition OPENSASE_QOS_BUSINESS_CRITICAL : Z := 1.
Definition OPENSASE_QOS_DEFAULT : Z := 2.
Definition OPENSASE_QOS_BULK : Z := 3.
Definition OPENSASE_QOS_SCAVENGER : Z := 4.
Definition OPENSASE_QOS_N_CLASSES : Z := 5.

Definition OPENSASE_ACTION_ALLOW : Z := 0.
Definition OPENSASE_ACTION_DENY : Z := 1.
Definition OPENSASE_ACTION_LOG : Z := 2.
Definition OPENSASE_ACTION_RATE_LIMIT : Z := 3.
Definition OPENSASE_ACTION_REDIRECT : Z := 4.
Definition OPENSASE_ACTION_ENCRYPT : Z := 5.
Definition OPENSASE_ACTION_INSPECT_DLP : Z := 6.
Definition OPENSASE_ACTION_N_ACTIONS : Z := 7.

Definition OPENSASE_SESSION_NEW : Z := 0.
Definition OPENSASE_SESSION_ESTABLISHED : Z := 1.
Definition OPENSASE_SESSION_CLOSING : Z := 2.
Definition OPENSASE_SESSION_CLOSED : Z := 3.

(** [opensase_session_t]; the [ip46_address_t] fields hold the IPv4 word. *)
Record opensase_session_t := {
  s_src_addr : Z;
  s_dst_addr : Z;
  s_src_port : Z;
  s_dst_port : Z;
  s_protocol : Z;
  s_state : Z;
  s_qos_class : Z;
  s_tenant_id : Z;
  s_policy_id : Z;
  s_packets_fwd : Z;
  s_bytes_fwd : Z;
  s_packets_rev : Z;
  s_bytes_rev : Z;
  s_last_active : f64
}.

(** [opensase_policy_t] *)
Record opensase_policy_t := {
  p_policy_id : Z;
  p_priority : Z;
  p_tenant_id : Z;
  p_src_prefix : Z;
  p_dst_prefix : Z;
  p_src_prefix_len : Z;
  p_dst_prefix_len : Z;
  p_src_port_min : Z;
  p_src_port_max : Z;
  p_dst_port_min : Z;
  p_dst_port_max : Z;
  p_protocol : Z;
  p_action : Z;
  p_qos_class : Z;
  p_log_enabled : Z;
  p_rate_limit_kbps : Z
}.

(** [opensase_worker_t] *)
Record opensase_worker_t := {
  w_sessions : list opensase_session_t;
  w_n_sessions : Z;
  w_session_hash : gmap Z nat;
  w_packets_processed : Z;
  w_bytes_processed : Z;
  w_packets_dropped : Z;
  w_sessions_created : Z;
  w_sessions_expired : Z;
  w_policy_hits : list Z;
  w_dlp_patterns_matched : Z;
  w_dlp_bytes_inspected : Z
}.

(** The fields of [opensase_main_t] that the packet path reads. *)
Record opensase_main_t := {
  osm_policies : list opensase_policy_t;
  osm_session_timeout_secs : Z;
  osm_max_sessions_per_worker : Z;
  osm_dlp_enabled : Z;
  osm_logging_enabled : Z
}.

Definition set_sessions (w : opensase_worker_t)
    (ss : list opensase_session_t) : opensase_worker_t :=
  {| w_sessions := ss; w_n_sessions := w_n_sessions w;
     w_session_hash := w_session_hash w;
     w_packets_processed := w_packets_processed w;
     w_bytes_processed := w_bytes_processed w;
     w_packets_dropped := w_packets_dropped w;
     w_sessions_created := w_sessions_created w;
     w_sessions_expired := w_sessions_expired w;
     w_policy_hits := w_policy_hits w;
     w_dlp_patterns_matched := w_dlp_patterns_matched w;
     w_dlp_bytes_inspected := w_dlp_bytes_inspected w |}.

Definition set_packets_processed (w : opensase_worker_t) (n : Z)
  : opensase_worker_t :=
  {| w_sessions := w_sessions w; w_n_sessions := w_n_sessions w;
     w_session_hash := w_session_hash w;
     w_packets_processed := n;
     w_bytes_processed := w_bytes_processed w;
     w_packets_dropped := w_packets_dropped w;
     w_sessions_created := w_sessions_created w;
     w_sessions_expired := w_sessions_expired w;
     w_policy_hits := w_policy_hits w;
     w_dlp_patterns_matched := w_dlp_patterns_matched w;
     w_dlp_bytes_inspected := w_dlp_bytes_inspected w |}.

Definition set_bytes_processed (w : opensase_worker_t) (n : Z)
  : opensase_worker_t :=
  {| w_sessions := w_sessions w; w_n_sessions := w_n_sessions w;
     w_session_hash := w_session_hash w;
     w_packets_processed := w_packets_processed w;
     w_bytes_processed := n;
     w_packets_dropped := w_packets_dropped w;
     w_sessions_created := w_sessions_created w;
     w_sessions_expired := w_sessions_expired w;
     w_policy_hits := w_policy_hits w;
     w_dlp_patterns_matched := w_dlp_patterns_matched w;
     w_dlp_bytes_inspected := w_dlp_bytes_inspected w |}.

Definition set_packets_dropped (w : opensase_worker_t) (n : Z)
  : opensase_worker_t :=
  {| w_sessions := w_sessions w; w_n_sessions := w_n_sessions w;
     w_session_hash := w_session_hash w;
     w_packets_processed := w_packets_processed w;
     w_bytes_processed := w_bytes_processed w;
     w_packets_dropped := n;
     w_sessions_created := w_sessions_created w;
     w_sessions_expired := w_sessions_expired w;
     w_policy_hits := w_policy_hits w;
     w_dlp_patterns_matched := w_dlp_patterns_matched w;
     w_dlp_bytes_inspected := w_dlp_bytes_inspected w |}.

Definition set_policy_hits (w : opensase_worker_t) (hits : list Z)
  : opensase_worker_t :=
  {| w_sessions := w_sessions w; w_n_sessions := w_n_sessions w;
     w_session_hash := w_session_hash w;
     w_packets_processed := w_packets_processed w;
     w_bytes_processed := w_bytes_processed w;
     w_packets_dropped := w_packets_dropped w;
     w_sessions_created := w_sessions_created w;
     w_sessions_expired := w_sessions_expired w;
     w_policy_hits := hits;
     w_dlp_patterns_matched := w_dlp_patterns_matched w;
     w_dlp_bytes_inspected := w_dlp_bytes_inspected w |}.

(** [opensase_worker_init]: a zeroed session table of
    [max_sessions_per_worker] slots, an empty hash, zeroed statistics. *)
Definition zero_session : opensase_session_t :=
  {| s_src_addr := 0; s_dst_addr := 0; s_src_port := 0; s_dst_port := 0;
     s_protocol := 0; s_state := 0; s_qos_class := 0; s_tenant_id := 0;
     s_policy_id := 0; s_packets_fwd := 0; s_bytes_fwd := 0;
     s_packets_rev := 0; s_bytes_rev := 0; s_last_active := 0%float |}.

Definition opensase_worker_init (max_sessions_per_worker : nat)
  : opensase_worker_t :=
  {| w_sessions := replicate max_sessions_per_worker zero_session;
     w_n_sessions := 0;
     w_session_hash := ∅;
     w_packets_processed := 0; w_bytes_processed := 0;
     w_packets_dropped := 0; w_sessions_created := 0;
     w_sessions_expired := 0;
     w_policy_hits := replicate (Z.to_nat OPENSASE_ACTION_N_ACTIONS) 0;
     w_dlp_patterns_matched := 0; w_dlp_bytes_inspected := 0 |}.

(** ** Policy node ([node_policy.c]) *)

Inductive opensase_policy_next_t :=
| OPENSASE_POLICY_NEXT_DLP
| OPENSASE_POLICY_NEXT_CLASSIFY
| OPENSASE_POLICY_NEXT_DROP
| OPENSASE_POLICY_NEXT_IP4_LOOKUP.

(** [u32 mask = ~0 << (32 - len)] *)
Definition prefix_mask (len : Z) : Z := u32 (Z.shiftl (Z.lnot 0) (32 - len)).

(** [(addr & clib_host_to_net_u32 (mask)) != (prefix & clib_host_to_net_u32 (mask))] *)
Definition prefix_differs (addr prefix len : Z) : bool :=
  let mask := prefix_mask len in
  negb (Z.land addr (clib_host_to_net_u32 mask)
        =? Z.land prefix (clib_host_to_net_u32 mask)).

(** The body of the loop of [opensase_policy_match] up to the priority
    test: [true] when one of the [continue] statements is taken. *)
Definition policy_continue (p : opensase_policy_t) (ip4 : ip4_header_t)
    (src_port dst_port tenant_id : Z) : bool :=
  if (p_policy_id p =? 0) && (p_priority p =? 0) then true
  else if negb (p_tenant_id p =? 0) && negb (p_tenant_id p =? tenant_id)
  then true
  else if (0 <? p_src_prefix_len p)
          && prefix_differs (ip4_src_address ip4) (p_src_prefix p)
                            (p_src_prefix_len p)
  then true
  else if (0 <? p_dst_prefix_len p)
          && prefix_differs (ip4_dst_address ip4) (p_dst_prefix p)
                            (p_dst_prefix_len p)
  then true
  else if negb (p_protocol p =? 0)
          && negb (p_protocol p =? ip4_protocol ip4)
  then true
  else if (negb (p_src_port_min p =? 0) || negb (p_src_port_max p =? 0))
          && ((src_port <? p_src_port_min p) || (p_src_port_max p <? src_port))
  then true
  else if (negb (p_dst_port_min p =? 0) || negb (p_dst_port_max p =? 0))
          && ((dst_port <? p_dst_port_min p) || (p_dst_port_max p <? dst_port))
  then true
  else false.

(** [vec_foreach_index (i, osm->policies)] from index [i] on, carrying
    [best_match] and [best_priority]. *)
Fixpoint policy_scan (ps : list opensase_policy_t) (i : Z)
    (ip4 : ip4_header_t) (src_port dst_port tenant_id : Z)
    (best_match best_priority : Z) : Z :=
  match ps with
  | [] => best_match
  | p :: rest =>
      if policy_continue p ip4 src_port dst_port tenant_id
      then policy_scan rest (i + 1) ip4 src_port dst_port tenant_id
                       best_match best_priority
      else if p_priority p <? best_priority
      then policy_scan rest (i + 1) ip4 src_port dst_port tenant_id
                       i (p_priority p)
      else policy_scan rest (i + 1) ip4 src_port dst_port tenant_id
                       best_match best_priority
  end.

Definition opensase_policy_match (osm : opensase_main_t) (ip4 : ip4_header_t)
    (src_port dst_port tenant_id : Z) : Z :=
  policy_scan (osm_policies osm) 0 ip4 src_port dst_port tenant_id
              U32_MAX U32_MAX.

(** [w->policy_hits[a]++] *)
Definition policy_hit (w : opensase_worker_t) (a : Z) : opensase_worker_t :=
  set_policy_hits w
    (alter (fun n => u64 (n + 1)) (Z.to_nat a) (w_policy_hits w)).

(** The next index chosen for a matched policy: the [switch] of packet 0
    and of the tail loop, and the conditional chain of packets 1 to 3. *)
Definition policy_action_next (action : Z) : opensase_policy_next_t :=
  if action =? OPENSASE_ACTION_DENY then OPENSASE_POLICY_NEXT_DROP
  else if action =? OPENSASE_ACTION_INSPECT_DLP then OPENSASE_POLICY_NEXT_DLP
  else OPENSASE_POLICY_NEXT_CLASSIFY.

(** One packet of the policy node: port extraction, lookup, "apply policy
    actions". *)
Definition policy_single (osm : opensase_main_t) (w : opensase_worker_t)
    (b : vlib_buffer_t)
  : opensase_worker_t * (vlib_buffer_t * opensase_policy_next_t) :=
  let ip4_0 := b_ip4 b in
  let op0 := b_opaque b in
  let '(src_port0, dst_port0) := extract_ports b in
  let policy_idx0 :=
    opensase_policy_match osm ip4_0 src_port0 dst_port0 (op_tenant_id op0) in
  if negb (policy_idx0 =? U32_MAX) then
    match osm_policies osm !! Z.to_nat policy_idx0 with
    | Some p0 =>
        let op0' :=
          {| op_tenant_id := op_tenant_id op0;
             op_policy_id := p_policy_id p0;
             op_app_id := op_app_id op0;
             op_qos_class := p_qos_class p0;
             op_flags := op_flags op0;
             op_session_idx := op_session_idx op0 |} in
        (policy_hit w (p_action p0),
         (set_opaque b op0', policy_action_next (p_action p0)))
    | None => (w, (b, OPENSASE_POLICY_NEXT_DROP))
    end
  else
    (w, (b, if negb (osm_dlp_enabled osm =? 0)
            then OPENSASE_POLICY_NEXT_DLP
            else OPENSASE_POLICY_NEXT_CLASSIFY)).

(** Four packets at once: the four lookups come first, then the four
    "apply policy" blocks; neither reads what the other writes. *)
Definition policy_quad (osm : opensase_main_t) (w : opensase_worker_t)
    (b0 b1 b2 b3 : vlib_buffer_t)
  : opensase_worker_t * list (vlib_buffer_t * opensase_policy_next_t) :=
  let '(w, o0) := policy_single osm w b0 in
  let '(w, o1) := policy_single osm w b1 in
  let '(w, o2) := policy_single osm w b2 in
  let '(w, o3) := policy_single osm w b3 in
  (w, [o0; o1; o2; o3]).

Definition opensase_policy_node (osm : opensase_main_t)
    (w : opensase_worker_t) (frame : list vlib_buffer_t)
  : opensase_worker_t * list (vlib_buffer_t * opensase_policy_next_t) :=
  frame_loop (policy_quad osm) (policy_single osm) w frame.

(** ** Security node ([node_security.c]) *)

Inductive opensase_security_next_t :=
| OPENSASE_SECURITY_NEXT_POLICY
| OPENSASE_SECURITY_NEXT_DROP
| OPENSASE_SECURITY_NEXT_IP4_LOOKUP.

(** The 64-bit word that is handed to [clib_xxhash]: [key[0] ^ key[1]]. *)
Definition session_key (ip4 : ip4_header_t) (src_port dst_port : Z) : Z :=
  let key0 :=
    Z.lor (u64 (Z.shiftl (ip4_src_address ip4) 32)) (ip4_dst_address ip4) in
  let key1 :=
    Z.lor (Z.lor (u64 (Z.shiftl src_port 48)) (u64 (Z.shiftl dst_port 32)))
          (ip4_protocol ip4) in
  Z.lxor key0 key1.

Section security.
Context `{!XXHash}.

Definition opensase_session_hash (ip4 : ip4_header_t) (src_port dst_port : Z)
  : Z :=
  clib_xxhash (session_key ip4 src_port dst_port).

(** The session written by the miss path: [clib_memset] to zero, then the
    5-tuple, the state and [last_active]. *)
Definition new_session (ip4 : ip4_header_t) (src_port dst_port : Z)
    (now : f64) : opensase_session_t :=
  {| s_src_addr := ip4_src_address ip4;
     s_dst_addr := ip4_dst_address ip4;
     s_src_port := src_port;
     s_dst_port := dst_port;
     s_protocol := ip4_protocol ip4;
     s_state := OPENSASE_SESSION_NEW;
     s_qos_class := 0; s_tenant_id := 0; s_policy_id := 0;
     s_packets_fwd := 0; s_bytes_fwd := 0;
     s_packets_rev := 0; s_bytes_rev := 0;
     s_last_active := now |}.

(** What [opensase_session_lookup_or_create] hands back: the session
    pointer (an index into [w->sessions], [None] for [NULL]) and the two
    out-parameters. *)
Record session_lookup_t := {
  lk_s : option nat;
  lk_session_idx : Z;
  lk_is_new : Z
}.

Definition opensase_session_lookup_or_create (vm : vlib_main_t)
    (w : opensase_worker_t) (ip4 : ip4_header_t) (src_port dst_port : Z)
  : vlib_main_t * opensase_worker_t * session_lookup_t :=
  let hash := opensase_session_hash ip4 src_port dst_port in
  match w_session_hash w !! hash with
  | Some p =>
      (vm, w,
       {| lk_s := Some p; lk_session_idx := Z.of_nat p; lk_is_new := 0 |})
  | None =>
      if Z.of_nat (length (w_sessions w)) <=? w_n_sessions w then
        (vm, w,
         {| lk_s := None; lk_session_idx := U32_MAX; lk_is_new := 0 |})
      else
        let session_idx := w_n_sessions w in
        let '(now, vm') := vlib_time_now vm in
        let w' :=
          {| w_sessions :=
               <[Z.to_nat session_idx :=
                   new_session ip4 src_port dst_port now]> (w_sessions w);
             w_n_sessions := u32 (w_n_sessions w + 1);
             w_session_hash :=
               <[hash := Z.to_nat session_idx]> (w_session_hash w);
             w_packets_processed := w_packets_processed w;
             w_bytes_processed := w_bytes_processed w;
             w_packets_dropped := w_packets_dropped w;
             w_sessions_created := u64 (w_sessions_created w + 1);
             w_sessions_expired := w_sessions_expired w;
             w_policy_hits := w_policy_hits w;
             w_dlp_patterns_matched := w_dlp_patterns_matched w;
             w_dlp_bytes_inspected := w_dlp_bytes_inspected w |} in
        (vm', w',
         {| lk_s := Some (Z.to_nat session_idx);
            lk_session_idx := session_idx; lk_is_new := 1 |})
  end.

(** "Update session stats": [packets_fwd++], [bytes_fwd += length],
    [last_active = vlib_time_now (vm)]. *)
Definition session_touch (len : Z) (now : f64) (s : opensase_session_t)
  : opensase_session_t :=
  {| s_src_addr := s_src_addr s; s_dst_addr := s_dst_addr s;
     s_src_port := s_src_port s; s_dst_port := s_dst_port s;
     s_protocol := s_protocol s; s_state := s_state s;
     s_qos_class := s_qos_class s; s_tenant_id := s_tenant_id s;
     s_policy_id := s_policy_id s;
     s_packets_fwd := u64 (s_packets_fwd s + 1);
     s_bytes_fwd := u64 (s_bytes_fwd s + len);
     s_packets_rev := s_packets_rev s; s_bytes_rev := s_bytes_rev s;
     s_last_active := now |}.

Definition session_update_stats (vm : vlib_main_t) (w : opensase_worker_t)
    (s : option nat) (b : vlib_buffer_t) : vlib_main_t * opensase_worker_t :=
  match s with
  | Some idx =>
      let '(now, vm') := vlib_time_now vm in
      (vm',
       set_sessions w
         (alter (session_touch (vlib_buffer_length_in_chain b) now) idx
                (w_sessions w)))
  | None => (vm, w)
  end.

Definition set_session_idx (b : vlib_buffer_t) (session_idx : Z)
  : vlib_buffer_t :=
  set_opaque b
    {| op_tenant_id := op_tenant_id (b_opaque b);
       op_policy_id := op_policy_id (b_opaque b);
       op_app_id := op_app_id (b_opaque b);
       op_qos_class := op_qos_class (b_opaque b);
       op_flags := op_flags (b_opaque b);
       op_session_idx := session_idx |}.

Definition security_next (s : option nat) : opensase_security_next_t :=
  match s with
  | Some _ => OPENSASE_SECURITY_NEXT_POLICY
  | None => OPENSASE_SECURITY_NEXT_DROP
  end.

(** The tail loop: one packet. *)
Definition security_single (st : vlib_main_t * opensase_worker_t)
    (b : vlib_buffer_t)
  : (vlib_main_t * opensase_worker_t)
    * (vlib_buffer_t * opensase_security_next_t) :=
  let '(vm, w) := st in
  let '(src_port0, dst_port0) := extract_ports b in
  let '(vm, w, r0) :=
    opensase_session_lookup_or_create vm w (b_ip4 b) src_port0 dst_port0 in
  let b := set_session_idx b (lk_session_idx r0) in
  let '(vm, w) := session_update_stats vm w (lk_s r0) b in
  ((vm, w), (b, security_next (lk_s r0))).

(** The main loop: the four lookups, then the four metadata stores, then
    the four statistics updates. *)
Definition security_quad (st : vlib_main_t * opensase_worker_t)
    (b0 b1 b2 b3 : vlib_buffer_t)
  : (vlib_main_t * opensase_worker_t)
    * list (vlib_buffer_t * opensase_security_next_t) :=
  let '(vm, w) := st in
  let '(src_port0, dst_port0) := extract_ports b0 in
  let '(src_port1, dst_port1) := extract_ports b1 in
  let '(src_port2, dst_port2) := extract_ports b2 in
  let '(src_port3, dst_port3) := extract_ports b3 in
  let '(vm, w, r0) :=
    opensase_session_lookup_or_create vm w (b_ip4 b0) src_port0 dst_port0 in
  let '(vm, w, r1) :=
    opensase_session_lookup_or_create vm w (b_ip4 b1) src_port1 dst_port1 in
  let '(vm, w, r2) :=
    opensase_session_lookup_or_create vm w (b_ip4 b2) src_port2 dst_port2 in
  let '(vm, w, r3) :=
    opensase_session_lookup_or_create vm w (b_ip4 b3) src_port3 dst_port3 in
  let b0 := set_session_idx b0 (lk_session_idx r0) in
  let b1 := set_session_idx b1 (lk_session_idx r1) in
  let b2 := set_session_idx b2 (lk_session_idx r2) in
  let b3 := set_session_idx b3 (lk_session_idx r3) in
  let '(vm, w) := session_update_stats vm w (lk_s r0) b0 in
  let '(vm, w) := session_update_stats vm w (lk_s r1) b1 in
  let '(vm, w) := session_update_stats vm w (lk_s r2) b2 in
  let '(vm, w) := session_update_stats vm w (lk_s r3) b3 in
  ((vm, w),
   [(b0, security_next (lk_s r0)); (b1, security_next (lk_s r1));
    (b2, security_next (lk_s r2)); (b3, security_next (lk_s r3))]).

(** [opensase_security_node]: the two loops, then
    [w->packets_processed += pkts_processed]. *)
Definition opensase_security_node (vm : vlib_main_t) (w : opensase_worker_t)
    (frame : list vlib_buffer_t)
  : (vlib_main_t * opensase_worker_t)
    * list (vlib_buffer_t * opensase_security_next_t) :=
  let '((vm, w), outs) := frame_loop security_quad security_single (vm, w) frame in
  ((vm,
    set_packets_processed w
      (u64 (w_packets_processed w + u32 (Z.of_nat (length frame))))),
   outs).

End security.

(** ** IPv4 header checksum

    [ip4_header_checksum] is VPP's ([vnet/ip/ip4_packet.h]): the one's
    complement of the one's complement sum of the 16-bit words of the
    header (IHL words of 32 bits), the checksum field taken as zero. *)

(** The 20 bytes of the fixed header as they lie in memory. *)
Definition ip4_header_bytes (h : ip4_header_t) : list Z :=
  [ ip_version_and_header_length h; ip4_tos h;
    ip4_length h mod 256; ip4_length h / 256;
    ip4_fragment_id h mod 256; ip4_fragment_id h / 256;
    ip4_flags_and_fragment_offset h mod 256;
    ip4_flags_and_fragment_offset h / 256;
    ip4_ttl h; ip4_protocol h;
    ip4_checksum h mod 256; ip4_checksum h / 256;
    ip4_src_address h mod 256; ip4_src_address h / 256 mod 256;
    ip4_src_address h / 65536 mod 256; ip4_src_address h / 16777216;
    ip4_dst_address h mod 256; ip4_dst_address h / 256 mod 256;
    ip4_dst_address h / 65536 mod 256; ip4_dst_address h / 16777216 ].

(** The packet bytes from the start of the IP header. *)
Definition buffer_bytes (b : vlib_buffer_t) : list Z :=
  ip4_header_bytes (b_ip4 b) ++ b_l4 b.

(** Sum of the big-endian 16-bit words of a byte string. *)
Fixpoint sum_be16 (bytes : list Z) : Z :=
  match bytes with
  | hi :: lo :: rest => 256 * hi + lo + sum_be16 rest
  | [hi] => 256 * hi
  | [] => 0
  end.

(** End-around carry; two rounds suffice for headers of at most 60 bytes. *)
Definition fold_carry (s : Z) : Z :=
  let s := s mod 65536 + s / 65536 in
  s mod 65536 + s / 65536.

(** The checksum in network order (the value of the two checksum bytes
    read big-endian). *)
Definition ip4_checksum_wire (b : vlib_buffer_t) : Z :=
  let hlen := Z.land (ip_version_and_header_length (b_ip4 b)) 15 * 4 in
  let bytes := take (Z.to_nat hlen) (buffer_bytes b) in
  let bytes := <[10%nat := 0]> (<[11%nat := 0]> bytes) in
  65535 - fold_carry (sum_be16 bytes).

(** The [u16] that the C code stores into [ip4->checksum]. *)
Definition ip4_header_checksum (b : vlib_buffer_t) : Z :=
  bswap16 (ip4_checksum_wire b).

Definition set_checksum (h : ip4_header_t) (c : Z) : ip4_header_t :=
  {| ip_version_and_header_length := ip_version_and_header_length h;
     ip4_tos := ip4_tos h; ip4_length := ip4_length h;
     ip4_fragment_id := ip4_fragment_id h;
     ip4_flags_and_fragment_offset := ip4_flags_and_fragment_offset h;
     ip4_ttl := ip4_ttl h; ip4_protocol := ip4_protocol h;
     ip4_checksum := c;
     ip4_src_address := ip4_src_address h;
     ip4_dst_address := ip4_dst_address h |}.

Definition set_tos (h : ip4_header_t) (t : Z) : ip4_header_t :=
  {| ip_version_and_header_length := ip_version_and_header_length h;
     ip4_tos := t; ip4_length := ip4_length h;
     ip4_fragment_id := ip4_fragment_id h;
     ip4_flags_and_fragment_offset := ip4_flags_and_fragment_offset h;
     ip4_ttl := ip4_ttl h; ip4_protocol := ip4_protocol h;
     ip4_checksum := ip4_checksum h;
     ip4_src_address := ip4_src_address h;
     ip4_dst_address := ip4_dst_address h |}.

Definition set_src_address (h : ip4_header_t) (a : Z) : ip4_header_t :=
  {| ip_version_and_header_length := ip_version_and_header_length h;
     ip4_tos := ip4_tos h; ip4_length := ip4_length h;
     ip4_fragment_id := ip4_fragment_id h;
     ip4_flags_and_fragment_offset := ip4_flags_and_fragment_offset h;
     ip4_ttl := ip4_ttl h; ip4_protocol := ip4_protocol h;
     ip4_checksum := ip4_checksum h;
     ip4_src_address := a;
     ip4_dst_address := ip4_dst_address h |}.

(** The header checksum of a buffer is valid when the stored field is the
    checksum of the header it sits in. *)
Definition ip4_checksum_ok (b : vlib_buffer_t) : Prop :=
  ip4_checksum (b_ip4 b) = ip4_header_checksum b.

(** ** NAT node ([node_nat.c]) *)

Inductive opensase_nat_next_t :=
| OPENSASE_NAT_NEXT_ENCRYPT
| OPENSASE_NAT_NEXT_OUTPUT
| OPENSASE_NAT_NEXT_DROP.

Record nat_mapping_t := {
  m_internal_addr : Z;
  m_external_addr : Z;
  m_internal_port : Z;
  m_external_port : Z;
  m_protocol : Z;
  m_flags : Z;
  m_tenant_id : Z;
  m_session_idx : Z;
  m_expire_time : f64
}.

Record nat_pool_t := {
  pool_external_addr : Z;
  pool_port_start : Z;
  pool_port_end : Z;
  pool_next_port : Z;
  pool_pad : Z
}.

(** [nat_worker_t]; [nw_tenant_pools] has 256 entries. *)
Record nat_worker_t := {
  nw_mappings : list nat_mapping_t;
  nw_mapping_hash : gmap Z nat;
  nw_n_mappings : Z;
  nw_tenant_pools : list nat_pool_t
}.

Definition zero_pool : nat_pool_t :=
  {| pool_external_addr := 0; pool_port_start := 0; pool_port_end := 0;
     pool_next_port := 0; pool_pad := 0 |}.

Definition zero_mapping : nat_mapping_t :=
  {| m_internal_addr := 0; m_external_addr := 0; m_internal_port := 0;
     m_external_port := 0; m_protocol := 0; m_flags := 0; m_tenant_id := 0;
     m_session_idx := 0; m_expire_time := 0%float |}.

(** [tenant_pools[i]] for [i < 256]. *)
Definition tenant_pool (w : nat_worker_t) (i : Z) : nat_pool_t :=
  nth (Z.to_nat i) (nw_tenant_pools w) zero_pool.

(** The word handed to [clib_xxhash] by [nat_hash_key]. *)
Definition nat_key (src dst src_port dst_port proto : Z) : Z :=
  let key := Z.lor (u64 (Z.shiftl src 32)) dst in
  Z.lxor key
    (Z.lor (Z.lor (u64 (Z.shiftl src_port 48)) (u64 (Z.shiftl dst_port 32)))
           proto).

(** [opensase_nat_init] for one worker, with [table_size] standing for
    [NAT_TABLE_SIZE]: the mapping vector is validated to that many zeroed
    entries and the default pool is set up. *)
Definition opensase_nat_init (table_size : nat) : nat_worker_t :=
  {| nw_mappings := replicate table_size zero_mapping;
     nw_mapping_hash := ∅;
     nw_n_mappings := 0;
     nw_tenant_pools :=
       {| pool_external_addr := 0; pool_port_start := 10000;
          pool_port_end := 65000; pool_next_port := 10000; pool_pad := 0 |}
       :: replicate 255 zero_pool |}.

(** [opensase_nat_pool_fn] after parsing, for one worker; [None] is the
    error return. *)
Definition opensase_nat_pool_fn (w : nat_worker_t)
    (tenant_id addr port_start port_end : Z) : option nat_worker_t :=
  if 256 <=? tenant_id then None
  else
    Some {| nw_mappings := nw_mappings w;
            nw_mapping_hash := nw_mapping_hash w;
            nw_n_mappings := nw_n_mappings w;
            nw_tenant_pools :=
              <[Z.to_nat tenant_id :=
                  {| pool_external_addr := addr;
                     pool_port_start := u16 port_start;
                     pool_port_end := u16 port_end;
                     pool_next_port := u16 port_start;
                     pool_pad := pool_pad (tenant_pool w tenant_id) |}]>
                (nw_tenant_pools w) |}.

(** *** Pointers into the mapping vector

    [nat_lookup] and [nat_create_mapping] hand back a pointer into
    [w->mappings].  [vec_add2] may move the vector when it grows it, and
    the block the pointer points into is then freed: what a later read
    through the pointer yields is not defined by C.
    [mapping_read_after_growth old new idx] stands for the result of such a
    read: the pointer was [&old[idx]], and the vector has since grown to
    [new].  Nothing is assumed about it. *)
Class VecMemory :=
  mapping_read_after_growth :
    list nat_mapping_t -> list nat_mapping_t -> nat -> nat_mapping_t.

(** One behaviour of the allocator, used for the runs of Part II: the
    bytes the pointer points at are still those of the old block. *)
Definition old_block_kept : VecMemory :=
  fun old new idx => nth idx old zero_mapping.

Section nat.
Context `{!XXHash, !VecMemory}.

Definition nat_hash_key (src dst src_port dst_port proto : Z) : Z :=
  clib_xxhash (nat_key src dst src_port dst_port proto).

(** [nat_lookup]: the mapping pointer is an index into [w->mappings]. *)
Definition nat_lookup (w : nat_worker_t) (src dst src_port dst_port proto : Z)
  : option nat :=
  nw_mapping_hash w !! nat_hash_key src dst src_port dst_port proto.

(** [nat_create_mapping].  [vec_add2] appends one element, which the
    function then fills in; the two fields it does not write ([flags],
    [session_idx]) are taken as zero. *)
Definition nat_create_mapping (w : nat_worker_t) (tenant_id : Z)
    (internal_addr internal_port dst dst_port proto : Z) (now : f64)
  : nat_worker_t * option nat :=
  let tenant_id := if 256 <=? tenant_id then 0 else tenant_id in
  let pool_idx :=
    if pool_external_addr (tenant_pool w tenant_id) =? 0 then 0
    else tenant_id in
  let pool := tenant_pool w pool_idx in
  let nat_port := pool_next_port pool in
  let next_port := u16 (pool_next_port pool + 1) in
  let next_port :=
    if pool_port_end pool <? next_port then pool_port_start pool
    else next_port in
  let pool' :=
    {| pool_external_addr := pool_external_addr pool;
       pool_port_start := pool_port_start pool;
       pool_port_end := pool_port_end pool;
       pool_next_port := next_port;
       pool_pad := pool_pad pool |} in
  let mapping_idx := length (nw_mappings w) in
  let m :=
    {| m_internal_addr := internal_addr;
       m_external_addr := pool_external_addr pool;
       m_internal_port := internal_port;
       m_external_port := nat_port;
       m_protocol := proto;
       m_flags := 0;
       m_tenant_id := u16 tenant_id;
       m_session_idx := 0;
       m_expire_time := (now + 300)%float |} in
  let key := nat_hash_key internal_addr dst internal_port dst_port proto in
  ({| nw_mappings := nw_mappings w ++ [m];
      nw_mapping_hash := <[key := mapping_idx]> (nw_mapping_hash w);
      nw_n_mappings := u32 (nw_n_mappings w + 1);
      nw_tenant_pools := <[Z.to_nat pool_idx := pool']> (nw_tenant_pools w) |},
   Some mapping_idx).

(** [nat_translate]: source address, source port and L4 checksum bytes,
    then the IP checksum recomputed over the rewritten header. *)
Definition nat_translate (b : vlib_buffer_t) (m : nat_mapping_t)
  : vlib_buffer_t :=
  let b := set_ip4 b (set_src_address (b_ip4 b) (m_external_addr m)) in
  let port := clib_host_to_net_u16 (m_external_port m) in
  let b :=
    if ip4_protocol (b_ip4 b) =? IP_PROTOCOL_TCP then
      set_l4 b (<[0%nat := port mod 256]> (<[1%nat := port / 256]>
               (<[16%nat := 0]> (<[17%nat := 0]> (b_l4 b)))))
    else if ip4_protocol (b_ip4 b) =? IP_PROTOCOL_UDP then
      set_l4 b (<[0%nat := port mod 256]> (<[1%nat := port / 256]>
               (<[6%nat := 0]> (<[7%nat := 0]> (b_l4 b)))))
    else b in
  set_ip4 b (set_checksum (b_ip4 b) (ip4_header_checksum b)).

(** One packet of the single-packet loop: lookup, create on a miss,
    translate at once (the pointer is fresh), pick the next node. *)
Definition nat_single (now : f64) (w : nat_worker_t) (b : vlib_buffer_t)
  : nat_worker_t * (vlib_buffer_t * opensase_nat_next_t) :=
  let ip0 := b_ip4 b in
  let src_port0 := l4_src_port b in
  let dst_port0 := l4_dst_port b in
  let m0 :=
    nat_lookup w (ip4_src_address ip0) (ip4_dst_address ip0)
               src_port0 dst_port0 (ip4_protocol ip0) in
  let '(w, m0) :=
    match m0 with
    | Some _ => (w, m0)
    | None =>
        nat_create_mapping w (op_tenant_id (b_opaque b))
          (ip4_src_address ip0) src_port0 (ip4_dst_address ip0) dst_port0
          (ip4_protocol ip0) now
    end in
  match m0 with
  | Some idx =>
      match nw_mappings w !! idx with
      | Some m => (w, (nat_translate b m, OPENSASE_NAT_NEXT_ENCRYPT))
      | None => (w, (b, OPENSASE_NAT_NEXT_ENCRYPT))
      end
  | None => (w, (b, OPENSASE_NAT_NEXT_DROP))
  end.

(** [m = nat_lookup (...); if (!m) m = nat_create_mapping (...)] for one
    packet: the table afterwards and the pointer, as an index into the
    vector the table then holds. *)
Definition nat_lookup_or_create (now : f64) (w : nat_worker_t)
    (b : vlib_buffer_t) : nat_worker_t * option nat :=
  let ip := b_ip4 b in
  match nat_lookup w (ip4_src_address ip) (ip4_dst_address ip)
                   (l4_src_port b) (l4_dst_port b) (ip4_protocol ip) with
  | Some i => (w, Some i)
  | None =>
      nat_create_mapping w (op_tenant_id (b_opaque b))
        (ip4_src_address ip) (l4_src_port b) (ip4_dst_address ip)
        (l4_dst_port b) (ip4_protocol ip) now
  end.

(** The read [*m] of a pointer [m = &mappings[idx]] taken when the table
    was [w_then], made when the table is [w_now].  Between the two only
    [nat_create_mapping] runs, so the vector was grown exactly if its
    length changed. *)
Definition read_mapping (w_then w_now : nat_worker_t) (idx : nat)
  : option nat_mapping_t :=
  if (length (nw_mappings w_now) =? length (nw_mappings w_then))%nat
  then nw_mappings w_now !! idx
  else Some (mapping_read_after_growth (nw_mappings w_then)
                                       (nw_mappings w_now) idx).

(** The four-packet block: four lookups-or-creates, each leaving a pointer
    [m0 .. m3]; then the four translations, which read through those
    pointers after the last lookup-or-create; then the four next
    indices. *)
Definition nat_quad (now : f64) (w : nat_worker_t)
    (b0 b1 b2 b3 : vlib_buffer_t)
  : nat_worker_t * list (vlib_buffer_t * opensase_nat_next_t) :=
  let '(w1, m0) := nat_lookup_or_create now w b0 in
  let '(w2, m1) := nat_lookup_or_create now w1 b1 in
  let '(w3, m2) := nat_lookup_or_create now w2 b2 in
  let '(w4, m3) := nat_lookup_or_create now w3 b3 in
  let xlate (b : vlib_buffer_t) (w_then : nat_worker_t) (m : option nat) :=
    match m with
    | Some idx =>
        (match read_mapping w_then w4 idx with
         | Some e => nat_translate b e
         | None => b
         end, OPENSASE_NAT_NEXT_ENCRYPT)
    | None => (b, OPENSASE_NAT_NEXT_DROP)
    end in
  (w4, [xlate b0 w1 m0; xlate b1 w2 m1; xlate b2 w3 m2; xlate b3 w4 m3]).

(** [opensase_nat_node]: [now] is read once per frame. *)
Definition opensase_nat_node (vm : vlib_main_t) (w : nat_worker_t)
    (frame : list vlib_buffer_t)
  : (vlib_main_t * nat_worker_t)
    * list (vlib_buffer_t * opensase_nat_next_t) :=
  let '(now, vm) := vlib_time_now vm in
  let '(w, outs) := frame_loop (nat_quad now) (nat_single now) w frame in
  ((vm, w), outs).

End nat.

(** ** QoS node ([node_qos.c]) *)

Inductive opensase_qos_next_t :=
| OPENSASE_QOS_NEXT_IP4_LOOKUP
| OPENSASE_QOS_NEXT_WIREGUARD
| OPENSASE_QOS_NEXT_DROP.

Definition qos_to_dscp : list Z := [46; 26; 0; 10; 8].

(** [apply_dscp].  The header checksum is taken while the header still
    holds the old ToS byte; the ToS byte is stored afterwards. *)
Definition apply_dscp (b : vlib_buffer_t) (qos_class : Z) : vlib_buffer_t :=
  let dscp :=
    if qos_class <? OPENSASE_QOS_N_CLASSES
    then nth (Z.to_nat qos_class) qos_to_dscp 0
    else 0 in
  let old_tos := ip4_tos (b_ip4 b) in
  let new_tos := u8 (Z.lor (Z.shiftl dscp 2) (Z.land old_tos 3)) in
  if negb (old_tos =? new_tos) then
    let b := set_ip4 b (set_checksum (b_ip4 b) (ip4_header_checksum b)) in
    set_ip4 b (set_tos (b_ip4 b) new_tos)
  else b.

Record token_bucket_t := {
  tb_tokens : f64;
  tb_last_update : f64;
  tb_rate_bps : f64;
  tb_burst_bytes : f64
}.

Definition MAX_TENANT_LIMITERS : Z := 1024.

Definition zero_bucket : token_bucket_t :=
  {| tb_tokens := 0%float; tb_last_update := 0%float;
     tb_rate_bps := 0%float; tb_burst_bytes := 0%float |}.

(** [tenant_limiters[tenant][class]]: a static array, zero until
    configured. *)
Definition limiter (tl : gmap (Z * Z) token_bucket_t) (tenant_idx cls : Z)
  : token_bucket_t :=
  default zero_bucket (tl !! (tenant_idx, cls)).

(** [u32] to [f64]. *)
Definition f64_of_u32 (n : Z) : f64 := PrimFloat.of_uint63 (Uint63.of_Z n).

(** [init_rate_limiter]; [0x1.999999999999ap-4] is the double [0.1]. *)
Definition init_rate_limiter (rate_mbps : f64) : token_bucket_t :=
  let rate_bps := (rate_mbps * 1e6 / 8)%float in
  let burst_bytes := (rate_bps * 0x1.999999999999ap-4)%float in
  {| tb_tokens := burst_bytes; tb_last_update := 0%float;
     tb_rate_bps := rate_bps; tb_burst_bytes := burst_bytes |}.

(** [rate_limit_check]: the bucket after the call and the verdict
    (1 allow, 0 drop). *)
Definition rate_limit_check (tb : token_bucket_t) (packet_bytes : Z)
    (now : f64) : token_bucket_t * Z :=
  let tokens :=
    if (0 <? tb_last_update tb)%float then
      let elapsed := (now - tb_last_update tb)%float in
      let tokens := (tb_tokens tb + elapsed * tb_rate_bps tb)%float in
      if (tb_burst_bytes tb <? tokens)%float then tb_burst_bytes tb
      else tokens
    else tb_tokens tb in
  if (f64_of_u32 packet_bytes <=? tokens)%float then
    ({| tb_tokens := (tokens - f64_of_u32 packet_bytes)%float;
        tb_last_update := now;
        tb_rate_bps := tb_rate_bps tb;
        tb_burst_bytes := tb_burst_bytes tb |}, 1)
  else
    ({| tb_tokens := tokens; tb_last_update := now;
        tb_rate_bps := tb_rate_bps tb;
        tb_burst_bytes := tb_burst_bytes tb |}, 0).

(** [opensase_qos_config_fn] after parsing; [None] is the error return. *)
Definition opensase_qos_config_fn (tl : gmap (Z * Z) token_bucket_t)
    (tenant_id rate_mbps qos_class : Z)
  : option (gmap (Z * Z) token_bucket_t) :=
  if MAX_TENANT_LIMITERS <=? tenant_id then None
  else if OPENSASE_QOS_N_CLASSES <=? qos_class then None
  else Some (<[(tenant_id, qos_class) :=
                 init_rate_limiter (f64_of_u32 rate_mbps)]> tl).

Definition set_flags (b : vlib_buffer_t) (flags : Z) : vlib_buffer_t :=
  set_opaque b
    {| op_tenant_id := op_tenant_id (b_opaque b);
       op_policy_id := op_policy_id (b_opaque b);
       op_app_id := op_app_id (b_opaque b);
       op_qos_class := op_qos_class (b_opaque b);
       op_flags := flags;
       op_session_idx := op_session_idx (b_opaque b) |}.

(** The state the QoS node works on. *)
Record qos_state_t := {
  q_worker : opensase_worker_t;
  q_limiters : gmap (Z * Z) token_bucket_t
}.

(** "Check rate limits for scavenger class", as written for packet 0 of
    the four-packet block. *)
Definition qos_rate_limit (now : f64) (st : qos_state_t) (b : vlib_buffer_t)
    (pkt_len : Z) : qos_state_t * (vlib_buffer_t * opensase_qos_next_t) :=
  if op_qos_class (b_opaque b) =? OPENSASE_QOS_SCAVENGER then
    let tenant_idx := op_tenant_id (b_opaque b) mod MAX_TENANT_LIMITERS in
    let tb := limiter (q_limiters st) tenant_idx OPENSASE_QOS_SCAVENGER in
    if (0 <? tb_rate_bps tb)%float then
      let '(tb', ok) := rate_limit_check tb pkt_len now in
      let tl' := <[(tenant_idx, OPENSASE_QOS_SCAVENGER) := tb']> (q_limiters st) in
      if ok =? 0 then
        ({| q_worker :=
              set_packets_dropped (q_worker st)
                (u64 (w_packets_dropped (q_worker st) + 1));
            q_limiters := tl' |},
         (set_flags b (Z.lor (op_flags (b_opaque b)) OPENSASE_FLAG_RATE_LIMITED),
          OPENSASE_QOS_NEXT_DROP))
      else
        ({| q_worker := q_worker st; q_limiters := tl' |},
         (b, OPENSASE_QOS_NEXT_IP4_LOOKUP))
    else (st, (b, OPENSASE_QOS_NEXT_IP4_LOOKUP))
  else (st, (b, OPENSASE_QOS_NEXT_IP4_LOOKUP)).

(** The four-packet block: DSCP on all four, byte statistics, next index
    [ip4-lookup] for all four, and the rate limit check of packet 0. *)
Definition qos_quad (now : f64) (st : qos_state_t)
    (b0 b1 b2 b3 : vlib_buffer_t)
  : qos_state_t * list (vlib_buffer_t * opensase_qos_next_t) :=
  let b0 := apply_dscp b0 (op_qos_class (b_opaque b0)) in
  let b1 := apply_dscp b1 (op_qos_class (b_opaque b1)) in
  let b2 := apply_dscp b2 (op_qos_class (b_opaque b2)) in
  let b3 := apply_dscp b3 (op_qos_class (b_opaque b3)) in
  let pkt_len0 := vlib_buffer_length_in_chain b0 in
  let pkt_len1 := vlib_buffer_length_in_chain b1 in
  let pkt_len2 := vlib_buffer_length_in_chain b2 in
  let pkt_len3 := vlib_buffer_length_in_chain b3 in
  let w := q_worker st in
  let w :=
    set_bytes_processed w
      (u64 (w_bytes_processed w
            + u32 (pkt_len0 + pkt_len1 + pkt_len2 + pkt_len3))) in
  let st := {| q_worker := w; q_limiters := q_limiters st |} in
  let '(st, o0) := qos_rate_limit now st b0 pkt_len0 in
  (st, [o0; (b1, OPENSASE_QOS_NEXT_IP4_LOOKUP);
        (b2, OPENSASE_QOS_NEXT_IP4_LOOKUP);
        (b3, OPENSASE_QOS_NEXT_IP4_LOOKUP)]).

(** The tail loop: DSCP, byte statistics, next index [ip4-lookup]. *)
Definition qos_single (now : f64) (st : qos_state_t) (b : vlib_buffer_t)
  : qos_state_t * (vlib_buffer_t * opensase_qos_next_t) :=
  let b := apply_dscp b (op_qos_class (b_opaque b)) in
  let w := q_worker st in
  let w :=
    set_bytes_processed w
      (u64 (w_bytes_processed w + vlib_buffer_length_in_chain b)) in
  ({| q_worker := w; q_limiters := q_limiters st |},
   (b, OPENSASE_QOS_NEXT_IP4_LOOKUP)).

Definition opensase_qos_node (vm : vlib_main_t) (st : qos_state_t)
    (frame : list vlib_buffer_t)
  : (vlib_main_t * qos_state_t)
    * list (vlib_buffer_t * opensase_qos_next_t) :=
  let '(now, vm) := vlib_time_now vm in
  let '(st, outs) := frame_loop (qos_quad now) (qos_single now) st frame in
  ((vm, st), outs).

(** ** Tenant node ([node_tenant.c]) *)

Inductive opensase_tenant_next_t :=
| OPENSASE_TENANT_NEXT_SECURITY
| OPENSASE_TENANT_NEXT_DROP.

Definition TENANT_HASH_BUCKETS : Z := 65536.
Definition TENANT_HASH_MASK : Z := TENANT_HASH_BUCKETS - 1.

Record tenant_entry_t := {
  e_src_prefix : Z;
  e_prefix_len : Z;
  e_tenant_id : Z;
  e_vrf_id : Z;
  e_valid : Z
}.

Definition zero_entry : tenant_entry_t :=
  {| e_src_prefix := 0; e_prefix_len := 0; e_tenant_id := 0; e_vrf_id := 0;
     e_valid := 0 |}.

(** [tenant_bucket_t]: the four entries of a bucket, in slot order. *)
Definition empty_bucket : list tenant_entry_t := replicate 4 zero_entry.

(** [tenant_hash[h]]: a static array of 65536 buckets, zero until a
    mapping is added. *)
Definition tenant_bucket (tbl : gmap Z (list tenant_entry_t)) (h : Z)
  : list tenant_entry_t :=
  default empty_bucket (tbl !! h).

(** The test of one bucket entry in [tenant_lookup_fast].  For
    [prefix_len = 0] the C shift count is 32, which C leaves undefined;
    the properties below are about entries with [1 <= prefix_len <= 32]. *)
Definition tenant_entry_hit (src_ip : Z) (e : tenant_entry_t) : bool :=
  negb (e_valid e =? 0)
  && (Z.land src_ip (clib_host_to_net_u32 (prefix_mask (e_prefix_len e)))
      =? Z.land (e_src_prefix e)
                (clib_host_to_net_u32 (prefix_mask (e_prefix_len e)))).

(** [for (i = 0; i < 4; i++)] over the entries of the bucket. *)
Fixpoint tenant_bucket_scan (src_ip : Z) (entries : list tenant_entry_t)
  : Z * Z :=
  match entries with
  | [] => (0, 0)
  | e :: rest =>
      if tenant_entry_hit src_ip e then (e_tenant_id e, e_vrf_id e)
      else tenant_bucket_scan src_ip rest
  end.

(** *** The locals of [opensase_tenant_add_fn]

    [prefix] is not initialised.  [unformat (input, "%U/%d", ...,
    &prefix, &prefix_len)] stores the parsed address in [prefix] and then
    the parsed length as an [int], four bytes, at the address of the
    one-byte local [prefix_len].  On the little-endian host the low byte
    lands in [prefix_len]; the other three bytes land on what the compiler
    placed behind it, which C does not define.
    [int_store_spill hi (prefix, tenant_id, vrf_id)] stands for what the
    three locals hold after those bytes, [hi], have landed. *)
Record tenant_add_locals := {
  l_prefix : Z;
  l_prefix_len : Z;
  l_tenant_id : Z;
  l_vrf_id : Z
}.

Class TenantAddStack := {
  prefix_uninitialised : Z;
  int_store_spill : Z -> Z * Z * Z -> Z * Z * Z
}.

(** One stack layout, used for the runs of Part II: [prefix] lies right
    behind [prefix_len], so the three bytes replace the first three
    octets of the address just parsed. *)
Definition prefix_behind_len : TenantAddStack :=
  {| prefix_uninitialised := 0;
     int_store_spill := fun hi '(prefix, tenant_id, vrf_id) =>
       (Z.lor (Z.land prefix 0xFF000000) hi, tenant_id, vrf_id) |}.

(** The pieces of a command line that the parse loop tells apart. *)
Inductive tenant_add_arg :=
| Arg_prefix (addr len : Z)
| Arg_tenant (id : Z)
| Arg_vrf (id : Z)
| Arg_other.

Inductive tenant_add_result :=
| Tenant_added
| Tenant_unknown_input
| Tenant_hash_bucket_full.

Section tenant.
Context `{!XXHash, !TenantAddStack}.

Definition tenant_hash_of (addr : Z) : Z :=
  Z.land (u32 (clib_xxhash addr)) TENANT_HASH_MASK.

(** [tenant_lookup_fast]: the returned tenant id and the [vrf_id]
    out-parameter. *)
Definition tenant_lookup_fast (tbl : gmap Z (list tenant_entry_t))
    (src_ip : Z) : Z * Z :=
  tenant_bucket_scan src_ip
    (take 4 (tenant_bucket tbl (tenant_hash_of src_ip))).

Definition set_tenant_id (b : vlib_buffer_t) (tenant_id : Z)
  : vlib_buffer_t :=
  set_opaque b
    {| op_tenant_id := tenant_id;
       op_policy_id := op_policy_id (b_opaque b);
       op_app_id := op_app_id (b_opaque b);
       op_qos_class := op_qos_class (b_opaque b);
       op_flags := op_flags (b_opaque b);
       op_session_idx := op_session_idx (b_opaque b) |}.

(** One packet of the tenant node.  The looked-up [vrf] stays in a local
    variable; the metadata receives the tenant id. *)
Definition tenant_single (tbl : gmap Z (list tenant_entry_t))
    (b : vlib_buffer_t) : vlib_buffer_t * opensase_tenant_next_t :=
  let '(tenant0, vrf0) :=
    tenant_lookup_fast tbl (ip4_src_address (b_ip4 b)) in
  (set_tenant_id b tenant0, OPENSASE_TENANT_NEXT_SECURITY).

(** [opensase_tenant_node]: the 8-, 4- and 1-packet loops do the same
    work per packet and share no state. *)
Definition opensase_tenant_node (tbl : gmap Z (list tenant_entry_t))
    (frame : list vlib_buffer_t)
  : list (vlib_buffer_t * opensase_tenant_next_t) :=
  map (tenant_single tbl) frame.

(** "Find free slot": the first slot at or after [i] that is not valid. *)
Fixpoint find_free_slot (entries : list tenant_entry_t) (i : nat)
  : option nat :=
  match entries with
  | [] => None
  | e :: rest =>
      if e_valid e =? 0 then Some i else find_free_slot rest (S i)
  end.

(** The parse loop of [opensase_tenant_add_fn]: the locals at its end, or
    [None] for the "unknown input" return. *)
Fixpoint tenant_add_parse (input : list tenant_add_arg)
    (l : tenant_add_locals) : option tenant_add_locals :=
  match input with
  | [] => Some l
  | Arg_prefix addr len :: rest =>
      let '(prefix, tenant_id, vrf_id) :=
        int_store_spill ((len / 256) mod 2 ^ 24)
                        (addr, l_tenant_id l, l_vrf_id l) in
      tenant_add_parse rest
        {| l_prefix := prefix; l_prefix_len := u8 len;
           l_tenant_id := tenant_id; l_vrf_id := vrf_id |}
  | Arg_tenant id :: rest =>
      tenant_add_parse rest
        {| l_prefix := l_prefix l; l_prefix_len := l_prefix_len l;
           l_tenant_id := u32 id; l_vrf_id := l_vrf_id l |}
  | Arg_vrf id :: rest =>
      tenant_add_parse rest
        {| l_prefix := l_prefix l; l_prefix_len := l_prefix_len l;
           l_tenant_id := l_tenant_id l; l_vrf_id := u32 id |}
  | Arg_other :: _ => None
  end.

(** The locals as declared. *)
Definition tenant_add_locals_init : tenant_add_locals :=
  {| l_prefix := prefix_uninitialised; l_prefix_len := 24;
     l_tenant_id := 1; l_vrf_id := 0 |}.

(** [opensase_tenant_add_fn]: the table afterwards and the outcome. *)
Definition opensase_tenant_add_fn (tbl : gmap Z (list tenant_entry_t))
    (input : list tenant_add_arg)
  : gmap Z (list tenant_entry_t) * tenant_add_result :=
  match tenant_add_parse input tenant_add_locals_init with
  | None => (tbl, Tenant_unknown_input)
  | Some l =>
      let hash := tenant_hash_of (l_prefix l) in
      let bucket := tenant_bucket tbl hash in
      match find_free_slot (take 4 bucket) 0 with
      | Some i =>
          (<[hash :=
               <[i := {| e_src_prefix := l_prefix l;
                         e_prefix_len := l_prefix_len l;
                         e_tenant_id := l_tenant_id l;
                         e_vrf_id := l_vrf_id l;
                         e_valid := 1 |}]> bucket]> tbl,
           Tenant_added)
      | None => (tbl, Tenant_hash_bucket_full)
      end
  end.

End tenant.

(** ** IPS node ([node_security_inspect.c]) *)

Inductive security_inspect_next_t :=
| SECURITY_INSPECT_NEXT_NAT
| SECURITY_INSPECT_NEXT_DROP
| SECURITY_INSPECT_NEXT_LOG.

Definition IPS_CAT_MALWARE : Z := 0.
Definition IPS_CAT_EXPLOIT : Z := 1.
Definition IPS_CAT_BOTNET : Z := 2.
Definition IPS_CAT_CVE : Z := 3.
Definition IPS_CAT_POLICY : Z := 4.
Definition IPS_CAT_N_CATEGORIES : Z := 5.

Definition IPS_ACTION_ALERT : Z := 0.
Definition IPS_ACTION_DROP : Z := 1.
Definition IPS_ACTION_REJECT : Z := 2.

Record ips_match_result_t := {
  r_signature_id : Z;
  r_action : Z;
  r_category : Z;
  r_matched : Z
}.

Record ips_worker_t := {
  iw_packets_scanned : Z;
  iw_bytes_scanned : Z;
  iw_signatures_matched : Z;
  iw_packets_blocked : Z;
  iw_category_hits : list Z
}.

(** Character codes used by the scanner. *)
Definition chr (c : ascii) : Z := Z.of_N (N_of_ascii c).

(** The test of the first loop at offset [i]. *)
Definition jndi_at (data : list Z) (i : Z) : bool :=
  (byte_at data i =? chr "$"%char)
  && (byte_at data (i + 1) =? chr "{"%char)
  && ((byte_at data (i + 2) =? chr "j"%char) || (byte_at data (i + 2) =? chr "J"%char)).

(** The test of the second loop at offset [i]. *)
Definition union_at (data : list Z) (i : Z) : bool :=
  ((byte_at data i =? chr "U"%char) || (byte_at data i =? chr "u"%char))
  && ((byte_at data (i + 1) =? chr "N"%char) || (byte_at data (i + 1) =? chr "n"%char))
  && ((byte_at data (i + 2) =? chr "I"%char) || (byte_at data (i + 2) =? chr "i"%char))
  && ((byte_at data (i + 3) =? chr "O"%char) || (byte_at data (i + 3) =? chr "o"%char))
  && ((byte_at data (i + 4) =? chr "N"%char) || (byte_at data (i + 4) =? chr "n"%char)).

(** [for (u32 i = from; i < bound; i++) if (test i) return]: does the
    loop find a position?  [n] counts the iterations left. *)
Fixpoint scan_loop (test : Z -> bool) (i : Z) (n : nat) : bool :=
  match n with
  | O => false
  | S n' => if test i then true else scan_loop test (i + 1) n'
  end.

(** [simple_pattern_scan]: [result] is updated in place. *)
Definition simple_pattern_scan (data : list Z) (len : Z)
    (result : ips_match_result_t) : ips_match_result_t :=
  if (10 <=? len) && scan_loop (jndi_at data) 0 (Z.to_nat (len - 10)) then
    {| r_signature_id := 4001; r_action := IPS_ACTION_DROP;
       r_category := IPS_CAT_CVE; r_matched := 1 |}
  else if (6 <=? len) && scan_loop (union_at data) 0 (Z.to_nat (len - 6)) then
    {| r_signature_id := 2003; r_action := IPS_ACTION_DROP;
       r_category := IPS_CAT_EXPLOIT; r_matched := 1 |}
  else result.

Definition set_bytes_scanned (w : ips_worker_t) (n : Z) : ips_worker_t :=
  {| iw_packets_scanned := iw_packets_scanned w;
     iw_bytes_scanned := n;
     iw_signatures_matched := iw_signatures_matched w;
     iw_packets_blocked := iw_packets_blocked w;
     iw_category_hits := iw_category_hits w |}.

(** [ips_scan_packet] without Hyperscan: locate the L4 payload, bound the
    scan to 1500 bytes, run the fall-back scanner.  [result0] is the
    caller's uninitialised result structure. *)
Definition ips_scan_packet (w : ips_worker_t) (b : vlib_buffer_t)
    (result0 : ips_match_result_t) : ips_worker_t * ips_match_result_t :=
  let ip4 := b_ip4 b in
  let mem := buffer_bytes b in
  let ip_len := clib_net_to_host_u16 (ip4_length ip4) in
  let ip_hdr_len :=
    Z.shiftl (Z.land (ip_version_and_header_length ip4) 15) 2 in
  let result :=
    {| r_signature_id := 0; r_action := IPS_ACTION_ALERT;
       r_category := r_category result0; r_matched := 0 |} in
  let scan (payload_off payload_len : Z) :=
    if (payload_len =? 0) || (65535 <? payload_len) then (w, result)
    else
      let payload_len := if 1500 <? payload_len then 1500 else payload_len in
      (set_bytes_scanned w (u64 (iw_bytes_scanned w + payload_len)),
       simple_pattern_scan (drop (Z.to_nat payload_off) mem) payload_len
                           result) in
  if ip4_protocol ip4 =? IP_PROTOCOL_TCP then
    let tcp_hdr_len :=
      Z.shiftl (Z.shiftr (byte_at mem (ip_hdr_len + 12)) 4) 2 in
    scan (ip_hdr_len + tcp_hdr_len) (u32 (ip_len - ip_hdr_len - tcp_hdr_len))
  else if ip4_protocol ip4 =? IP_PROTOCOL_UDP then
    let udp_length :=
      clib_net_to_host_u16 (load_u16 mem (ip_hdr_len + 4)) in
    scan (ip_hdr_len + 8) (u32 (udp_length - 8))
  else (w, result).

(** One packet of the IPS node (both loops do the same per packet). *)
Definition security_inspect_single (w : ips_worker_t) (b : vlib_buffer_t)
  : ips_worker_t * (vlib_buffer_t * security_inspect_next_t) :=
  let '(w, res0) :=
    ips_scan_packet w b
      {| r_signature_id := 0; r_action := 0; r_category := 0;
         r_matched := 0 |} in
  let scanned := u64 (iw_packets_scanned w + 1) in
  if negb (r_matched res0 =? 0) then
    let hits :=
      alter (fun n => u64 (n + 1)) (Z.to_nat (r_category res0))
            (iw_category_hits w) in
    let drop_it := r_action res0 =? IPS_ACTION_DROP in
    ({| iw_packets_scanned := scanned;
        iw_bytes_scanned := iw_bytes_scanned w;
        iw_signatures_matched := u64 (iw_signatures_matched w + 1);
        iw_packets_blocked :=
          if drop_it then u64 (iw_packets_blocked w + 1)
          else iw_packets_blocked w;
        iw_category_hits := hits |},
     (b, if drop_it then SECURITY_INSPECT_NEXT_DROP
         else SECURITY_INSPECT_NEXT_LOG))
  else
    ({| iw_packets_scanned := scanned;
        iw_bytes_scanned := iw_bytes_scanned w;
        iw_signatures_matched := iw_signatures_matched w;
        iw_packets_blocked := iw_packets_blocked w;
        iw_category_hits := iw_category_hits w |},
     (b, SECURITY_INSPECT_NEXT_NAT)).

(** The four-packet block: the four scans, [packets_scanned += 4], then the
    four verdicts; as the scans only add to [bytes_scanned], this is four
    times the single-packet work. *)
Definition security_inspect_quad (w : ips_worker_t)
    (b0 b1 b2 b3 : vlib_buffer_t)
  : ips_worker_t * list (vlib_buffer_t * security_inspect_next_t) :=
  let '(w, o0) := security_inspect_single w b0 in
  let '(w, o1) := security_inspect_single w b1 in
  let '(w, o2) := security_inspect_single w b2 in
  let '(w, o3) := security_inspect_single w b3 in
  (w, [o0; o1; o2; o3]).

Definition security_inspect_node (w : ips_worker_t)
    (frame : list vlib_buffer_t)
  : ips_worker_t * list (vlib_buffer_t * security_inspect_next_t) :=
  frame_loop security_inspect_quad security_inspect_single w frame.

(** ** Derived notions used in the statements *)

(** *** Session table invariants *)

(** The hash only holds indices of allocated slots, and the slots in use
    fit the table. *)
Definition worker_wf (w : opensase_worker_t) : Prop :=
  0 <= w_n_sessions w <= Z.of_nat (length (w_sessions w))
  /\ Z.of_nat (length (w_sessions w)) < 2 ^ 32
  /\ forall h i, w_session_hash w !! h = Some i ->
       Z.of_nat i < w_n_sessions w.

(** The session table is full. *)
Definition session_table_full (w : opensase_worker_t) : Prop :=
  Z.of_nat (length (w_sessions w)) <= w_n_sessions w.







(** *** Per-frame accounting of the session tracker *)









(** *** The policy matcher in the words of the specification *)

(** The address as a number, first octet most significant. *)
Definition ip4_number (as_u32 : Z) : Z := clib_net_to_host_u32 as_u32.

(** A prefix predicate: the leading [len] bits of the address are those
    of the prefix; length zero matches any address. *)
Definition prefix_covers (prefix len addr : Z) : Prop :=
  len = 0
  \/ ip4_number addr / 2 ^ (32 - len) = ip4_number prefix / 2 ^ (32 - len).

(** A port range predicate; the empty range [0, 0] matches any port. *)
Definition port_range_admits (lo hi port : Z) : Prop :=
  (lo = 0 /\ hi = 0) \/ lo <= port <= hi.

(** Every predicate of the policy matches the packet. *)
Definition policy_predicates_match (p : opensase_policy_t)
    (ip4 : ip4_header_t) (src_port dst_port tenant_id : Z) : Prop :=
  (p_tenant_id p = 0 \/ p_tenant_id p = tenant_id)
  /\ prefix_covers (p_src_prefix p) (p_src_prefix_len p) (ip4_src_address ip4)
  /\ prefix_covers (p_dst_prefix p) (p_dst_prefix_len p) (ip4_dst_address ip4)
  /\ (p_protocol p = 0 \/ p_protocol p = ip4_protocol ip4)
  /\ port_range_admits (p_src_port_min p) (p_src_port_max p) src_port
  /\ port_range_admits (p_dst_port_min p) (p_dst_port_max p) dst_port.

(** A slot of the policy vector that holds a policy: not the all-zero
    filler that [vec_validate] leaves in unused slots. *)
Definition policy_in_use (p : opensase_policy_t) : Prop :=
  p_policy_id p <> 0 \/ p_priority p <> 0.

(** Slot [k] holds the first policy of best (lowest) priority among the
    policies that satisfy [E]. *)
Definition first_of_best_priority (ps : list opensase_policy_t)
    (E : opensase_policy_t -> Prop) (k : nat) : Prop :=
  exists p, ps !! k = Some p /\ E p
    /\ forall j q, ps !! j = Some q -> E q ->
         p_priority p <= p_priority q
         /\ ((j < k)%nat -> p_priority p < p_priority q).

(** The result [r] of the matcher is right for the candidates [E]: the
    index of the first policy of best priority, or [~0] when there is no
    candidate. *)
Definition policy_match_result (ps : list opensase_policy_t)
    (E : opensase_policy_t -> Prop) (r : Z) : Prop :=
  (exists k, r = Z.of_nat k /\ r <> U32_MAX /\ first_of_best_priority ps E k)
  \/ (r = U32_MAX /\ forall j q, ps !! j = Some q -> ~ E q).

(** The policy that the policy node applies to a buffer, if any. *)
Definition matched_policy (osm : opensase_main_t) (b : vlib_buffer_t)
  : option opensase_policy_t :=
  let '(src_port, dst_port) := extract_ports b in
  let idx :=
    opensase_policy_match osm (b_ip4 b) src_port dst_port
                          (op_tenant_id (b_opaque b)) in
  if idx =? U32_MAX then None else osm_policies osm !! Z.to_nat idx.

(** What the "apply policy actions" block decides, as a function of the
    matched policy and of the global DLP switch. *)
Definition policy_decision (osm : opensase_main_t) (b : vlib_buffer_t)
  : opensase_policy_next_t :=
  match matched_policy osm b with
  | Some p =>
      if p_action p =? OPENSASE_ACTION_DENY then OPENSASE_POLICY_NEXT_DROP
      else if p_action p =? OPENSASE_ACTION_INSPECT_DLP
      then OPENSASE_POLICY_NEXT_DLP
      else OPENSASE_POLICY_NEXT_CLASSIFY
  | None =>
      if osm_dlp_enabled osm =? 0 then OPENSASE_POLICY_NEXT_CLASSIFY
      else OPENSASE_POLICY_NEXT_DLP
  end.

Section datapath.
Context `{!XXHash}.

(** The hash of the flow a buffer belongs to, as the security node
    computes it. *)
Definition buffer_session_hash (b : vlib_buffer_t) : Z :=
  opensase_session_hash (b_ip4 b) (fst (extract_ports b))
                        (snd (extract_ports b)).





(** The pool that [nat_create_mapping] draws from for a tenant: the
    tenant's own pool, pool 0 for tenant ids of 256 and more and for
    tenants whose pool has no external address. *)
Definition nat_pool_index (w : nat_worker_t) (tenant_id : Z) : Z :=
  let tenant_id := if 256 <=? tenant_id then 0 else tenant_id in
  if pool_external_addr (tenant_pool w tenant_id) =? 0 then 0 else tenant_id.

(** The hash of the flow a buffer belongs to, as the NAT node computes
    it (ports are read whatever the protocol). *)
Definition buffer_nat_hash (b : vlib_buffer_t) : Z :=
  nat_hash_key (ip4_src_address (b_ip4 b)) (ip4_dst_address (b_ip4 b))
               (l4_src_port b) (l4_dst_port b) (ip4_protocol (b_ip4 b)).



End datapath.

(** ** Concrete packets and configurations for the runs of Part II *)

Definition be16 (x : Z) : list Z := [x / 256; x mod 256].

Definition TCP_FLAG_FIN : Z := 1.
Definition TCP_FLAG_SYN : Z := 2.
Definition TCP_FLAG_RST : Z := 4.
Definition TCP_FLAG_ACK : Z := 16.

(** A TCP segment without options: ports, sequence numbers, data offset 5,
    flags, window, checksum, urgent pointer, payload. *)
Definition tcp_segment (sport dport flags : Z) (payload : list Z) : list Z :=
  be16 sport ++ be16 dport ++ [0; 0; 0; 0] ++ [0; 0; 0; 0]
  ++ [80; flags] ++ be16 65535 ++ [0; 0] ++ [0; 0] ++ payload.

Definition udp_datagram (sport dport : Z) (payload : list Z) : list Z :=
  be16 sport ++ be16 dport ++ be16 (8 + Z.of_nat (length payload))
  ++ [0; 0] ++ payload.

(** An IPv4 packet without options, ToS 0, with a valid header checksum,
    classified to [tenant] and [qos]. *)
Definition ip4_packet (proto src dst tenant qos : Z) (l4 : list Z)
  : vlib_buffer_t :=
  let h :=
    {| ip_version_and_header_length := 69; ip4_tos := 0;
       ip4_length := bswap16 (20 + Z.of_nat (length l4));
       ip4_fragment_id := 0; ip4_flags_and_fragment_offset := 0;
       ip4_ttl := 64; ip4_protocol := proto; ip4_checksum := 0;
       ip4_src_address := src; ip4_dst_address := dst |} in
  let b :=
    {| b_ip4 := h; b_l4 := l4;
       b_opaque :=
         {| op_tenant_id := tenant; op_policy_id := 0; op_app_id := 0;
            op_qos_class := qos; op_flags := 0; op_session_idx := 0 |} |} in
  set_ip4 b (set_checksum h (ip4_header_checksum b)).

Definition bytes_of_string (s : string) : list Z :=
  map chr (String.list_ascii_of_string s).

(** TCP SYN 10.1.0.5:33000 -> 203.0.113.10:443 of tenant 7. *)
Definition syn_packet : vlib_buffer_t :=
  ip4_packet IP_PROTOCOL_TCP (ip4_addr 10 1 0 5) (ip4_addr 203 0 113 10)
             7 OPENSASE_QOS_DEFAULT (tcp_segment 33000 443 TCP_FLAG_SYN []).

(** A policy that matches every packet of every tenant. *)
Definition any_policy (id priority action : Z) : opensase_policy_t :=
  {| p_policy_id := id; p_priority := priority; p_tenant_id := 0;
     p_src_prefix := 0; p_dst_prefix := 0;
     p_src_prefix_len := 0; p_dst_prefix_len := 0;
     p_src_port_min := 0; p_src_port_max := 0;
     p_dst_port_min := 0; p_dst_port_max := 0;
     p_protocol := 0; p_action := action;
     p_qos_class := OPENSASE_QOS_DEFAULT; p_log_enabled := 0;
     p_rate_limit_kbps := 0 |}.

(** Deny everything sent to the host [dst]. *)
Definition deny_host_policy (id priority dst : Z) : opensase_policy_t :=
  {| p_policy_id := id; p_priority := priority; p_tenant_id := 0;
     p_src_prefix := 0; p_dst_prefix := dst;
     p_src_prefix_len := 0; p_dst_prefix_len := 32;
     p_src_port_min := 0; p_src_port_max := 0;
     p_dst_port_min := 0; p_dst_port_max := 0;
     p_protocol := 0; p_action := OPENSASE_ACTION_DENY;
     p_qos_class := OPENSASE_QOS_DEFAULT; p_log_enabled := 1;
     p_rate_limit_kbps := 0 |}.

(** The plugin defaults of [opensase_init] with a given policy vector. *)
Definition osm_with (policies : list opensase_policy_t) : opensase_main_t :=
  {| osm_policies := policies; osm_session_timeout_secs := 300;
     osm_max_sessions_per_worker := 1048576; osm_dlp_enabled := 1;
     osm_logging_enabled := 1 |}.

(** The reply to [syn_packet]: 203.0.113.10:443 -> 10.1.0.5:33000. *)
Definition synack_packet : vlib_buffer_t :=
  ip4_packet IP_PROTOCOL_TCP (ip4_addr 203 0 113 10) (ip4_addr 10 1 0 5)
             7 OPENSASE_QOS_DEFAULT
             (tcp_segment 443 33000 (TCP_FLAG_SYN + TCP_FLAG_ACK) []).

(** A FIN and a RST of the flow of [syn_packet]. *)
Definition fin_packet : vlib_buffer_t :=
  ip4_packet IP_PROTOCOL_TCP (ip4_addr 10 1 0 5) (ip4_addr 203 0 113 10)
             7 OPENSASE_QOS_DEFAULT
             (tcp_segment 33000 443 (TCP_FLAG_FIN + TCP_FLAG_ACK) []).

Definition rst_packet : vlib_buffer_t :=
  ip4_packet IP_PROTOCOL_TCP (ip4_addr 10 1 0 5) (ip4_addr 203 0 113 10)
             7 OPENSASE_QOS_DEFAULT (tcp_segment 33000 443 TCP_FLAG_RST []).

(** Another flow of the same tenant: 10.1.0.6:40000 -> 203.0.113.10:443. *)
Definition other_flow_packet : vlib_buffer_t :=
  ip4_packet IP_PROTOCOL_TCP (ip4_addr 10 1 0 6) (ip4_addr 203 0 113 10)
             7 OPENSASE_QOS_DEFAULT (tcp_segment 40000 443 TCP_FLAG_SYN []).

(** A third flow: 10.1.0.7:40001 -> 203.0.113.10:443. *)
Definition third_flow_packet : vlib_buffer_t :=
  ip4_packet IP_PROTOCOL_TCP (ip4_addr 10 1 0 7) (ip4_addr 203 0 113 10)
             7 OPENSASE_QOS_DEFAULT (tcp_segment 40001 443 TCP_FLAG_SYN []).

(** 10.1.1.5:33001 -> 203.0.113.10:443.  Against [syn_packet] the source
    address differs in bit 16 and the source port in bit 0; in the key the
    source port lies 48 bits up and the source address 32 bits up, so the
    two differences cancel and both flows have the same key. *)
Definition colliding_packet : vlib_buffer_t :=
  ip4_packet IP_PROTOCOL_TCP (ip4_addr 10 1 1 5) (ip4_addr 203 0 113 10)
             7 OPENSASE_QOS_DEFAULT (tcp_segment 33001 443 TCP_FLAG_SYN []).

(** The 5-tuple of a buffer. *)
Definition five_tuple (b : vlib_buffer_t) : Z * Z * Z * Z * Z :=
  (ip4_src_address (b_ip4 b), ip4_dst_address (b_ip4 b),
   l4_src_port b, l4_dst_port b, ip4_protocol (b_ip4 b)).

(** A clock that starts at 100 s and advances by one second per reading. *)
Definition tick_clock (n : nat) : f64 := f64_of_u32 (100 + Z.of_nat n).

Definition vm0 : vlib_main_t := {| cpu_time := tick_clock; cpu_reads := 0 |}.

(** A NAT worker with [table_size] pre-validated mapping slots whose
    tenant 7 draws from 198.51.100.4, ports [port_start, port_end]. *)
Definition nat_worker_with_pool (table_size : nat) (port_start port_end : Z)
  : nat_worker_t :=
  default (opensase_nat_init table_size)
    (opensase_nat_pool_fn (opensase_nat_init table_size) 7
       (ip4_addr 198 51 100 4) port_start port_end).

(** A 1500-byte UDP packet of tenant 7 in the scavenger class. *)
Definition scavenger_packet : vlib_buffer_t :=
  ip4_packet IP_PROTOCOL_UDP (ip4_addr 10 1 0 5) (ip4_addr 203 0 113 10)
             7 OPENSASE_QOS_SCAVENGER
             (udp_datagram 5000 6000 (replicate 1472 0)).

(** The rate limiters after
    [opensase qos rate-limit tenant 7 class 4 rate 1]. *)
Definition limiters_1mbps : gmap (Z * Z) token_bucket_t :=
  default ∅ (opensase_qos_config_fn ∅ 7 1 OPENSASE_QOS_SCAVENGER).

(** *** The tenant lookup in the words of the specification *)

(** A valid entry whose prefix covers the source address. *)
Definition tenant_entry_covers (src_ip : Z) (e : tenant_entry_t) : Prop :=
  e_valid e <> 0
  /\ ip4_number src_ip / 2 ^ (32 - e_prefix_len e)
     = ip4_number (e_src_prefix e) / 2 ^ (32 - e_prefix_len e).

Section tenant_words.
Context `{!XXHash}.

(** The mappings installed in the table. *)
Definition tenant_installed (tbl : gmap Z (list tenant_entry_t))
    (e : tenant_entry_t) : Prop :=
  e_valid e <> 0 /\ exists h i, tenant_bucket tbl h !! i = Some e.

(** A longest-prefix match of the source address among the installed
    mappings. *)
Definition longest_prefix_match (tbl : gmap Z (list tenant_entry_t))
    (src_ip : Z) (e : tenant_entry_t) : Prop :=
  tenant_installed tbl e /\ tenant_entry_covers src_ip e
  /\ forall e', tenant_installed tbl e' -> tenant_entry_covers src_ip e' ->
       e_prefix_len e' <= e_prefix_len e.

(** The table holding one mapping, 10.1.0.0/24 to tenant 7, in the
    bucket of its prefix address. *)
Definition tenant_table_24 : gmap Z (list tenant_entry_t) :=
  <[tenant_hash_of (ip4_addr 10 1 0 0) :=
      [ {| e_src_prefix := ip4_addr 10 1 0 0; e_prefix_len := 24;
           e_tenant_id := 7; e_vrf_id := 0; e_valid := 1 |};
        zero_entry; zero_entry; zero_entry ]]> ∅.

(** The table holding 10.1.0.5/16 for tenant 1 (vrf 11) and, behind it
    in the same bucket, the host route 10.1.0.5/32 for tenant 2
    (vrf 22). *)
Definition tenant_table_16_32 : gmap Z (list tenant_entry_t) :=
  <[tenant_hash_of (ip4_addr 10 1 0 5) :=
      [ {| e_src_prefix := ip4_addr 10 1 0 5; e_prefix_len := 16;
           e_tenant_id := 1; e_vrf_id := 11; e_valid := 1 |};
        {| e_src_prefix := ip4_addr 10 1 0 5; e_prefix_len := 32;
           e_tenant_id := 2; e_vrf_id := 22; e_valid := 1 |};
        zero_entry; zero_entry ]]> ∅.

End tenant_words.

(** *** The fall-back scanner in the words of the specification *)

(** The byte string [pat] occurs in [data] at offset [i]. *)
Definition occurs_at (pat data : list Z) (i : nat) : Prop :=
  take (length pat) (drop i data) = pat.

(** ASCII upper-casing of a byte. *)
Definition to_upper (c : Z) : Z :=
  if (97 <=? c) && (c <=? 122) then c - 32 else c.

(** [pat] (in upper case) occurs in [data] at offset [i], letter case
    ignored. *)
Definition occurs_at_nocase (pat data : list Z) (i : nat) : Prop :=
  map to_upper (take (length pat) (drop i data)) = pat.

Definition ips_worker_init : ips_worker_t :=
  {| iw_packets_scanned := 0; iw_bytes_scanned := 0;
     iw_signatures_matched := 0; iw_packets_blocked := 0;
     iw_category_hits := replicate (Z.to_nat IPS_CAT_N_CATEGORIES) 0 |}.

(** A TCP segment of tenant 7 that carries [payload]. *)
Definition tcp_payload_packet (payload : string) : vlib_buffer_t :=
  ip4_packet IP_PROTOCOL_TCP (ip4_addr 10 1 0 5) (ip4_addr 203 0 113 10)
             7 OPENSASE_QOS_DEFAULT
             (tcp_segment 33000 80 (TCP_FLAG_ACK + 8)
                          (bytes_of_string payload)).

(** ** Further notions used in the statements on frames, tables and commands *)

(** ** The Hyperscan match callback ([node_security_inspect.c]) *)

(** [ips_signature_t] *)
Record ips_signature_t := {
  sig_id : Z;
  sig_pattern : string;
  sig_category : Z;
  sig_action : Z
}.

(** [default_signatures], up to the sentinel. *)
Definition default_signatures : list ips_signature_t :=
  [ {| sig_id := 1001; sig_pattern := "(?i)x-malware-signature";
       sig_category := IPS_CAT_MALWARE; sig_action := IPS_ACTION_DROP |};
    {| sig_id := 1002; sig_pattern := "eval\s*\(\s*base64_decode";
       sig_category := IPS_CAT_MALWARE; sig_action := IPS_ACTION_DROP |};
    {| sig_id := 1003; sig_pattern := "(?i)powershell.*-enc";
       sig_category := IPS_CAT_MALWARE; sig_action := IPS_ACTION_DROP |};
    {| sig_id := 2001;
       sig_pattern := "\x00\x00\x00\x00.{0,4}\xff\xff\xff\xff";
       sig_category := IPS_CAT_EXPLOIT; sig_action := IPS_ACTION_DROP |};
    {| sig_id := 2002;
       sig_pattern := "(?i)select.*from.*information_schema";
       sig_category := IPS_CAT_EXPLOIT; sig_action := IPS_ACTION_DROP |};
    {| sig_id := 2003; sig_pattern := "(?i)union.*select.*from";
       sig_category := IPS_CAT_EXPLOIT; sig_action := IPS_ACTION_DROP |};
    {| sig_id := 3001; sig_pattern := "(?i)bot.*command";
       sig_category := IPS_CAT_BOTNET; sig_action := IPS_ACTION_DROP |};
    {| sig_id := 3002; sig_pattern := "\x89PNG.{0,100}\x00\x00\x00\x00";
       sig_category := IPS_CAT_BOTNET; sig_action := IPS_ACTION_ALERT |};
    {| sig_id := 4001; sig_pattern := "(?i)log4j.*\$\{jndi:";
       sig_category := IPS_CAT_CVE; sig_action := IPS_ACTION_DROP |};
    {| sig_id := 4002; sig_pattern := "(?i)\$\{.*\$\{.*\}";
       sig_category := IPS_CAT_CVE; sig_action := IPS_ACTION_DROP |};
    {| sig_id := 5001; sig_pattern := "(?i)password\s*[:=]";
       sig_category := IPS_CAT_POLICY; sig_action := IPS_ACTION_ALERT |} ].

(** "Find signature by ID": the first entry of the table with that id. *)
Fixpoint find_signature (sigs : list ips_signature_t) (id : Z)
  : option ips_signature_t :=
  match sigs with
  | [] => None
  | sig :: rest =>
      if sig_id sig =? id then Some sig else find_signature rest id
  end.

(** [hs_match_handler]: the result structure behind [ctx] after the call,
    and the return value (non-zero stops the scan). *)
Definition hs_match_handler (id : Z) (result : ips_match_result_t)
  : ips_match_result_t * Z :=
  let result :=
    match find_signature default_signatures id with
    | Some sig =>
        if (r_matched result =? 0) || (r_action result <? sig_action sig)
        then {| r_signature_id := id; r_action := sig_action sig;
                r_category := sig_category sig; r_matched := 1 |}
        else result
    | None => result
    end in
  (result, if r_action result =? IPS_ACTION_DROP then 1 else 0).

(** The calls that a block scan makes: the handler once per match event,
    in order, until it returns non-zero. *)
Fixpoint deliver_matches (ids : list Z) (result : ips_match_result_t)
  : ips_match_result_t :=
  match ids with
  | [] => result
  | id :: rest =>
      let '(result, stop) := hs_match_handler id result in
      if stop =? 0 then deliver_matches rest result else result
  end.

(** ** [show opensase sessions] ([opensase.c]) *)

(** What one line of the listing shows of a session. *)
Definition session_row (s : opensase_session_t) : Z * Z * Z * Z * Z * Z * Z :=
  (s_src_addr s, s_dst_addr s, s_src_port s, s_dst_port s, s_protocol s,
   u64 (s_packets_fwd s + s_packets_rev s),
   u64 (s_bytes_fwd s + s_bytes_rev s)).

(** [vec_foreach_index (j, w->sessions)] with its [break] and [continue]:
    the lines printed and the running [count]. *)
Fixpoint show_sessions_worker (sessions : list opensase_session_t)
    (count limit : Z) : list (Z * Z * Z * Z * Z * Z * Z) * Z :=
  match sessions with
  | [] => ([], count)
  | s :: rest =>
      if limit <=? count then ([], count)
      else if s_state s =? OPENSASE_SESSION_CLOSED
      then show_sessions_worker rest count limit
      else
        let '(rows, count') :=
          show_sessions_worker rest (u32 (count + 1)) limit in
        (session_row s :: rows, count')
  end.

(** [vec_foreach_index (i, osm->workers)] around it. *)
Fixpoint show_sessions_workers (workers : list opensase_worker_t)
    (count limit : Z) : list (Z * Z * Z * Z * Z * Z * Z) * Z :=
  match workers with
  | [] => ([], count)
  | w :: rest =>
      let '(rows, count) := show_sessions_worker (w_sessions w) count limit in
      let '(rows', count) := show_sessions_workers rest count limit in
      (rows ++ rows', count)
  end.

(** [opensase_show_sessions_fn] after parsing: the session lines and the
    number reported as "Total sessions shown". *)
Definition opensase_show_sessions_fn (workers : list opensase_worker_t)
    (limit : Z) : list (Z * Z * Z * Z * Z * Z * Z) * Z :=
  show_sessions_workers workers 0 limit.

(** The slots of all session vectors whose state is not closed. *)
Definition open_slots (workers : list opensase_worker_t)
  : list opensase_session_t :=
  filter (fun s => s_state s <> OPENSASE_SESSION_CLOSED)
         (concat (map w_sessions workers)).

(** *** NAT table invariant and what a frame gets *)

(** Every hash entry points into the mapping vector. *)
Definition nat_worker_wf (w : nat_worker_t) : Prop :=
  forall h i, nw_mapping_hash w !! h = Some i ->
    (i < length (nw_mappings w))%nat.

Section nat_frames.
Context `{!XXHash}.

(** The flow of [b] has a mapping in the table [w]. *)
Definition nat_known (w : nat_worker_t) (b : vlib_buffer_t) : bool :=
  bool_decide (is_Some (nw_mapping_hash w !! buffer_nat_hash b)).

(** For each packet of a frame handed to the node in state [w]: is the
    pointer to its mapping sure to point into the vector when it is read?
    In a four-packet block the pointers are read after the fourth lookup,
    so the pointer of a packet is good if no packet behind it in the block
    starts a new flow; the fourth pointer of a block and the pointers of
    the single-packet loop are read before anything is added. *)
Fixpoint nat_pointer_live (w : nat_worker_t) (frame : list vlib_buffer_t)
  : list bool :=
  match frame with
  | b0 :: b1 :: b2 :: b3 :: rest =>
      [nat_known w b1 && nat_known w b2 && nat_known w b3;
       nat_known w b2 && nat_known w b3;
       nat_known w b3;
       true] ++ nat_pointer_live w rest
  | _ => map (fun _ => true) frame
  end.

(** In the table [w], the output [o] of the buffer [b] is on its way to
    the encapsulation node, the hash of [b]'s flow is bound to a mapping,
    and, if the pointer to it was good, [o] is [b] translated by that
    mapping. *)
Definition nat_served (w : nat_worker_t) (live : bool) (b : vlib_buffer_t)
    (o : vlib_buffer_t * opensase_nat_next_t) : Prop :=
  snd o = OPENSASE_NAT_NEXT_ENCRYPT
  /\ exists i m,
       nw_mapping_hash w !! buffer_nat_hash b = Some i
       /\ nw_mappings w !! i = Some m
       /\ (live = true -> fst o = nat_translate b m).

(** The packets of a frame whose flow has no mapping in [w]. *)
Definition nat_unknown (w : nat_worker_t) (frame : list vlib_buffer_t)
  : list vlib_buffer_t :=
  filter (fun b => nat_known w b = false) frame.

(** [w'] extends the NAT table [w] by at most [n] mappings. *)
Definition nat_extends (n : nat) (w w' : nat_worker_t) : Prop :=
  (exists added, nw_mappings w' = nw_mappings w ++ added
                 /\ (length added <= n)%nat)
  /\ (forall h i, nw_mapping_hash w !! h = Some i ->
        nw_mapping_hash w' !! h = Some i).

(** A run of the node over [bufs], from [w] to [w'], in a frame that
    started in the table [w0]. *)
Definition nat_frame_rel (w0 w : nat_worker_t) (bufs : list vlib_buffer_t)
    (outs : list (vlib_buffer_t * opensase_nat_next_t)) (w' : nat_worker_t)
  : Prop :=
  nat_worker_wf w ->
  (forall h i, nw_mapping_hash w0 !! h = Some i ->
     nw_mapping_hash w !! h = Some i) ->
  nat_worker_wf w' /\ nat_extends (length (nat_unknown w0 bufs)) w w'
  /\ Forall3 (nat_served w') (nat_pointer_live w0 bufs) bufs outs.

(** *** Port allocation in the words of the amended claim *)

(** [w1] is [w] after the flow of [b] was given a mapping at time [now]:
    the port is the pool's [next_port], whatever the mappings of the table
    say, and the pool's cursor has moved on by one (a [u16]), back to the
    start of the range once it exceeds the end. *)
Definition port_assigned (now : f64) (w : nat_worker_t) (b : vlib_buffer_t)
    (w1 : nat_worker_t) : Prop :=
  let pool_idx := nat_pool_index w (op_tenant_id (b_opaque b)) in
  let pool := tenant_pool w pool_idx in
  let pool1 := tenant_pool w1 pool_idx in
  exists m,
    nw_mappings w1 = nw_mappings w ++ [m]
    /\ nw_mapping_hash w1
       = <[buffer_nat_hash b := length (nw_mappings w)]> (nw_mapping_hash w)
    /\ m_internal_addr m = ip4_src_address (b_ip4 b)
    /\ m_internal_port m = l4_src_port b
    /\ m_external_addr m = pool_external_addr pool
    /\ m_external_port m = pool_next_port pool
    /\ m_expire_time m = (now + 300)%float
    /\ pool_external_addr pool1 = pool_external_addr pool
    /\ pool_port_start pool1 = pool_port_start pool
    /\ pool_port_end pool1 = pool_port_end pool
    /\ pool_next_port pool1
       = (if pool_port_end pool <? u16 (pool_next_port pool + 1)
          then pool_port_start pool
          else u16 (pool_next_port pool + 1))
    /\ (forall k, k <> Z.to_nat pool_idx ->
          nw_tenant_pools w1 !! k = nw_tenant_pools w !! k).

(** The table over a sequence of packets, all handled at time [now]: a
    packet whose flow is in the table leaves it as it is, whatever the
    [expire_time] of the mapping; a packet whose flow is not is assigned a
    port. *)
Inductive nat_allocates (now : f64)
  : nat_worker_t -> list vlib_buffer_t -> nat_worker_t -> Prop :=
| nat_allocates_nil w :
    nat_allocates now w [] w
| nat_allocates_known w b rest w' i :
    nw_mapping_hash w !! buffer_nat_hash b = Some i ->
    nat_allocates now w rest w' ->
    nat_allocates now w (b :: rest) w'
| nat_allocates_new w b rest w1 w' :
    nw_mapping_hash w !! buffer_nat_hash b = None ->
    port_assigned now w b w1 ->
    nat_allocates now w1 rest w' ->
    nat_allocates now w (b :: rest) w'.

(** A run of the node over [bufs] as far as the table and the next
    indices go. *)
Definition nat_alloc_rel (now : f64) (w : nat_worker_t)
    (bufs : list vlib_buffer_t)
    (outs : list (vlib_buffer_t * opensase_nat_next_t)) (w' : nat_worker_t)
  : Prop :=
  length (nw_tenant_pools w) = 256%nat ->
  length (nw_tenant_pools w') = 256%nat
  /\ nat_allocates now w bufs w'
  /\ Forall2 (fun b o => snd o = OPENSASE_NAT_NEXT_ENCRYPT) bufs outs.

End nat_frames.

(** *** Drops of the session tracker *)

Section security_drops.
Context `{!XXHash}.




End security_drops.

(** *** NAT pools and the ports drawn from them *)

(** The configured part of a pool: address and port range. *)
Definition pool_range (p : nat_pool_t) : Z * Z * Z :=
  (pool_external_addr p, pool_port_start p, pool_port_end p).

(** The next port of the pool lies in its range, and the range ends
    below 65535. *)
Definition pool_in_range (p : nat_pool_t) : Prop :=
  0 <= pool_port_start p <= pool_next_port p
  /\ pool_next_port p <= pool_port_end p < 65535.

Definition nat_pools_ok (w : nat_worker_t) : Prop :=
  forall k, pool_in_range (nth k (nw_tenant_pools w) zero_pool).

(** The mapping carries the address of one of the pools of [w] and a
    port of that pool's range. *)
Definition mapping_in_range (w : nat_worker_t) (m : nat_mapping_t) : Prop :=
  exists k,
    let p := nth k (nw_tenant_pools w) zero_pool in
    m_external_addr m = pool_external_addr p
    /\ pool_port_start p <= m_external_port m <= pool_port_end p.

(** From [w] to [w'] only mappings with ports in range were added, and
    no pool was reconfigured. *)
Definition nat_ports_rel (w w' : nat_worker_t) : Prop :=
  nat_pools_ok w ->
  nat_pools_ok w'
  /\ (forall k, pool_range (nth k (nw_tenant_pools w') zero_pool)
                = pool_range (nth k (nw_tenant_pools w) zero_pool))
  /\ exists added,
       nw_mappings w' = nw_mappings w ++ added
       /\ Forall (mapping_in_range w) added.

(** *** What the fall-back scanner looks for *)

(** The three bytes [$], [{] and [j] or [J] stand at an offset below
    [len - 10]. *)
Definition jndi_prefix_within (data : list Z) (len : Z) : Prop :=
  exists i, 0 <= i < len - 10
    /\ byte_at data i = chr "$"%char
    /\ byte_at data (i + 1) = chr "{"%char
    /\ to_upper (byte_at data (i + 2)) = chr "J"%char.

(** The word UNION, in any letter case, stands at an offset below
    [len - 6]. *)
Definition union_within (data : list Z) (len : Z) : Prop :=
  exists i, 0 <= i < len - 6
    /\ map (fun k => to_upper (byte_at data (i + k))) [0; 1; 2; 3; 4]
       = bytes_of_string "UNION".





(** *** QoS marking *)

(** The code point that [apply_dscp] picks for a class. *)
Definition class_dscp (qos_class : Z) : Z :=
  if qos_class <? OPENSASE_QOS_N_CLASSES
  then nth (Z.to_nat qos_class) qos_to_dscp 0
  else 0.

(** [b'] is [b] marked for its class: the upper six bits of the ToS byte
    are the code point, the two ECN bits are those of [b], and nothing
    but the ToS byte and the header checksum differs. *)
Definition qos_marked (b b' : vlib_buffer_t) : Prop :=
  ip4_tos (b_ip4 b')
  = 4 * class_dscp (op_qos_class (b_opaque b)) + Z.land (ip4_tos (b_ip4 b)) 3
  /\ set_checksum (set_tos (b_ip4 b') 0) 0
     = set_checksum (set_tos (b_ip4 b) 0) 0
  /\ b_l4 b' = b_l4 b.

(** What the QoS node hands on for [b]: the marked packet on its way to
    [ip4-lookup] with its metadata untouched, or, for the scavenger class
    only, to [error-drop] with the rate-limited flag set. *)
Definition qos_output (b : vlib_buffer_t)
    (o : vlib_buffer_t * opensase_qos_next_t) : Prop :=
  qos_marked b (fst o)
  /\ ((snd o = OPENSASE_QOS_NEXT_IP4_LOOKUP /\ b_opaque (fst o) = b_opaque b)
      \/ (snd o = OPENSASE_QOS_NEXT_DROP
          /\ op_qos_class (b_opaque b) = OPENSASE_QOS_SCAVENGER
          /\ b_opaque (fst o)
             = b_opaque (set_flags b (Z.lor (op_flags (b_opaque b))
                                            OPENSASE_FLAG_RATE_LIMITED)))).

(** No scavenger limiter has a positive rate. *)
Definition no_scavenger_limit (tl : gmap (Z * Z) token_bucket_t) : Prop :=
  forall t, (0 <? tb_rate_bps (limiter tl t OPENSASE_QOS_SCAVENGER))%float
            = false.

(** The total length of the packets of a frame. *)
Definition frame_bytes (frame : list vlib_buffer_t) : Z :=
  foldr (fun b n => vlib_buffer_length_in_chain b + n) 0 frame.

(** The byte counter of the QoS node over a run. *)
Definition qos_bytes_rel (st : qos_state_t) (bufs : list vlib_buffer_t)
    (outs : list (vlib_buffer_t * opensase_qos_next_t)) (st' : qos_state_t)
  : Prop :=
  Forall (fun b => vlib_buffer_length_in_chain b < 2 ^ 30) bufs ->
  u64 (w_bytes_processed (q_worker st'))
  = u64 (w_bytes_processed (q_worker st) + frame_bytes bufs).

(** *** What the policy node writes into the packet metadata *)

(** The buffer with the id and the QoS class of its matched policy, or
    the buffer as it came when no policy matches. *)
Definition policy_stamp (osm : opensase_main_t) (b : vlib_buffer_t)
  : vlib_buffer_t :=
  match matched_policy osm b with
  | Some p =>
      set_opaque b
        {| op_tenant_id := op_tenant_id (b_opaque b);
           op_policy_id := p_policy_id p;
           op_app_id := op_app_id (b_opaque b);
           op_qos_class := p_qos_class p;
           op_flags := op_flags (b_opaque b);
           op_session_idx := op_session_idx (b_opaque b) |}
  | None => b
  end.

(** *** The session table as a map from flows to slots *)

Section session_table_words.
Context `{!XXHash}.

(** The hash of the 5-tuple stored in a session. *)
Definition session_flow_hash (s : opensase_session_t) : Z :=
  opensase_session_hash
    {| ip_version_and_header_length := 0; ip4_tos := 0; ip4_length := 0;
       ip4_fragment_id := 0; ip4_flags_and_fragment_offset := 0;
       ip4_ttl := 0; ip4_protocol := s_protocol s; ip4_checksum := 0;
       ip4_src_address := s_src_addr s; ip4_dst_address := s_dst_addr s |}
    (s_src_port s) (s_dst_port s).

(** Every hash entry points to a slot that stores a 5-tuple with that
    hash, and every slot in use has a hash entry. *)
Definition session_table_consistent (w : opensase_worker_t) : Prop :=
  (forall h i, w_session_hash w !! h = Some i ->
     exists s, w_sessions w !! i = Some s /\ session_flow_hash s = h)
  /\ (forall i, Z.of_nat i < w_n_sessions w ->
        exists h, w_session_hash w !! h = Some i).

(** What a run of the security node over [n] packets does to the table
    as a whole. *)
Definition session_table_run (n : nat)
    (st st' : vlib_main_t * opensase_worker_t) : Prop :=
  worker_wf (snd st) ->
  worker_wf (snd st')
  /\ (session_table_consistent (snd st) -> session_table_consistent (snd st'))
  /\ w_n_sessions (snd st) <= w_n_sessions (snd st')
     <= w_n_sessions (snd st) + Z.of_nat n
  /\ u64 (w_sessions_created (snd st'))
     = u64 (w_sessions_created (snd st)
            + (w_n_sessions (snd st') - w_n_sessions (snd st))).

End session_table_words.

(** *** Concrete data for the runs of the frame and table properties *)

(** The mapping that the first flow of tenant 7 gets from a pool at
    198.51.100.4 with ports from 20000. *)
Definition nat_mapping_20000 : nat_mapping_t :=
  {| m_internal_addr := ip4_addr 10 1 0 5;
     m_external_addr := ip4_addr 198 51 100 4;
     m_internal_port := 33000; m_external_port := 20000;
     m_protocol := IP_PROTOCOL_TCP; m_flags := 0; m_tenant_id := 7;
     m_session_idx := 0; m_expire_time := 400%float |}.

(** The result structure as [ips_scan_packet] initialises it. *)
Definition clean_result : ips_match_result_t :=
  {| r_signature_id := 0; r_action := IPS_ACTION_ALERT; r_category := 0;
     r_matched := 0 |}.

(** A QoS state with no limiter configured. *)
Definition qos_state_init : qos_state_t :=
  {| q_worker := opensase_worker_init 2; q_limiters := ∅ |}.

Section collision_runs.
Context `{!XXHash, !VecMemory}.

(** The session table and the NAT table after the first packet of a
    connection. *)
Definition worker_after_syn : opensase_worker_t :=
  snd (fst (opensase_security_node vm0 (opensase_worker_init 8)
              [syn_packet])).

Definition nat_worker_after_syn : nat_worker_t :=
  snd (fst (opensase_nat_node vm0 (nat_worker_with_pool 2 10000 11000)
              [syn_packet])).

End collision_runs.

(** A frame of five packets, one four-packet block and one packet for the
    single-packet loop, in which another connection with the hash of
    [syn_packet] stands first, third and last. *)
Definition collision_frame : list vlib_buffer_t :=
  [colliding_packet; other_flow_packet; colliding_packet; syn_packet;
   colliding_packet].

(** What [opensase tenant add 10.1.0.0/8 tenant 7] is parsed into. *)
Definition tenant_add_10_1_0_0_8 : list tenant_add_arg :=
  [Arg_prefix (ip4_addr 10 1 0 0) 8; Arg_tenant 7].

(** What [opensase tenant add 10.1.0.0/24 tenant 7] is parsed into. *)
Definition tenant_add_10_1_0_0_24 : list tenant_add_arg :=
  [Arg_prefix (ip4_addr 10 1 0 0) 24; Arg_tenant 7].

(* ===================================================================== *)
(** * Part II. Properties                                                 *)
(* ===================================================================== *)

(** ** The frame loop *)

Section frame_loop_facts.
Context {St B N : Type}.
Variable quad : St -> B -> B -> B -> B -> St * list (B * N).
Variable single : St -> B -> St * (B * N).

(** Lists can be consumed four elements at a time. *)
Lemma list_ind4 (P : list B -> Prop) :
  P [] -> (forall a, P [a]) -> (forall a b, P [a; b]) ->
  (forall a b c, P [a; b; c]) ->
  (forall a b c d l, P l -> P (a :: b :: c :: d :: l)) ->
  forall l, P l.
Proof.
  intros H0 H1 H2 H3 H4 l.
  assert (Hn : forall n (l : list B), (length l <= n)%nat -> P l).
  { induction n as [|n IH]; intros l' Hl.
    - destruct l'; [exact H0 | simpl in Hl; lia].
    - destruct l' as [|a [|b [|c [|d l']]]]; auto.
      apply H4, IH. simpl in Hl. lia. }
  apply (Hn (length l)). lia.
Qed.

Lemma single_loop_pointwise (P : B -> B * N -> Prop) :
  (forall s b, P b (snd (single s b))) ->
  forall bufs s, Forall2 P bufs (snd (single_loop single s bufs)).
Proof.
  intros Hs bufs. induction bufs as [|b rest IH]; intros s; simpl.
  - constructor.
  - specialize (Hs s b). destruct (single s b) as [s1 o0].
    specialize (IH s1). destruct (single_loop single s1 rest) as [s2 outs].
    simpl in *. constructor; assumption.
Qed.

(** A per-packet property that holds in both loops holds for every slot
    of the frame. *)
Lemma frame_loop_pointwise (P : B -> B * N -> Prop) :
  (forall s b, P b (snd (single s b))) ->
  (forall s b0 b1 b2 b3,
      Forall2 P [b0; b1; b2; b3] (snd (quad s b0 b1 b2 b3))) ->
  forall bufs s, Forall2 P bufs (snd (frame_loop quad single s bufs)).
Proof.
  intros Hs Hq bufs.
  induction bufs as [|a|a b|a b c|a b c d l IH] using list_ind4; intros s;
    try (apply (single_loop_pointwise P Hs)).
  change (frame_loop quad single s (a :: b :: c :: d :: l))
    with (let '(s1, o) := quad s a b c d in
          let '(s2, outs) := frame_loop quad single s1 l in
          (s2, o ++ outs)).
  specialize (Hq s a b c d). destruct (quad s a b c d) as [s1 o].
  specialize (IH s1). destruct (frame_loop quad single s1 l) as [s2 outs].
  simpl in *.
  change (a :: b :: c :: d :: l) with ([a; b; c; d] ++ l).
  apply Forall2_app; assumption.
Qed.

Lemma single_loop_preserves (R : St -> St -> Prop) :
  (forall s, R s s) -> (forall s1 s2 s3, R s1 s2 -> R s2 s3 -> R s1 s3) ->
  (forall s b, R s (fst (single s b))) ->
  forall bufs s, R s (fst (single_loop single s bufs)).
Proof.
  intros Hrefl Htrans Hs bufs. induction bufs as [|b rest IH]; intros s; simpl.
  - apply Hrefl.
  - specialize (Hs s b). destruct (single s b) as [s1 o0].
    specialize (IH s1). destruct (single_loop single s1 rest) as [s2 outs].
    simpl in *. eapply Htrans; eassumption.
Qed.

(** A preorder on worker states that every step of both loops respects
    relates the state before a frame to the state after it. *)
Lemma frame_loop_preserves (R : St -> St -> Prop) :
  (forall s, R s s) -> (forall s1 s2 s3, R s1 s2 -> R s2 s3 -> R s1 s3) ->
  (forall s b, R s (fst (single s b))) ->
  (forall s b0 b1 b2 b3, R s (fst (quad s b0 b1 b2 b3))) ->
  forall bufs s, R s (fst (frame_loop quad single s bufs)).
Proof.
  intros Hrefl Htrans Hs Hq bufs.
  induction bufs as [|a|a b|a b c|a b c d l IH] using list_ind4; intros s;
    try (apply (single_loop_preserves R Hrefl Htrans Hs)).
  change (frame_loop quad single s (a :: b :: c :: d :: l))
    with (let '(s1, o) := quad s a b c d in
          let '(s2, outs) := frame_loop quad single s1 l in
          (s2, o ++ outs)).
  specialize (Hq s a b c d). destruct (quad s a b c d) as [s1 o].
  specialize (IH s1). destruct (frame_loop quad single s1 l) as [s2 outs].
  simpl in *. eapply Htrans; eassumption.
Qed.

Lemma single_loop_pointwise_inv (I : St -> Prop) (P : B -> B * N -> Prop) :
  (forall s b, I s -> I (fst (single s b)) /\ P b (snd (single s b))) ->
  forall bufs s, I s ->
    I (fst (single_loop single s bufs))
    /\ Forall2 P bufs (snd (single_loop single s bufs)).
Proof.
  intros Hs bufs. induction bufs as [|b rest IH]; intros s HI; simpl.
  - split; [exact HI | constructor].
  - destruct (Hs s b HI) as [HI1 HP]. destruct (single s b) as [s1 o0].
    destruct (IH s1 HI1) as [HI2 HPs].
    destruct (single_loop single s1 rest) as [s2 outs].
    simpl in *. split; [exact HI2 | constructor; assumption].
Qed.

(** The same for a property that needs an invariant of the worker state. *)
Lemma frame_loop_pointwise_inv (I : St -> Prop) (P : B -> B * N -> Prop) :
  (forall s b, I s -> I (fst (single s b)) /\ P b (snd (single s b))) ->
  (forall s b0 b1 b2 b3, I s ->
      I (fst (quad s b0 b1 b2 b3))
      /\ Forall2 P [b0; b1; b2; b3] (snd (quad s b0 b1 b2 b3))) ->
  forall bufs s, I s ->
    I (fst (frame_loop quad single s bufs))
    /\ Forall2 P bufs (snd (frame_loop quad single s bufs)).
Proof.
  intros Hs Hq bufs.
  induction bufs as [|a|a b|a b c|a b c d l IH] using list_ind4; intros s HI;
    try (apply (single_loop_pointwise_inv I P Hs); exact HI).
  change (frame_loop quad single s (a :: b :: c :: d :: l))
    with (let '(s1, o) := quad s a b c d in
          let '(s2, outs) := frame_loop quad single s1 l in
          (s2, o ++ outs)).
  destruct (Hq s a b c d HI) as [HI1 HP]. destruct (quad s a b c d) as [s1 o].
  destruct (IH s1 HI1) as [HI2 HPs].
  destruct (frame_loop quad single s1 l) as [s2 outs].
  simpl in *. split; [exact HI2|].
  change (a :: b :: c :: d :: l) with ([a; b; c; d] ++ l).
  apply Forall2_app; assumption.
Qed.
End frame_loop_facts.

(** ** Policy node: the next stage (C3) *)

Lemma policy_scan_range ps ip4 sp dp tenant :
  forall i bm bp,
    let r := policy_scan ps i ip4 sp dp tenant bm bp in
    r = bm \/ (i <= r < i + Z.of_nat (length ps)).
Proof.
  induction ps as [|p rest IH]; intros i bm bp; simpl.
  - left; reflexivity.
  - destruct (policy_continue p ip4 sp dp tenant).
    + destruct (IH (i + 1) bm bp) as [H | H]; [left; exact H | right; lia].
    + destruct (p_priority p <? bp).
      * destruct (IH (i + 1) i (p_priority p)) as [H | H]; right; lia.
      * destruct (IH (i + 1) bm bp) as [H | H]; [left; exact H | right; lia].
Qed.

(** A result other than [~0] indexes the policy vector. *)
Lemma policy_match_index osm ip4 sp dp tenant :
  let r := opensase_policy_match osm ip4 sp dp tenant in
  r = U32_MAX \/ is_Some (osm_policies osm !! Z.to_nat r).
Proof.
  unfold opensase_policy_match.
  destruct (policy_scan_range (osm_policies osm) ip4 sp dp tenant 0
              U32_MAX U32_MAX) as [H | H]; [left; exact H | right].
  apply lookup_lt_is_Some. lia.
Qed.

Lemma policy_single_next osm w b :
  snd (snd (policy_single osm w b)) = policy_decision osm b.
Proof.
  unfold policy_single, policy_decision, matched_policy.
  destruct (extract_ports b) as [sp dp].
  destruct (policy_match_index osm (b_ip4 b) sp dp (op_tenant_id (b_opaque b)))
    as [H | [p Hp]].
  - rewrite H. simpl. destruct (osm_dlp_enabled osm =? 0); reflexivity.
  - destruct (opensase_policy_match osm (b_ip4 b) sp dp
                (op_tenant_id (b_opaque b)) =? U32_MAX) eqn:E.
    + simpl. destruct (osm_dlp_enabled osm =? 0); reflexivity.
    + simpl. rewrite Hp. reflexivity.
Qed.

(** C3 (amended): for every packet of a frame leaving the policy node,
    a matched policy with action deny sends it to drop, a matched policy
    with action inspect_dlp to the DLP scanner and a matched policy with
    any other action, allow included, to the application classifier;
    only when no policy matches does the global DLP switch decide between
    the DLP scanner and the classifier. *)
Theorem policy_node_next_stage osm w frame :
  Forall2
    (fun b out =>
       snd out =
       match matched_policy osm b with
       | Some p =>
           if p_action p =? OPENSASE_ACTION_DENY
           then OPENSASE_POLICY_NEXT_DROP
           else if p_action p =? OPENSASE_ACTION_INSPECT_DLP
           then OPENSASE_POLICY_NEXT_DLP
           else OPENSASE_POLICY_NEXT_CLASSIFY
       | None =>
           if osm_dlp_enabled osm =? 0 then OPENSASE_POLICY_NEXT_CLASSIFY
           else OPENSASE_POLICY_NEXT_DLP
       end)
    frame (snd (opensase_policy_node osm w frame)).
Proof.
  unfold opensase_policy_node.
  apply frame_loop_pointwise.
  - intros s b. apply policy_single_next.
  - intros s b0 b1 b2 b3. unfold policy_quad.
    pose proof (policy_single_next osm s b0) as H0.
    destruct (policy_single osm s b0) as [w0 o0].
    pose proof (policy_single_next osm w0 b1) as H1.
    destruct (policy_single osm w0 b1) as [w1 o1].
    pose proof (policy_single_next osm w1 b2) as H2.
    destruct (policy_single osm w1 b2) as [w2 o2].
    pose proof (policy_single_next osm w2 b3) as H3.
    destruct (policy_single osm w2 b3) as [w3 o3].
    simpl in *. repeat constructor; assumption.
Qed.

(** C3 as stated fails: with DLP globally enabled, a packet that matches
    an allow policy is sent to the application classifier, which is
    neither the DLP scanner nor the bypass to [ip4-lookup]. *)
Lemma policy_allow_goes_to_classify :
  let osm := osm_with [any_policy 1 10 OPENSASE_ACTION_ALLOW] in
  matched_policy osm syn_packet
    = Some (any_policy 1 10 OPENSASE_ACTION_ALLOW)
  /\ osm_dlp_enabled osm = 1
  /\ map snd (snd (opensase_policy_node osm (opensase_worker_init 4)
                     [syn_packet]))
     = [OPENSASE_POLICY_NEXT_CLASSIFY].
Proof. vm_compute. repeat split; reflexivity. Qed.

(** ** Byte order and prefix masks *)

Lemma testbit_255 j : Z.testbit 255 j = (0 <=? j) && (j <? 8).
Proof.
  change 255 with (Z.ones 8).
  destruct (Z.leb_spec 0 j); destruct (Z.ltb_spec j 8); simpl.
  - apply Z.ones_spec_low. lia.
  - apply Z.ones_spec_high. lia.
  - apply Z.testbit_neg_r. lia.
  - apply Z.testbit_neg_r. lia.
Qed.

Lemma byte_lane_testbit x s d i :
  0 <= i -> 0 <= s -> 0 <= d ->
  Z.testbit (Z.shiftl (Z.land (Z.shiftr x s) 255) d) i
  = (d <=? i) && (i <? d + 8) && Z.testbit x (i - d + s).
Proof.
  intros Hi Hs Hd. rewrite Z.shiftl_spec by lia.
  destruct (Z.leb_spec d i); simpl.
  - rewrite Z.land_spec, Z.shiftr_spec, testbit_255 by lia.
    destruct (Z.leb_spec 0 (i - d)); [|lia].
    destruct (Z.ltb_spec (i - d) 8); destruct (Z.ltb_spec i (d + 8));
      try lia; simpl; rewrite ?andb_true_r, ?andb_false_r; reflexivity.
  - apply Z.testbit_neg_r. lia.
Qed.

Lemma bswap32_testbit x i :
  0 <= i ->
  Z.testbit (bswap32 x) i = (i <? 32) && Z.testbit x (bswap_bit i).
Proof.
  intros Hi. unfold bswap32, bswap_bit.
  rewrite <- (Z.shiftr_0_r x) at 1.
  rewrite <- (Z.shiftl_0_r (Z.land (Z.shiftr x 24) 255)).
  rewrite !Z.lor_spec, !byte_lane_testbit by lia.
  destruct (Z.ltb_spec i 8); destruct (Z.ltb_spec i 16);
    destruct (Z.ltb_spec i 24); destruct (Z.ltb_spec i 32); try lia.
  all: repeat match goal with
         | |- context [?a <=? ?b] => destruct (Z.leb_spec a b); try lia
         | |- context [?a <? ?b] => destruct (Z.ltb_spec a b); try lia
         end; simpl; rewrite ?orb_false_r; try reflexivity.
  all: f_equal; lia.
Qed.

Lemma bswap_bit_involutive i :
  0 <= i < 32 -> 0 <= bswap_bit i < 32 /\ bswap_bit (bswap_bit i) = i.
Proof.
  intros Hi. unfold bswap_bit.
  repeat match goal with
         | |- context [?a <? ?b] => destruct (Z.ltb_spec a b); try lia
         end.
Qed.

Lemma prefix_mask_testbit len i :
  0 <= len <= 32 -> 0 <= i ->
  Z.testbit (prefix_mask len) i = (32 - len <=? i) && (i <? 32).
Proof.
  intros Hl Hi. unfold prefix_mask, u32.
  destruct (Z.ltb_spec i 32).
  - rewrite Z.mod_pow2_bits_low by lia.
    rewrite Z.shiftl_spec by lia.
    destruct (Z.leb_spec (32 - len) i); simpl.
    + change (Z.lnot 0) with (-1). apply Z.bits_m1. lia.
    + apply Z.testbit_neg_r. lia.
  - rewrite Z.mod_pow2_bits_high by lia. rewrite andb_false_r. reflexivity.
Qed.

Lemma prefix_differs_spec addr prefix len :
  0 < len <= 32 ->
  prefix_differs addr prefix len = false
  <-> bswap32 addr / 2 ^ (32 - len) = bswap32 prefix / 2 ^ (32 - len).
Proof.
  intros Hl. unfold prefix_differs, clib_host_to_net_u32.
  rewrite negb_false_iff, Z.eqb_eq.
  rewrite <- !Z.shiftr_div_pow2 by lia.
  split; intros H; apply Z.bits_inj'; intros n Hn.
  - rewrite !Z.shiftr_spec, !bswap32_testbit by lia.
    destruct (Z.ltb_spec (n + (32 - len)) 32); simpl; [|reflexivity].
    destruct (bswap_bit_involutive (n + (32 - len))) as [Hr Hinv]; [lia|].
    apply (f_equal (fun z => Z.testbit z (bswap_bit (n + (32 - len))))) in H.
    rewrite !Z.land_spec, bswap32_testbit, Hinv, prefix_mask_testbit in H
      by lia.
    destruct (Z.ltb_spec (bswap_bit (n + (32 - len))) 32); [|lia].
    destruct (Z.leb_spec (32 - len) (n + (32 - len))); [|lia].
    destruct (Z.ltb_spec (n + (32 - len)) 32); [|lia].
    simpl in H. rewrite !andb_true_r in H. exact H.
  - rewrite !Z.land_spec, bswap32_testbit by lia.
    destruct (Z.ltb_spec n 32); simpl; [|rewrite !andb_false_r; reflexivity].
    destruct (bswap_bit_involutive n) as [Hr Hinv]; [lia|].
    rewrite prefix_mask_testbit by lia.
    destruct (Z.leb_spec (32 - len) (bswap_bit n)); simpl;
      [|rewrite !andb_false_r; reflexivity].
    destruct (Z.ltb_spec (bswap_bit n) 32); [|lia]. simpl.
    rewrite !andb_true_r.
    apply (f_equal (fun z => Z.testbit z (bswap_bit n - (32 - len)))) in H.
    rewrite !Z.shiftr_spec in H by lia.
    replace (bswap_bit n - (32 - len) + (32 - len)) with (bswap_bit n) in H
      by lia.
    rewrite !bswap32_testbit, Hinv in H by lia.
    destruct (Z.ltb_spec (bswap_bit n) 32); [|lia]. exact H.
Qed.

(** ** Policy matcher: first policy of best priority (C4) *)

Lemma prefix_check_spec addr prefix len :
  0 <= len <= 32 ->
  (0 <? len) && prefix_differs addr prefix len = false
  <-> prefix_covers prefix len addr.
Proof.
  intros Hl. unfold prefix_covers, ip4_number, clib_net_to_host_u32.
  destruct (Z.ltb_spec 0 len); simpl.
  - rewrite prefix_differs_spec by lia. split; [auto | intros [?|?]; [lia | auto]].
  - split; [left; lia | reflexivity].
Qed.

Lemma port_check_spec lo hi port :
  (negb (lo =? 0) || negb (hi =? 0)) && ((port <? lo) || (hi <? port)) = false
  <-> port_range_admits lo hi port.
Proof.
  unfold port_range_admits.
  destruct (Z.eqb_spec lo 0); destruct (Z.eqb_spec hi 0);
    destruct (Z.ltb_spec port lo); destruct (Z.ltb_spec hi port); simpl;
    split; intros; try discriminate; try reflexivity; lia.
Qed.

Lemma policy_continue_spec p ip4 sp dp tenant :
  0 <= p_src_prefix_len p <= 32 -> 0 <= p_dst_prefix_len p <= 32 ->
  policy_continue p ip4 sp dp tenant = false
  <-> policy_in_use p /\ policy_predicates_match p ip4 sp dp tenant.
Proof.
  intros Hs Hd. unfold policy_continue, policy_predicates_match, policy_in_use.
  rewrite <- (prefix_check_spec (ip4_src_address ip4) (p_src_prefix p)) by lia.
  rewrite <- (prefix_check_spec (ip4_dst_address ip4) (p_dst_prefix p)) by lia.
  rewrite <- !port_check_spec.
  destruct ((0 <? p_src_prefix_len p) && _);
  destruct ((0 <? p_dst_prefix_len p) && _);
  destruct ((negb (p_src_port_min p =? 0) || _) && _);
  destruct ((negb (p_dst_port_min p =? 0) || _) && _);
  destruct (Z.eqb_spec (p_policy_id p) 0); destruct (Z.eqb_spec (p_priority p) 0);
  destruct (Z.eqb_spec (p_tenant_id p) 0); destruct (Z.eqb_spec (p_tenant_id p) tenant);
  destruct (Z.eqb_spec (p_protocol p) 0); destruct (Z.eqb_spec (p_protocol p) (ip4_protocol ip4));
  simpl; split; intros; try discriminate; try reflexivity; try (intuition (try discriminate; lia)).
Qed.

Section policy_scan_facts.
Variables (ip4 : ip4_header_t) (sp dp tenant : Z).
Let cand (p : opensase_policy_t) : Prop :=
  policy_continue p ip4 sp dp tenant = false.

Lemma policy_scan_result rest :
  forall pre bm bp,
    (forall q, q ∈ rest -> cand q -> p_priority q < U32_MAX) ->
    Z.of_nat (length pre + length rest) < U32_MAX ->
    ((bm = U32_MAX /\ bp = U32_MAX /\ forall j q, pre !! j = Some q -> ~ cand q)
     \/ (exists k p, bm = Z.of_nat k /\ pre !! k = Some p /\ cand p
           /\ bp = p_priority p
           /\ forall j q, pre !! j = Some q -> cand q ->
                bp <= p_priority q /\ ((j < k)%nat -> bp < p_priority q))) ->
    policy_match_result (pre ++ rest) cand
      (policy_scan rest (Z.of_nat (length pre)) ip4 sp dp tenant bm bp).
Proof.
  induction rest as [|p rest IH]; intros pre bm bp Hprio Hlen Hinv.
  - simpl. rewrite app_nil_r. destruct Hinv as [(-> & _ & Hnone) | (k & p & -> & Hk & Hc & -> & Hbest)].
    + right. split; [reflexivity | exact Hnone].
    + left. exists k. split; [reflexivity|]. split.
      * apply lookup_lt_Some in Hk. simpl in Hlen. lia.
      * exists p. auto.
  - simpl.
    assert (Hstep : forall bm' bp',
      ((bm' = U32_MAX /\ bp' = U32_MAX /\ forall j q, (pre ++ [p]) !! j = Some q -> ~ cand q)
       \/ (exists k p0, bm' = Z.of_nat k /\ (pre ++ [p]) !! k = Some p0 /\ cand p0
           /\ bp' = p_priority p0
           /\ forall j q, (pre ++ [p]) !! j = Some q -> cand q ->
                bp' <= p_priority q /\ ((j < k)%nat -> bp' < p_priority q))) ->
      policy_match_result (pre ++ p :: rest) cand
        (policy_scan rest (Z.of_nat (length pre) + 1) ip4 sp dp tenant bm' bp')).
    { intros bm' bp' H.
      replace (pre ++ p :: rest) with ((pre ++ [p]) ++ rest)
        by (rewrite <- app_assoc; reflexivity).
      replace (Z.of_nat (length pre) + 1) with (Z.of_nat (length (pre ++ [p])))
        by (rewrite length_app; simpl; lia).
      apply IH; [ | rewrite length_app; simpl in *; lia | exact H].
      intros q Hq. apply Hprio. right. exact Hq. }
    assert (Hlast : forall j q, (pre ++ [p]) !! j = Some q ->
              (pre !! j = Some q /\ (j < length pre)%nat) \/ (j = length pre /\ q = p)).
    { intros j q Hj. apply lookup_app_Some in Hj as [Hj | [Hge Hj]].
      - left. split; [exact Hj | eapply lookup_lt_Some; eauto].
      - right. apply list_lookup_singleton_Some in Hj as [Hj <-]. split; [lia | reflexivity]. }
    destruct (policy_continue p ip4 sp dp tenant) eqn:Hc.
    + apply Hstep. destruct Hinv as [(-> & -> & Hnone) | (k & p0 & -> & Hk & Hc0 & -> & Hbest)].
      * left. repeat split; try reflexivity. intros j q Hj.
        destruct (Hlast j q Hj) as [[Hj' _] | [_ ->]]; [eauto|]. unfold cand. congruence.
      * right. exists k, p0. repeat split; auto.
        -- apply lookup_app_l_Some. exact Hk.
        -- destruct (Hlast j q H) as [[Hj' _] | [_ ->]]; [apply (Hbest j q); auto | unfold cand in H0; congruence].
        -- destruct (Hlast j q H) as [[Hj' _] | [_ ->]]; [apply (Hbest j q); auto | unfold cand in H0; congruence].
    + assert (Hp : p_priority p < U32_MAX) by (apply Hprio; [left | exact Hc]).
      destruct (Z.ltb_spec (p_priority p) bp).
      * apply Hstep. right. exists (length pre), p. repeat split; auto.
        -- rewrite lookup_app_r by lia. rewrite Nat.sub_diag. reflexivity.
        -- destruct (Hlast j q H0) as [[Hj' _] | [_ ->]]; [|lia].
           destruct Hinv as [(_ & _ & Hnone) | (k & p0 & _ & Hk & Hc0 & -> & Hbest)].
           ++ exfalso. eapply Hnone; eauto.
           ++ destruct (Hbest j q Hj' H1). lia.
        -- intros Hjlt. destruct (Hlast j q H0) as [[Hj' _] | [-> _]]; [|lia].
           destruct Hinv as [(_ & _ & Hnone) | (k & p0 & _ & Hk & Hc0 & -> & Hbest)].
           ++ exfalso. eapply Hnone; eauto.
           ++ destruct (Hbest j q Hj' H1). lia.
      * apply Hstep. destruct Hinv as [(-> & -> & Hnone) | (k & p0 & -> & Hk & Hc0 & -> & Hbest)]; [lia|].
        right. exists k, p0. repeat split; auto.
        -- apply lookup_app_l_Some. exact Hk.
        -- destruct (Hlast j q H0) as [[Hj' _] | [_ ->]]; [apply (Hbest j q); auto | lia].
        -- intros Hjlt. destruct (Hlast j q H0) as [[Hj' _] | [-> _]]; [apply (Hbest j q); auto |].
           apply lookup_lt_Some in Hk. lia.
Qed.
End policy_scan_facts.

Lemma policy_match_result_ext ps (E F : opensase_policy_t -> Prop) r :
  (forall q, q ∈ ps -> E q <-> F q) ->
  policy_match_result ps E r -> policy_match_result ps F r.
Proof.
  intros Hext [(k & Hr & Hne & p & Hk & Hp & Hbest) | (Hr & Hnone)].
  - left. exists k. split; [exact Hr|]. split; [exact Hne|].
    exists p. split; [exact Hk|]. split.
    + apply Hext; [eapply list_elem_of_lookup_2; eauto | exact Hp].
    + intros j q Hj Hq. apply (Hbest j q Hj).
      apply Hext; [eapply list_elem_of_lookup_2; eauto | exact Hq].
  - right. split; [exact Hr|]. intros j q Hj Hq. apply (Hnone j q Hj).
    apply Hext; [eapply list_elem_of_lookup_2; eauto | exact Hq].
Qed.

(** C4 (amended): for every packet 5-tuple, tenant id and policy vector
    whose priorities are below [0xFFFFFFFF], the matcher returns the index
    of the first policy of lowest priority among the policies in use
    (policy id or priority non-zero) whose every predicate matches the
    packet, a zero predicate matching any value; it returns [~0], and no
    policy is applied, exactly when no such policy exists. *)
Theorem policy_match_first_of_best osm ip4 src_port dst_port tenant_id :
  Z.of_nat (length (osm_policies osm)) < U32_MAX ->
  (forall p, p ∈ osm_policies osm ->
     0 <= p_src_prefix_len p <= 32 /\ 0 <= p_dst_prefix_len p <= 32
     /\ p_priority p < U32_MAX) ->
  policy_match_result (osm_policies osm)
    (fun p => policy_in_use p
              /\ policy_predicates_match p ip4 src_port dst_port tenant_id)
    (opensase_policy_match osm ip4 src_port dst_port tenant_id).
Proof.
  intros Hlen Hwf. unfold opensase_policy_match.
  apply (policy_match_result_ext _
           (fun p => policy_continue p ip4 src_port dst_port tenant_id = false)).
  - intros q Hq. destruct (Hwf q Hq) as (Hs & Hd & _).
    apply policy_continue_spec; assumption.
  - apply (policy_scan_result ip4 src_port dst_port tenant_id
             (osm_policies osm) [] U32_MAX U32_MAX).
    + intros q Hq _. apply (Hwf q Hq).
    + simpl. lia.
    + left. repeat split; try reflexivity. intros j q Hj.
      rewrite lookup_nil in Hj. discriminate.
Qed.

Lemma policy_match_first_of_best_witness :
  let osm :=
    osm_with [any_policy 1 10 OPENSASE_ACTION_ALLOW;
              deny_host_policy 2 5 (ip4_addr 203 0 113 10);
              any_policy 3 5 OPENSASE_ACTION_LOG] in
  opensase_policy_match osm (b_ip4 syn_packet) 33000 443 7 = 1
  /\ policy_match_result (osm_policies osm)
       (fun p => policy_in_use p
                 /\ policy_predicates_match p (b_ip4 syn_packet) 33000 443 7)
       (opensase_policy_match osm (b_ip4 syn_packet) 33000 443 7).
Proof.
  split; [vm_compute; reflexivity|].
  apply policy_match_first_of_best.
  - vm_compute. reflexivity.
  - intros p Hp.
    repeat (apply elem_of_cons in Hp as [-> | Hp]);
      [| | | apply elem_of_nil in Hp; destruct Hp];
      vm_compute; repeat split; discriminate.
Defined.

(** C4 as stated fails: a policy whose id and priority are both 0 is
    taken for an unused slot and skipped although all its predicates
    match, so the matcher applies no policy where the claim selects
    slot 0. *)
Lemma policy_id0_priority0_skipped :
  let osm := osm_with [any_policy 0 0 OPENSASE_ACTION_DENY] in
  opensase_policy_match osm (b_ip4 syn_packet) 33000 443 7 = U32_MAX
  /\ ~ policy_match_result (osm_policies osm)
         (fun p => policy_predicates_match p (b_ip4 syn_packet) 33000 443 7)
         (opensase_policy_match osm (b_ip4 syn_packet) 33000 443 7).
Proof.
  split; [vm_compute; reflexivity|].
  intros [(k & Hr & Hne & _) | (_ & Hnone)].
  - apply Hne. vm_compute. reflexivity.
  - apply (Hnone 0%nat (any_policy 0 0 OPENSASE_ACTION_DENY)); [reflexivity|].
    unfold policy_predicates_match, prefix_covers, port_range_admits; simpl.
    repeat split; left; auto.
Qed.

(** ** Session tracker: the session table only grows *)





Section security_facts.
Context `{!XXHash}.









End security_facts.

(** ** Session table: no removal, drops when full (C10) *)








Section full_table.
Context `{!XXHash}.











End full_table.

(** ** Session tracker: what a frame adds to each session slot *)






Lemma u64_add_l a b : u64 (u64 a + b) = u64 (a + b).
Proof. unfold u64. apply Zplus_mod_idemp_l. Qed.




Section session_accounting.
Context `{!XXHash}.




















End session_accounting.

(** ** Session tracker: per-packet effect and whole frames (C2) *)

Section session_single_facts.
Context `{!XXHash}.

(** What one packet does to the session it belongs to (tail loop). *)
Lemma security_single_effect vm w b :
  worker_wf w ->
  let '((vm', w'), (b', nxt)) := security_single (vm, w) b in
  let h := buffer_session_hash b in
  (nxt = OPENSASE_SECURITY_NEXT_DROP /\ w' = w
   /\ w_session_hash w !! h = None /\ session_table_full w)
  \/ (exists idx s0 s',
        nxt = OPENSASE_SECURITY_NEXT_POLICY
        /\ op_session_idx (b_opaque b') = Z.of_nat idx
        /\ w_session_hash w' !! h = Some idx
        /\ match w_session_hash w !! h with
           | Some i =>
               i = idx /\ w_n_sessions w' = w_n_sessions w
               /\ w_sessions w !! idx = Some s0
           | None =>
               Z.of_nat idx = w_n_sessions w
               /\ w_n_sessions w' = w_n_sessions w + 1
               /\ s0 = new_session (b_ip4 b) (fst (extract_ports b))
                         (snd (extract_ports b))
                         (cpu_time vm (cpu_reads vm))
           end
        /\ w_sessions w' !! idx = Some s'
        /\ s' = session_touch (vlib_buffer_length_in_chain b)
                  (cpu_time vm' (Nat.pred (cpu_reads vm'))) s0).
Proof.
  intros (Hn & Hlen & Hh).
  unfold security_single, buffer_session_hash, opensase_session_lookup_or_create.
  destruct (extract_ports b) as [sp dp]. simpl.
  destruct (w_session_hash w !! opensase_session_hash (b_ip4 b) sp dp)
    as [p|] eqn:Hp.
  - simpl. right.
    destruct (lookup_lt_is_Some_2 (w_sessions w) p) as [s0 Hs0];
      [apply Hh in Hp; lia|].
    exists p, s0. eexists. split_and!; try reflexivity; auto.
    rewrite list_lookup_alter_eq, Hs0. reflexivity.
  - destruct (Z.leb_spec (Z.of_nat (length (w_sessions w))) (w_n_sessions w))
      as [Hfull | Hroom]; simpl.
    + left. auto.
    + right. exists (Z.to_nat (w_n_sessions w)).
      eexists. eexists. split_and!; try reflexivity.
      * simpl. lia.
      * simpl. apply lookup_insert_eq.
      * lia.
      * simpl. unfold u32. apply Z.mod_small. lia.
      * simpl. rewrite list_lookup_alter_eq, list_lookup_insert_eq by lia.
        reflexivity.
Qed.

End session_single_facts.

(** ** Session tracker: a packet is dropped only when the table is full *)



Section security_drop_facts.
Context `{!XXHash}.









End security_drop_facts.

(** ** NAT: creating a mapping *)

Section session_and_nat_facts.
Context `{!XXHash}.

Lemma nat_create_mapping_spec w tenant_id ia ip dst dp proto now :
  let pool := tenant_pool w (nat_pool_index w tenant_id) in
  let m :=
    {| m_internal_addr := ia;
       m_external_addr := pool_external_addr pool;
       m_internal_port := ip;
       m_external_port := pool_next_port pool;
       m_protocol := proto; m_flags := 0;
       m_tenant_id := u16 (if 256 <=? tenant_id then 0 else tenant_id);
       m_session_idx := 0;
       m_expire_time := (now + 300)%float |} in
  let next_port := u16 (pool_next_port pool + 1) in
  nat_create_mapping w tenant_id ia ip dst dp proto now
  = ({| nw_mappings := nw_mappings w ++ [m];
        nw_mapping_hash :=
          <[nat_hash_key ia dst ip dp proto := length (nw_mappings w)]>
            (nw_mapping_hash w);
        nw_n_mappings := u32 (nw_n_mappings w + 1);
        nw_tenant_pools :=
          <[Z.to_nat (nat_pool_index w tenant_id) :=
              {| pool_external_addr := pool_external_addr pool;
                 pool_port_start := pool_port_start pool;
                 pool_port_end := pool_port_end pool;
                 pool_next_port :=
                   if pool_port_end pool <? next_port
                   then pool_port_start pool else next_port;
                 pool_pad := pool_pad pool |}]> (nw_tenant_pools w) |},
     Some (length (nw_mappings w))).
Proof. reflexivity. Qed.

Lemma nat_single_hit now w b idx m :
  nw_mapping_hash w !! buffer_nat_hash b = Some idx ->
  nw_mappings w !! idx = Some m ->
  nat_single now w b = (w, (nat_translate b m, OPENSASE_NAT_NEXT_ENCRYPT)).
Proof.
  intros Hh Hm. unfold nat_single, nat_lookup.
  unfold buffer_nat_hash in Hh. rewrite Hh, Hm. reflexivity.
Qed.

Lemma nat_single_miss now w b :
  nw_mapping_hash w !! buffer_nat_hash b = None ->
  exists m,
    nat_create_mapping w (op_tenant_id (b_opaque b))
      (ip4_src_address (b_ip4 b)) (l4_src_port b)
      (ip4_dst_address (b_ip4 b)) (l4_dst_port b)
      (ip4_protocol (b_ip4 b)) now
    = (fst (nat_single now w b), Some (length (nw_mappings w)))
    /\ nw_mappings (fst (nat_single now w b)) = nw_mappings w ++ [m]
    /\ snd (nat_single now w b)
       = (nat_translate b m, OPENSASE_NAT_NEXT_ENCRYPT).
Proof.
  intros Hh. unfold nat_single, nat_lookup.
  unfold buffer_nat_hash in Hh. rewrite Hh.
  rewrite nat_create_mapping_spec. cbv zeta.
  match goal with
  | |- context [nw_mappings w ++ [?x]] => exists x
  end.
  cbn [nw_mappings]. rewrite lookup_app_r by lia.
  rewrite Nat.sub_diag. simpl. auto.
Qed.
End session_and_nat_facts.

(** ** QoS marking (C6) and the scavenger rate limit (C5) *)

Lemma apply_dscp_tos b qos_class :
  ip4_tos (b_ip4 (apply_dscp b qos_class))
  = u8 (Z.lor (Z.shiftl (if qos_class <? OPENSASE_QOS_N_CLASSES
                         then nth (Z.to_nat qos_class) qos_to_dscp 0
                         else 0) 2)
              (Z.land (ip4_tos (b_ip4 b)) 3)).
Proof.
  unfold apply_dscp.
  destruct (Z.eqb_spec (ip4_tos (b_ip4 b))
              (u8 (Z.lor (Z.shiftl (if qos_class <? OPENSASE_QOS_N_CLASSES
                                    then nth (Z.to_nat qos_class) qos_to_dscp 0
                                    else 0) 2)
                         (Z.land (ip4_tos (b_ip4 b)) 3)))) as [He | Hne];
    simpl; [exact He | reflexivity].
Qed.

(** For every class the six upper bits of the ToS byte become the DSCP
    value of the class and the two ECN bits stay as they were. *)
Lemma apply_dscp_marks b qos_class :
  0 <= qos_class ->
  let tos' := ip4_tos (b_ip4 (apply_dscp b qos_class)) in
  Z.shiftr tos' 2
  = (if qos_class <? OPENSASE_QOS_N_CLASSES
     then nth (Z.to_nat qos_class) qos_to_dscp 0 else 0)
  /\ Z.land tos' 3 = Z.land (ip4_tos (b_ip4 b)) 3.
Proof.
  intros Hq. cbv zeta. rewrite apply_dscp_tos.
  change 3 with (Z.ones 2). rewrite (Z.land_ones (ip4_tos (b_ip4 b))) by lia.
  pose proof (Z.mod_pos_bound (ip4_tos (b_ip4 b)) (2 ^ 2) ltac:(lia)) as Hr.
  set (r := ip4_tos (b_ip4 b) mod 2 ^ 2) in *.
  assert (Hcases : r = 0 \/ r = 1 \/ r = 2 \/ r = 3) by lia.
  destruct (Z.ltb_spec qos_class OPENSASE_QOS_N_CLASSES) as [Hlt | Hge].
  - unfold OPENSASE_QOS_N_CLASSES in Hlt.
    assert (Hqc : qos_class = 0 \/ qos_class = 1 \/ qos_class = 2
                  \/ qos_class = 3 \/ qos_class = 4) by lia.
    destruct Hqc as [-> | [-> | [-> | [-> | ->]]]];
      destruct Hcases as [-> | [-> | [-> | ->]]]; split; reflexivity.
  - destruct Hcases as [-> | [-> | [-> | ->]]]; split; reflexivity.
Qed.

(** The checksum field after [apply_dscp] is the checksum of the header
    as it was before the ToS byte was stored. *)
Lemma apply_dscp_checksum_of_old_header b qos_class :
  ip4_tos (b_ip4 (apply_dscp b qos_class)) <> ip4_tos (b_ip4 b) ->
  ip4_checksum (b_ip4 (apply_dscp b qos_class)) = ip4_header_checksum b.
Proof.
  unfold apply_dscp. destruct (negb _); simpl; [reflexivity | congruence].
Qed.

(** C6, the failing run: a packet with ToS 0 and a valid header checksum
    is marked for the realtime class.  The ToS byte becomes 46 * 4 = 184
    with the ECN bits kept, but the checksum field still holds the
    checksum of the unmarked header, which is not the checksum of the
    header that leaves the node. *)
Lemma apply_dscp_stale_checksum :
  let b' := apply_dscp syn_packet OPENSASE_QOS_REALTIME in
  ip4_checksum_ok syn_packet
  /\ ip4_tos (b_ip4 b') = 184
  /\ ip4_checksum (b_ip4 b') = ip4_checksum (b_ip4 syn_packet)
  /\ ip4_checksum_wire syn_packet = 13504
  /\ ip4_checksum_wire b' = 13320
  /\ ~ ip4_checksum_ok b'.
Proof.
  cbv zeta. unfold ip4_checksum_ok.
  split_and!; try (vm_compute; reflexivity).
  vm_compute. discriminate.
Qed.

(** The tail loop never looks at the rate limiters. *)
Lemma qos_single_no_rate_limit now st b :
  let '(st', (b', next)) := qos_single now st b in
  next = OPENSASE_QOS_NEXT_IP4_LOOKUP
  /\ q_limiters st' = q_limiters st
  /\ op_flags (b_opaque b') = op_flags (b_opaque b)
  /\ w_packets_dropped (q_worker st') = w_packets_dropped (q_worker st).
Proof.
  unfold qos_single. simpl. split_and!; try reflexivity.
  unfold apply_dscp. destruct (negb _); reflexivity.
Qed.

(** Packet 0 of a four-packet block does consult the bucket of its
    tenant when its class is scavenger and a rate is configured. *)
Lemma qos_rate_limit_scavenger now st b len :
  op_qos_class (b_opaque b) = OPENSASE_QOS_SCAVENGER ->
  let tenant_idx := op_tenant_id (b_opaque b) mod MAX_TENANT_LIMITERS in
  let tb := limiter (q_limiters st) tenant_idx OPENSASE_QOS_SCAVENGER in
  (0 <? tb_rate_bps tb)%float = true ->
  let '(st', (b', next)) := qos_rate_limit now st b len in
  limiter (q_limiters st') tenant_idx OPENSASE_QOS_SCAVENGER
  = fst (rate_limit_check tb len now)
  /\ (snd (rate_limit_check tb len now) = 0 ->
      next = OPENSASE_QOS_NEXT_DROP
      /\ op_flags (b_opaque b')
         = Z.lor (op_flags (b_opaque b)) OPENSASE_FLAG_RATE_LIMITED)
  /\ (snd (rate_limit_check tb len now) <> 0 ->
      next = OPENSASE_QOS_NEXT_IP4_LOOKUP /\ b' = b).
Proof.
  intros Hc tenant_idx tb Hrate. unfold qos_rate_limit.
  rewrite Hc. simpl. fold tenant_idx. fold tb. rewrite Hrate.
  destruct (rate_limit_check tb len now) as [tb' ok]. simpl.
  destruct (Z.eqb_spec ok 0) as [-> | Hne]; simpl;
    unfold limiter; rewrite lookup_insert_eq; simpl;
    split_and!; try reflexivity; intros; try congruence; auto.
Qed.

(** C5, the failing run: one frame of 36 scavenger packets of 1500 bytes
    of a tenant limited to 1 Mbit/s (a bucket of 12500 bytes).  Only the
    first packet of every block of four meets the bucket: eight of those
    are admitted, the ninth (slot 32) is dropped and flagged; the other
    27 packets are forwarded unflagged without any tokens taken, so 35
    packets (52500 bytes) pass where the bucket holds 12500. *)
Lemma qos_rate_limit_first_of_four_only :
  let st0 :=
    {| q_worker := opensase_worker_init 2; q_limiters := limiters_1mbps |} in
  let '((vm, st), outs) :=
    opensase_qos_node vm0 st0 (replicate 36 scavenger_packet) in
  vlib_buffer_length_in_chain scavenger_packet = 1500
  /\ tb_tokens (limiter limiters_1mbps 7 OPENSASE_QOS_SCAVENGER) = 12500%float
  /\ map snd outs
     = replicate 32 OPENSASE_QOS_NEXT_IP4_LOOKUP
       ++ [OPENSASE_QOS_NEXT_DROP]
       ++ replicate 3 OPENSASE_QOS_NEXT_IP4_LOOKUP
  /\ map (fun o => op_flags (b_opaque (fst o))) outs
     = replicate 32 0 ++ [OPENSASE_FLAG_RATE_LIMITED] ++ replicate 3 0
  /\ tb_tokens (limiter (q_limiters st) 7 OPENSASE_QOS_SCAVENGER) = 500%float
  /\ w_packets_dropped (q_worker st) = 1.
Proof. vm_compute. repeat split; reflexivity. Qed.

(** ** Tenant classifier: the first covering entry of one bucket *)

Lemma tenant_entry_hit_spec src_ip e :
  (e_valid e <> 0 -> 0 < e_prefix_len e <= 32) ->
  tenant_entry_hit src_ip e = true <-> tenant_entry_covers src_ip e.
Proof.
  intros Hl. unfold tenant_entry_hit, tenant_entry_covers.
  rewrite andb_true_iff, negb_true_iff, Z.eqb_neq.
  split; intros [Hv Hc]; (split; [exact Hv|]);
    pose proof (prefix_differs_spec src_ip (e_src_prefix e) (e_prefix_len e)
                  (Hl Hv)) as Hp;
    unfold prefix_differs in Hp; rewrite negb_false_iff in Hp;
    unfold ip4_number, clib_net_to_host_u32 in *; apply Hp; exact Hc.
Qed.

(** The scan returns the first entry of the bucket that hits, and tenant
    0 when none does. *)
Lemma tenant_bucket_scan_first src_ip entries :
  (exists i e,
      entries !! i = Some e /\ tenant_entry_hit src_ip e = true
      /\ (forall j e', (j < i)%nat -> entries !! j = Some e' ->
            tenant_entry_hit src_ip e' = false)
      /\ tenant_bucket_scan src_ip entries = (e_tenant_id e, e_vrf_id e))
  \/ ((forall j e', entries !! j = Some e' ->
         tenant_entry_hit src_ip e' = false)
      /\ tenant_bucket_scan src_ip entries = (0, 0)).
Proof.
  induction entries as [|e rest IH]; simpl.
  - right. split; [|reflexivity]. intros j e' Hj. rewrite lookup_nil in Hj.
    discriminate.
  - destruct (tenant_entry_hit src_ip e) eqn:Hhit.
    + left. exists 0%nat, e. split_and!; try reflexivity; auto.
      intros j e' Hj. lia.
    + destruct IH as [(i & e0 & Hi & Hh & Hfirst & Hres) | (Hnone & Hres)].
      * left. exists (S i), e0. split_and!; auto.
        intros [|j] e' Hj He'; simpl in He'.
        -- injection He' as <-. exact Hhit.
        -- apply (Hfirst j e'); [lia | exact He'].
      * right. split; [|exact Hres].
        intros [|j] e' He'; simpl in He'.
        -- injection He' as <-. exact Hhit.
        -- apply (Hnone j e' He').
Qed.

Section tenant_facts.
Context `{!XXHash}.

(** What the classifier does: for every frame it hashes the
    packet's source address to one bucket of the table and takes, in slot
    order, the first valid entry of that bucket whose prefix covers the
    source address; the tenant id of that entry is stored in the packet
    metadata and nothing else of the buffer changes (the vrf id is looked
    up but not stored).  When no entry of that bucket covers the address
    the default tenant 0 is used.  Every packet goes on to the security
    node. *)
Lemma tenant_lookup_first_in_bucket tbl frame :
  (forall h e, e ∈ tenant_bucket tbl h -> e_valid e <> 0 ->
     0 < e_prefix_len e <= 32) ->
  Forall2
    (fun b out =>
       let src := ip4_src_address (b_ip4 b) in
       let bucket := take 4 (tenant_bucket tbl (tenant_hash_of src)) in
       snd out = OPENSASE_TENANT_NEXT_SECURITY
       /\ b_ip4 (fst out) = b_ip4 b /\ b_l4 (fst out) = b_l4 b
       /\ op_policy_id (b_opaque (fst out)) = op_policy_id (b_opaque b)
       /\ op_app_id (b_opaque (fst out)) = op_app_id (b_opaque b)
       /\ op_qos_class (b_opaque (fst out)) = op_qos_class (b_opaque b)
       /\ op_flags (b_opaque (fst out)) = op_flags (b_opaque b)
       /\ op_session_idx (b_opaque (fst out)) = op_session_idx (b_opaque b)
       /\ ((exists i e,
              bucket !! i = Some e /\ tenant_entry_covers src e
              /\ (forall j e', (j < i)%nat -> bucket !! j = Some e' ->
                    ~ tenant_entry_covers src e')
              /\ op_tenant_id (b_opaque (fst out)) = e_tenant_id e)
           \/ ((forall j e', bucket !! j = Some e' ->
                  ~ tenant_entry_covers src e')
               /\ op_tenant_id (b_opaque (fst out)) = 0)))
    frame (opensase_tenant_node tbl frame).
Proof.
  intros Hwf. unfold opensase_tenant_node.
  apply Forall2_fmap_r, Forall_Forall2_diag, Forall_forall.
  intros b _. unfold compose. cbv beta zeta.
  unfold tenant_single, tenant_lookup_fast.
  set (src := ip4_src_address (b_ip4 b)).
  set (bucket := take 4 (tenant_bucket tbl (tenant_hash_of src))).
  assert (Hb : forall j e', bucket !! j = Some e' ->
                 e_valid e' <> 0 -> 0 < e_prefix_len e' <= 32).
  { intros j e' Hj. apply (Hwf (tenant_hash_of src)).
    apply list_elem_of_lookup_2 in Hj. unfold bucket in Hj.
    apply elem_of_take in Hj as (i & Hi & _).
    eapply list_elem_of_lookup_2; eauto. }
  destruct (tenant_bucket_scan_first src bucket)
    as [(i & e & Hi & Hh & Hfirst & Hres) | (Hnone & Hres)];
    rewrite Hres; simpl; split_and!; try reflexivity.
  - left. exists i, e. split_and!; auto.
    + apply tenant_entry_hit_spec; eauto.
    + intros j e' Hj He' Hc. apply tenant_entry_hit_spec in Hc; [|eauto].
      rewrite (Hfirst j e' Hj He') in Hc. discriminate.
  - right. split; [|reflexivity].
    intros j e' He' Hc. apply tenant_entry_hit_spec in Hc; [|eauto].
    rewrite (Hnone j e' He') in Hc. discriminate.
Qed.

(** An entry is only found from source addresses that hash to the
    bucket it is stored in. *)
Lemma tenant_lookup_other_bucket h bucket src_ip :
  tenant_hash_of src_ip <> h ->
  tenant_lookup_fast (<[h := bucket]> ∅) src_ip = (0, 0).
Proof.
  intros Hne. unfold tenant_lookup_fast, tenant_bucket.
  rewrite lookup_insert_ne by congruence. rewrite lookup_empty. reflexivity.
Qed.
End tenant_facts.


(** ** Fall-back IPS scanner (C8) *)

Lemma scan_loop_finds test n :
  forall start k,
    (k < n)%nat -> test (start + Z.of_nat k) = true ->
    scan_loop test start n = true.
Proof.
  induction n as [|n IH]; intros start k Hk Ht; [lia|].
  simpl. destruct (test start) eqn:Hs; [reflexivity|].
  destruct k as [|k].
  - rewrite Z.add_0_r in Ht. congruence.
  - apply (IH (start + 1) k); [lia|].
    rewrite <- Ht. f_equal. lia.
Qed.

Lemma byte_at_drop data (i : nat) k :
  0 <= k -> byte_at (drop i data) k = byte_at data (Z.of_nat i + k).
Proof.
  intros Hk. unfold byte_at.
  destruct (Z.ltb_spec k 0); [lia|].
  destruct (Z.ltb_spec (Z.of_nat i + k) 0); [lia|].
  rewrite !nth_lookup, lookup_drop. f_equal. f_equal. lia.
Qed.

Lemma occurs_at_byte pat data i k c :
  occurs_at pat data i -> pat !! k = Some c ->
  byte_at data (Z.of_nat i + Z.of_nat k) = c.
Proof.
  unfold occurs_at. intros Ho Hk.
  rewrite <- byte_at_drop by lia. unfold byte_at.
  destruct (Z.ltb_spec (Z.of_nat k) 0); [lia|].
  rewrite Nat2Z.id, nth_lookup.
  rewrite <- Ho in Hk. apply lookup_take_Some in Hk as [Hk _].
  rewrite Hk. reflexivity.
Qed.

Lemma occurs_at_nocase_byte pat data i k c :
  occurs_at_nocase pat data i -> pat !! k = Some c ->
  to_upper (byte_at data (Z.of_nat i + Z.of_nat k)) = c.
Proof.
  unfold occurs_at_nocase. intros Ho Hk.
  rewrite <- byte_at_drop by lia. unfold byte_at.
  destruct (Z.ltb_spec (Z.of_nat k) 0); [lia|].
  rewrite Nat2Z.id, nth_lookup.
  rewrite <- Ho in Hk. rewrite list_lookup_fmap in Hk.
  destruct (take (length pat) (drop i data) !! k) as [x|] eqn:Hx;
    [|discriminate].
  apply lookup_take_Some in Hx as [Hx _]. rewrite Hx. simpl in *.
  congruence.
Qed.

Lemma jndi_occurrence_hits data i :
  occurs_at (bytes_of_string "${jndi:") data i ->
  jndi_at data (Z.of_nat i) = true.
Proof.
  intros Ho. unfold jndi_at.
  pose proof (occurs_at_byte _ data i 0 _ Ho eq_refl) as H0.
  pose proof (occurs_at_byte _ data i 1 _ Ho eq_refl) as H1.
  pose proof (occurs_at_byte _ data i 2 _ Ho eq_refl) as H2.
  change (Z.of_nat 0) with 0 in H0. change (Z.of_nat 1) with 1 in H1.
  change (Z.of_nat 2) with 2 in H2. rewrite Z.add_0_r in H0.
  rewrite H0, H1, H2. reflexivity.
Qed.

Lemma to_upper_letter c u l :
  u - 32 <> u -> 65 <= u <= 90 -> l = u + 32 ->
  to_upper c = u -> (c =? u) || (c =? l) = true.
Proof.
  unfold to_upper. intros _ Hu -> Hc.
  destruct ((97 <=? c) && (c <=? 122)) eqn:E.
  - assert (c = u + 32) as -> by lia. rewrite Z.eqb_refl. apply orb_true_r.
  - subst u. rewrite Z.eqb_refl. reflexivity.
Qed.

Lemma union_occurrence_hits data i :
  occurs_at_nocase (bytes_of_string "UNION") data i ->
  union_at data (Z.of_nat i) = true.
Proof.
  intros Ho. unfold union_at.
  pose proof (occurs_at_nocase_byte _ data i 0 _ Ho eq_refl) as H0.
  pose proof (occurs_at_nocase_byte _ data i 1 _ Ho eq_refl) as H1.
  pose proof (occurs_at_nocase_byte _ data i 2 _ Ho eq_refl) as H2.
  pose proof (occurs_at_nocase_byte _ data i 3 _ Ho eq_refl) as H3.
  pose proof (occurs_at_nocase_byte _ data i 4 _ Ho eq_refl) as H4.
  change (Z.of_nat 0) with 0 in H0. change (Z.of_nat 1) with 1 in H1.
  change (Z.of_nat 2) with 2 in H2. change (Z.of_nat 3) with 3 in H3.
  change (Z.of_nat 4) with 4 in H4. rewrite Z.add_0_r in H0.
  change (chr "U") with 85. change (chr "u") with 117.
  change (chr "N") with 78. change (chr "n") with 110.
  change (chr "I") with 73. change (chr "i") with 105.
  change (chr "O") with 79. change (chr "o") with 111.
  rewrite (to_upper_letter _ 85 117 ltac:(lia) ltac:(lia) eq_refl H0).
  rewrite (to_upper_letter _ 78 110 ltac:(lia) ltac:(lia) eq_refl H1).
  rewrite (to_upper_letter _ 73 105 ltac:(lia) ltac:(lia) eq_refl H2).
  rewrite (to_upper_letter _ 79 111 ltac:(lia) ltac:(lia) eq_refl H3).
  rewrite (to_upper_letter _ 78 110 ltac:(lia) ltac:(lia) eq_refl H4).
  reflexivity.
Qed.

(** What the fall-back scanner does detect: an occurrence of [${jndi:]
    that starts more than ten bytes before the end of the scanned bytes,
    and an occurrence of UNION in any letter case that starts more than
    six bytes before the end; the verdict is a match with drop action. *)
Lemma simple_pattern_scan_detects data len i result :
  (occurs_at (bytes_of_string "${jndi:") data i /\ Z.of_nat i + 10 < len)
  \/ (occurs_at_nocase (bytes_of_string "UNION") data i
      /\ Z.of_nat i + 6 < len) ->
  let r := simple_pattern_scan data len result in
  r_matched r = 1 /\ r_action r = IPS_ACTION_DROP.
Proof.
  intros Hocc. cbv zeta. unfold simple_pattern_scan.
  destruct ((10 <=? len) && scan_loop (jndi_at data) 0 (Z.to_nat (len - 10)))
    eqn:Hj; [split; reflexivity|].
  destruct Hocc as [[Ho Hi] | [Ho Hi]].
  - exfalso. apply andb_false_iff in Hj as [Hj | Hj]; [lia|].
    rewrite (scan_loop_finds (jndi_at data) _ 0 i) in Hj;
      [discriminate | lia | apply jndi_occurrence_hits, Ho].
  - destruct (Z.leb_spec 6 len); [|lia]. simpl.
    rewrite (scan_loop_finds (union_at data) _ 0 i);
      [split; reflexivity | lia | apply union_occurrence_hits, Ho].
Qed.

(** C8, the failing run: a TCP payload that ends in the complete lookup
    [${jndi:x}] and a payload that ends in [UNION] are both scanned in
    full (31 bytes in all), neither is reported, and both packets go on
    to NAT; the same patterns followed by more bytes are reported and
    dropped.  The loops stop ten, respectively six, bytes before the end
    of the scanned bytes. *)
Lemma ips_misses_pattern_near_end :
  let jndi := "User-Agent: ${jndi:x}"%string in
  let union := "id=1 UNION"%string in
  let r :=
    security_inspect_node ips_worker_init
      [tcp_payload_packet jndi; tcp_payload_packet union] in
  occurs_at (bytes_of_string "${jndi:") (bytes_of_string jndi) 12
  /\ occurs_at_nocase (bytes_of_string "UNION") (bytes_of_string union) 5
  /\ iw_bytes_scanned (fst r) = 31
  /\ map snd (snd r) = [SECURITY_INSPECT_NEXT_NAT; SECURITY_INSPECT_NEXT_NAT]
  /\ map snd
       (snd (security_inspect_node ips_worker_init
               [tcp_payload_packet "User-Agent: ${jndi:ldap://x/y}";
                tcp_payload_packet "id=1 UNION SELECT"]))
     = [SECURITY_INSPECT_NEXT_DROP; SECURITY_INSPECT_NEXT_DROP].
Proof. vm_compute. repeat split; reflexivity. Qed.

(* ===================================================================== *)
(** * Part II, continued. Whole frames, tables and commands             *)
(* ===================================================================== *)

(** ** Frames as a whole: relating inputs, outputs and states *)

Section frame_loop_runs.
Context {St B N : Type}.
Variable quad : St -> B -> B -> B -> B -> St * list (B * N).
Variable single : St -> B -> St * (B * N).

(** A relation between the state before, the buffers, the outputs and the
    state after that holds for each block and composes along the frame
    holds for whole frames. *)
Lemma frame_loop_run (T : St -> list B -> list (B * N) -> St -> Prop) :
  (forall s, T s [] [] s) ->
  (forall s l1 o1 s1 l2 o2 s2,
      T s l1 o1 s1 -> T s1 l2 o2 s2 -> T s (l1 ++ l2) (o1 ++ o2) s2) ->
  (forall s b, T s [b] [snd (single s b)] (fst (single s b))) ->
  (forall s b0 b1 b2 b3,
      T s [b0; b1; b2; b3] (snd (quad s b0 b1 b2 b3))
        (fst (quad s b0 b1 b2 b3))) ->
  forall bufs s,
    T s bufs (snd (frame_loop quad single s bufs))
      (fst (frame_loop quad single s bufs)).
Proof.
  intros Hnil Happ Hs Hq.
  assert (Hsl : forall bufs s,
             T s bufs (snd (single_loop single s bufs))
               (fst (single_loop single s bufs))).
  { induction bufs as [|b rest IH]; intros s; simpl; [apply Hnil|].
    specialize (Hs s b). destruct (single s b) as [s1 o0].
    specialize (IH s1). destruct (single_loop single s1 rest) as [s2 outs].
    simpl in *. apply (Happ s [b] [o0] s1 rest outs s2); assumption. }
  intros bufs.
  induction bufs as [|a|a b|a b c|a b c d l IH] using list_ind4; intros s;
    try apply Hsl.
  change (frame_loop quad single s (a :: b :: c :: d :: l))
    with (let '(s1, o) := quad s a b c d in
          let '(s2, outs) := frame_loop quad single s1 l in
          (s2, o ++ outs)).
  specialize (Hq s a b c d). destruct (quad s a b c d) as [s1 o].
  specialize (IH s1). destruct (frame_loop quad single s1 l) as [s2 outs].
  simpl in *. apply (Happ s [a; b; c; d] o s1 l outs s2); assumption.
Qed.

(** The same for a relation that depends on where the four-packet blocks
    of the frame lie: it is shown for the tail of fewer than four buffers
    and carried over each block in front of it. *)
Lemma frame_loop_blocks (T : St -> list B -> list (B * N) -> St -> Prop) :
  (forall s bufs, (length bufs < 4)%nat ->
      T s bufs (snd (single_loop single s bufs))
        (fst (single_loop single s bufs))) ->
  (forall s b0 b1 b2 b3 rest outs s',
      T (fst (quad s b0 b1 b2 b3)) rest outs s' ->
      T s (b0 :: b1 :: b2 :: b3 :: rest)
        (snd (quad s b0 b1 b2 b3) ++ outs) s') ->
  forall bufs s,
    T s bufs (snd (frame_loop quad single s bufs))
      (fst (frame_loop quad single s bufs)).
Proof.
  intros Ht Hq bufs.
  induction bufs as [|a|a b|a b c|a b c d l IH] using list_ind4; intros s;
    try (apply Ht; simpl; lia).
  change (frame_loop quad single s (a :: b :: c :: d :: l))
    with (let '(s1, o) := quad s a b c d in
          let '(s2, outs) := frame_loop quad single s1 l in
          (s2, o ++ outs)).
  specialize (Hq s a b c d l). destruct (quad s a b c d) as [s1 o].
  specialize (IH s1). destruct (frame_loop quad single s1 l) as [s2 outs].
  simpl in *. apply Hq, IH.
Qed.
End frame_loop_runs.

(** ** NAT node: mappings are only ever added *)

Lemma nat_extends_refl n w : nat_extends n w w.
Proof.
  split; [|auto]. exists []. rewrite app_nil_r. split; [reflexivity|simpl; lia].
Qed.

Lemma nat_extends_trans n1 n2 w w1 w2 :
  nat_extends n1 w w1 -> nat_extends n2 w1 w2 -> nat_extends (n1 + n2) w w2.
Proof.
  intros [(a1 & E1 & L1) H1] [(a2 & E2 & L2) H2]. split; [|auto].
  exists (a1 ++ a2). rewrite E2, E1, <- app_assoc, length_app.
  split; [reflexivity|lia].
Qed.

Lemma nat_extends_le n n' w w' :
  (n <= n')%nat -> nat_extends n w w' -> nat_extends n' w w'.
Proof.
  intros Hle [(a & E & L) Hh]. split; [|exact Hh].
  exists a. split; [exact E | lia].
Qed.

Lemma nat_extends_lookup n w w' i m :
  nat_extends n w w' -> nw_mappings w !! i = Some m ->
  nw_mappings w' !! i = Some m.
Proof.
  intros [(a & E & _) _] Hm. rewrite E. apply lookup_app_l_Some, Hm.
Qed.

Lemma nat_served_mono `{!XXHash} n w w' live b o :
  nat_extends n w w' -> nat_served w live b o -> nat_served w' live b o.
Proof.
  intros He (Hn & i & m & Hi & Hm & Ho).
  split; [exact Hn|]. exists i, m. split_and!; auto.
  - apply He, Hi.
  - eapply nat_extends_lookup; eauto.
Qed.

Lemma read_mapping_same `{!VecMemory} w idx :
  read_mapping w w idx = nw_mappings w !! idx.
Proof. unfold read_mapping. rewrite Nat.eqb_refl. reflexivity. Qed.

Section nat_node_facts.
Context `{!XXHash, !VecMemory}.

Lemma nat_known_true w b :
  nat_known w b = true <-> is_Some (nw_mapping_hash w !! buffer_nat_hash b).
Proof. unfold nat_known. apply bool_decide_eq_true. Qed.

Lemma nat_unknown_cons w b l :
  length (nat_unknown w (b :: l))
  = ((if nat_known w b then 0 else 1) + length (nat_unknown w l))%nat.
Proof.
  unfold nat_unknown. rewrite filter_cons.
  destruct (decide (nat_known w b = false)) as [E | E].
  - rewrite E. reflexivity.
  - destruct (nat_known w b); [reflexivity | congruence].
Qed.

Lemma nat_unknown_app w l1 l2 :
  length (nat_unknown w (l1 ++ l2))
  = (length (nat_unknown w l1) + length (nat_unknown w l2))%nat.
Proof. unfold nat_unknown. rewrite filter_app, length_app. reflexivity. Qed.

Lemma nat_pointer_live_short w bufs :
  (length bufs < 4)%nat -> nat_pointer_live w bufs = map (fun _ => true) bufs.
Proof.
  destruct bufs as [|a [|b [|c [|d l]]]]; simpl; intros Hl;
    try reflexivity; lia.
Qed.

(** One lookup-or-create, in a frame that started in the table [w0]. *)
Lemma nat_lookup_or_create_step w0 now w b :
  nat_worker_wf w ->
  (forall h i, nw_mapping_hash w0 !! h = Some i ->
     nw_mapping_hash w !! h = Some i) ->
  let r := nat_lookup_or_create now w b in
  nat_worker_wf (fst r)
  /\ nat_extends (if nat_known w0 b then 0 else 1) w (fst r)
  /\ (nat_known w0 b = true -> fst r = w)
  /\ exists i m, snd r = Some i
       /\ nw_mapping_hash (fst r) !! buffer_nat_hash b = Some i
       /\ nw_mappings (fst r) !! i = Some m.
Proof.
  intros Hwf Hinc. cbv zeta. unfold nat_lookup_or_create, nat_lookup.
  fold (buffer_nat_hash b).
  destruct (nw_mapping_hash w !! buffer_nat_hash b) as [i|] eqn:Hi.
  - simpl. split; [exact Hwf|]. split; [apply nat_extends_refl|].
    split; [reflexivity|].
    destruct (lookup_lt_is_Some_2 (nw_mappings w) i (Hwf _ _ Hi)) as [m Hm].
    exists i, m. auto.
  - assert (Hk : nat_known w0 b = false).
    { destruct (nat_known w0 b) eqn:Hk; [|reflexivity].
      apply nat_known_true in Hk as [j Hj]. apply Hinc in Hj. congruence. }
    rewrite Hk, nat_create_mapping_spec. simpl.
    fold (buffer_nat_hash b). split_and!.
    + unfold nat_worker_wf. simpl. intros h i. rewrite length_app. simpl.
      destruct (decide (h = buffer_nat_hash b)) as [->|Hne].
      * rewrite lookup_insert_eq. intros [= <-]. lia.
      * rewrite lookup_insert_ne by congruence. intros Hh.
        apply Hwf in Hh. lia.
    + unfold nat_extends. simpl. split.
      * eexists. split; [reflexivity|]. simpl. lia.
      * intros h i Hh. rewrite lookup_insert_ne; [exact Hh|].
        intros <-. congruence.
    + discriminate.
    + eexists. eexists. split_and!; [reflexivity| |].
      * apply lookup_insert_eq.
      * rewrite lookup_app_r by lia. rewrite Nat.sub_diag. reflexivity.
Qed.

Lemma nat_single_as_lookup now w b :
  nat_single now w b
  = let '(w1, m0) := nat_lookup_or_create now w b in
    match m0 with
    | Some idx =>
        match nw_mappings w1 !! idx with
        | Some m => (w1, (nat_translate b m, OPENSASE_NAT_NEXT_ENCRYPT))
        | None => (w1, (b, OPENSASE_NAT_NEXT_ENCRYPT))
        end
    | None => (w1, (b, OPENSASE_NAT_NEXT_DROP))
    end.
Proof.
  unfold nat_single, nat_lookup_or_create.
  destruct (nat_lookup w _ _ _ _ _); reflexivity.
Qed.

(** The single-packet loop: every pointer is read at once. *)
Lemma nat_single_loop_rel w0 now bufs :
  forall w,
    nat_worker_wf w ->
    (forall h i, nw_mapping_hash w0 !! h = Some i ->
       nw_mapping_hash w !! h = Some i) ->
    let r := single_loop (nat_single now) w bufs in
    nat_worker_wf (fst r)
    /\ nat_extends (length (nat_unknown w0 bufs)) w (fst r)
    /\ Forall3 (nat_served (fst r)) (map (fun _ => true) bufs) bufs (snd r).
Proof.
  induction bufs as [|b rest IH]; intros w Hwf Hinc; cbv zeta.
  - simpl. split; [exact Hwf|]. split; [apply nat_extends_refl|constructor].
  - cbn [single_loop]. rewrite nat_single_as_lookup.
    pose proof (nat_lookup_or_create_step w0 now w b Hwf Hinc) as Hs.
    destruct (nat_lookup_or_create now w b) as [w1 m0]. cbv zeta in Hs.
    simpl in Hs. destruct Hs as (Hwf1 & E1 & _ & i & m & -> & Hi & Hm).
    rewrite Hm.
    assert (Hinc1 : forall h j, nw_mapping_hash w0 !! h = Some j ->
                      nw_mapping_hash w1 !! h = Some j).
    { intros h j Hj. apply E1, Hinc, Hj. }
    specialize (IH w1 Hwf1 Hinc1). cbv zeta in IH.
    destruct (single_loop (nat_single now) w1 rest) as [w2 outs].
    simpl in IH |- *. destruct IH as (Hwf2 & E2 & F2).
    split; [exact Hwf2|]. split.
    + rewrite nat_unknown_cons. exact (nat_extends_trans _ _ _ _ _ E1 E2).
    + constructor; [|exact F2].
      apply (nat_served_mono _ w1 w2 _ _ _ E2).
      split; [reflexivity|]. exists i, m. auto.
Qed.

(** The four-packet block: a pointer is read after the lookups of the
    packets behind it. *)
Lemma nat_quad_block w0 now w b0 b1 b2 b3 :
  nat_worker_wf w ->
  (forall h i, nw_mapping_hash w0 !! h = Some i ->
     nw_mapping_hash w !! h = Some i) ->
  let r := nat_quad now w b0 b1 b2 b3 in
  nat_worker_wf (fst r)
  /\ nat_extends (length (nat_unknown w0 [b0; b1; b2; b3])) w (fst r)
  /\ Forall3 (nat_served (fst r))
       [nat_known w0 b1 && nat_known w0 b2 && nat_known w0 b3;
        nat_known w0 b2 && nat_known w0 b3;
        nat_known w0 b3;
        true]
       [b0; b1; b2; b3] (snd r).
Proof.
  intros Hwf Hinc. cbv zeta. unfold nat_quad.
  pose proof (nat_lookup_or_create_step w0 now w b0 Hwf Hinc) as Q0.
  destruct (nat_lookup_or_create now w b0) as [w1 m0]. cbv zeta in Q0.
  simpl in Q0. destruct Q0 as (Hwf1 & E1 & _ & i0 & e0 & -> & Hi0 & He0).
  assert (Hinc1 : forall h j, nw_mapping_hash w0 !! h = Some j ->
                    nw_mapping_hash w1 !! h = Some j)
    by (intros h j Hj; apply E1, Hinc, Hj).
  pose proof (nat_lookup_or_create_step w0 now w1 b1 Hwf1 Hinc1) as Q1.
  destruct (nat_lookup_or_create now w1 b1) as [w2 m1]. cbv zeta in Q1.
  simpl in Q1. destruct Q1 as (Hwf2 & E2 & K1 & i1 & e1 & -> & Hi1 & He1).
  assert (Hinc2 : forall h j, nw_mapping_hash w0 !! h = Some j ->
                    nw_mapping_hash w2 !! h = Some j)
    by (intros h j Hj; apply E2, Hinc1, Hj).
  pose proof (nat_lookup_or_create_step w0 now w2 b2 Hwf2 Hinc2) as Q2.
  destruct (nat_lookup_or_create now w2 b2) as [w3 m2]. cbv zeta in Q2.
  simpl in Q2. destruct Q2 as (Hwf3 & E3 & K2 & i2 & e2 & -> & Hi2 & He2).
  assert (Hinc3 : forall h j, nw_mapping_hash w0 !! h = Some j ->
                    nw_mapping_hash w3 !! h = Some j)
    by (intros h j Hj; apply E3, Hinc2, Hj).
  pose proof (nat_lookup_or_create_step w0 now w3 b3 Hwf3 Hinc3) as Q3.
  destruct (nat_lookup_or_create now w3 b3) as [w4 m3]. cbv zeta in Q3.
  simpl in Q3. destruct Q3 as (Hwf4 & E4 & K3 & i3 & e3 & -> & Hi3 & He3).
  cbn [fst snd].
  pose proof (nat_extends_trans _ _ _ _ _ E3 E4) as E24.
  pose proof (nat_extends_trans _ _ _ _ _ E2 E24) as E14.
  split; [exact Hwf4|]. split.
  - rewrite !nat_unknown_cons. eapply nat_extends_le;
      [|exact (nat_extends_trans _ _ _ _ _ E1 E14)].
    unfold nat_unknown. simpl. lia.
  - constructor; [|constructor; [|constructor; [|constructor; [|constructor]]]].
    + split; [reflexivity|]. exists i0, e0.
      split; [apply E14, Hi0|].
      split; [exact (nat_extends_lookup _ _ _ _ _ E14 He0)|].
      intros Hl. apply andb_true_iff in Hl as [Hl L3].
      apply andb_true_iff in Hl as [L1 L2].
      cbn [fst].
      rewrite (K3 L3), (K2 L2), (K1 L1), read_mapping_same, He0 in *.
      reflexivity.
    + split; [reflexivity|]. exists i1, e1.
      split; [apply E24, Hi1|].
      split; [exact (nat_extends_lookup _ _ _ _ _ E24 He1)|].
      intros Hl. apply andb_true_iff in Hl as [L2 L3].
      cbn [fst].
      rewrite (K3 L3), (K2 L2), read_mapping_same, He1 in *.
      reflexivity.
    + split; [reflexivity|]. exists i2, e2.
      split; [apply E4, Hi2|].
      split; [exact (nat_extends_lookup _ _ _ _ _ E4 He2)|].
      intros L3. cbn [fst].
      rewrite (K3 L3), read_mapping_same, He2 in *.
      reflexivity.
    + split; [reflexivity|]. exists i3, e3.
      split; [exact Hi3|]. split; [exact He3|].
      intros _. cbn [fst]. rewrite read_mapping_same, He3. reflexivity.
Qed.

Lemma nat_frame_rel_tail w0 now w bufs :
  (length bufs < 4)%nat ->
  nat_frame_rel w0 w bufs (snd (single_loop (nat_single now) w bufs))
    (fst (single_loop (nat_single now) w bufs)).
Proof.
  intros Hl Hwf Hinc. rewrite (nat_pointer_live_short w0 bufs Hl).
  exact (nat_single_loop_rel w0 now bufs w Hwf Hinc).
Qed.

Lemma nat_frame_rel_block w0 now w b0 b1 b2 b3 rest outs w' :
  nat_frame_rel w0 (fst (nat_quad now w b0 b1 b2 b3)) rest outs w' ->
  nat_frame_rel w0 w (b0 :: b1 :: b2 :: b3 :: rest)
    (snd (nat_quad now w b0 b1 b2 b3) ++ outs) w'.
Proof.
  intros Hrest Hwf Hinc.
  pose proof (nat_quad_block w0 now w b0 b1 b2 b3 Hwf Hinc) as Hq.
  cbv zeta in Hq.
  destruct (nat_quad now w b0 b1 b2 b3) as [w4 outs4]. simpl in Hq, Hrest.
  destruct Hq as (Hwf4 & E4 & F4).
  assert (Hinc4 : forall h j, nw_mapping_hash w0 !! h = Some j ->
                    nw_mapping_hash w4 !! h = Some j)
    by (intros h j Hj; apply E4, Hinc, Hj).
  destruct (Hrest Hwf4 Hinc4) as (Hwf' & E' & F').
  split; [exact Hwf'|]. split.
  - change (b0 :: b1 :: b2 :: b3 :: rest) with ([b0; b1; b2; b3] ++ rest).
    rewrite nat_unknown_app. exact (nat_extends_trans _ _ _ _ _ E4 E').
  - cbn [nat_pointer_live snd].
    change (b0 :: b1 :: b2 :: b3 :: rest) with ([b0; b1; b2; b3] ++ rest).
    apply Forall3_app; [|exact F'].
    eapply Forall3_impl; [exact F4|].
    intros live b o. apply (nat_served_mono _ _ _ _ _ _ E').
Qed.

(** The relation holds for the node on any frame. *)
Lemma nat_node_rel vm w frame :
  nat_frame_rel w w frame (snd (opensase_nat_node vm w frame))
    (snd (fst (opensase_nat_node vm w frame))).
Proof.
  unfold opensase_nat_node. simpl.
  set (now := cpu_time vm (cpu_reads vm)).
  pose proof (frame_loop_blocks (nat_quad now) (nat_single now)
                (nat_frame_rel w)
                (fun s bufs => nat_frame_rel_tail w now s bufs)
                (fun s b0 b1 b2 b3 rest outs s' =>
                   nat_frame_rel_block w now s b0 b1 b2 b3 rest outs s')
                frame w) as Hr.
  destruct (frame_loop (nat_quad now) (nat_single now) w frame) as [w' outs].
  exact Hr.
Qed.

Lemma nat_node_run vm w frame :
  nat_worker_wf w ->
  let '((vm', w'), outs) := opensase_nat_node vm w frame in
  nat_worker_wf w'
  /\ nat_extends (length (nat_unknown w frame)) w w'
  /\ Forall3 (nat_served w') (nat_pointer_live w frame) frame outs.
Proof.
  intros Hwf. pose proof (nat_node_rel vm w frame Hwf) as Hr.
  destruct (opensase_nat_node vm w frame) as [[vm' w'] outs].
  apply Hr. auto.
Qed.

End nat_node_facts.

(** ** NAT node: ports are handed out in sequence *)

Section nat_alloc_facts.
Context `{!XXHash, !VecMemory}.

Lemma nat_allocates_app now w l1 w1 l2 w2 :
  nat_allocates now w l1 w1 -> nat_allocates now w1 l2 w2 ->
  nat_allocates now w (l1 ++ l2) w2.
Proof.
  induction 1 as [w | w b rest w' i Hi _ IH | w b rest wa w' Hi Hp _ IH];
    intros H2; simpl.
  - exact H2.
  - eapply nat_allocates_known; [exact Hi | apply IH, H2].
  - eapply nat_allocates_new; [exact Hi | exact Hp | apply IH, H2].
Qed.

Lemma nat_pool_index_range w t : (Z.to_nat (nat_pool_index w t) < 256)%nat.
Proof.
  unfold nat_pool_index.
  destruct (Z.leb_spec 256 t); destruct (_ =? 0); lia.
Qed.

Lemma nat_lookup_or_create_allocates now w b :
  length (nw_tenant_pools w) = 256%nat ->
  let r := nat_lookup_or_create now w b in
  length (nw_tenant_pools (fst r)) = 256%nat
  /\ nat_allocates now w [b] (fst r)
  /\ is_Some (snd r).
Proof.
  intros Hlen. cbv zeta. unfold nat_lookup_or_create, nat_lookup.
  fold (buffer_nat_hash b).
  destruct (nw_mapping_hash w !! buffer_nat_hash b) as [i|] eqn:Hi.
  - simpl. split; [exact Hlen|]. split; [|eauto].
    eapply nat_allocates_known; [exact Hi | constructor].
  - rewrite nat_create_mapping_spec. cbv zeta. cbn [fst snd].
    fold (buffer_nat_hash b).
    pose proof (nat_pool_index_range w (op_tenant_id (b_opaque b))) as Hr.
    split; [cbn [nw_tenant_pools]; rewrite length_insert; exact Hlen|].
    split; [|eauto].
    eapply nat_allocates_new; [exact Hi | | constructor].
    unfold port_assigned. cbv zeta. eexists.
    cbn [nw_mappings nw_mapping_hash nw_tenant_pools].
    assert (Hp : forall ms hs n p,
               tenant_pool
                 {| nw_mappings := ms; nw_mapping_hash := hs;
                    nw_n_mappings := n;
                    nw_tenant_pools :=
                      <[Z.to_nat (nat_pool_index w (op_tenant_id (b_opaque b))) :=
                          p]> (nw_tenant_pools w) |}
                 (nat_pool_index w (op_tenant_id (b_opaque b))) = p).
    { intros ms hs n p. unfold tenant_pool. cbn [nw_tenant_pools].
      rewrite nth_lookup, list_lookup_insert_eq by lia. reflexivity. }
    rewrite Hp. cbn.
    split_and!; try reflexivity.
    intros k Hk. rewrite list_lookup_insert_ne by congruence. reflexivity.
Qed.

Lemma nat_alloc_rel_nil now w : nat_alloc_rel now w [] [] w.
Proof. intros Hl. split; [exact Hl|]. split; constructor. Qed.

Lemma nat_alloc_rel_app now w l1 o1 w1 l2 o2 w2 :
  nat_alloc_rel now w l1 o1 w1 -> nat_alloc_rel now w1 l2 o2 w2 ->
  nat_alloc_rel now w (l1 ++ l2) (o1 ++ o2) w2.
Proof.
  intros H1 H2 Hl. destruct (H1 Hl) as (Hl1 & A1 & F1).
  destruct (H2 Hl1) as (Hl2 & A2 & F2).
  split; [exact Hl2|]. split; [eapply nat_allocates_app; eauto|].
  apply Forall2_app; assumption.
Qed.

Lemma nat_single_alloc now w b :
  nat_alloc_rel now w [b] [snd (nat_single now w b)]
    (fst (nat_single now w b)).
Proof.
  intros Hl. rewrite nat_single_as_lookup.
  pose proof (nat_lookup_or_create_allocates now w b Hl) as Hs.
  destruct (nat_lookup_or_create now w b) as [w1 m0]. cbv zeta in Hs.
  simpl in Hs. destruct Hs as (Hl1 & A1 & [i ->]).
  destruct (nw_mappings w1 !! i); simpl;
    (split; [exact Hl1|]; split; [exact A1|];
     constructor; [reflexivity | constructor]).
Qed.

Lemma nat_quad_alloc now w b0 b1 b2 b3 :
  nat_alloc_rel now w [b0; b1; b2; b3] (snd (nat_quad now w b0 b1 b2 b3))
    (fst (nat_quad now w b0 b1 b2 b3)).
Proof.
  intros Hl. unfold nat_quad.
  pose proof (nat_lookup_or_create_allocates now w b0 Hl) as Q0.
  destruct (nat_lookup_or_create now w b0) as [w1 m0]. cbv zeta in Q0.
  simpl in Q0. destruct Q0 as (Hl1 & A1 & [i0 ->]).
  pose proof (nat_lookup_or_create_allocates now w1 b1 Hl1) as Q1.
  destruct (nat_lookup_or_create now w1 b1) as [w2 m1]. cbv zeta in Q1.
  simpl in Q1. destruct Q1 as (Hl2 & A2 & [i1 ->]).
  pose proof (nat_lookup_or_create_allocates now w2 b2 Hl2) as Q2.
  destruct (nat_lookup_or_create now w2 b2) as [w3 m2]. cbv zeta in Q2.
  simpl in Q2. destruct Q2 as (Hl3 & A3 & [i2 ->]).
  pose proof (nat_lookup_or_create_allocates now w3 b3 Hl3) as Q3.
  destruct (nat_lookup_or_create now w3 b3) as [w4 m3]. cbv zeta in Q3.
  simpl in Q3. destruct Q3 as (Hl4 & A4 & [i3 ->]).
  cbn [fst snd]. split; [exact Hl4|]. split.
  - exact (nat_allocates_app _ _ [b0] _ [b1; b2; b3] _ A1
             (nat_allocates_app _ _ [b1] _ [b2; b3] _ A2
                (nat_allocates_app _ _ [b2] _ [b3] _ A3 A4))).
  - repeat (constructor; [reflexivity|]). constructor.
Qed.

(** The table and the next indices of a whole frame. *)
Lemma nat_node_alloc vm w frame :
  nat_alloc_rel (cpu_time vm (cpu_reads vm)) w frame
    (snd (opensase_nat_node vm w frame))
    (snd (fst (opensase_nat_node vm w frame))).
Proof.
  unfold opensase_nat_node. simpl.
  set (now := cpu_time vm (cpu_reads vm)).
  pose proof (frame_loop_run (nat_quad now) (nat_single now)
                (nat_alloc_rel now) (nat_alloc_rel_nil now)
                (nat_alloc_rel_app now)
                (nat_single_alloc now) (nat_quad_alloc now) frame w) as Hr.
  destruct (frame_loop (nat_quad now) (nat_single now) w frame) as [w' outs].
  exact Hr.
Qed.

(** Packets of flows that are in the table do not change it. *)
Lemma nat_allocates_known_prefix now w pre l w' :
  Forall (fun p => is_Some (nw_mapping_hash w !! buffer_nat_hash p)) pre ->
  nat_allocates now w (pre ++ l) w' -> nat_allocates now w l w'.
Proof.
  induction pre as [|p pre IH]; intros Hk Ha; [exact Ha|].
  apply Forall_cons in Hk as [[i Hi] Hk]. simpl in Ha.
  inversion Ha as [| ? ? ? ? ? _ Hrest | ? ? ? ? ? Hnone _ _]; subst.
  - apply IH; assumption.
  - congruence.
Qed.

(** The table after a run holds what it held before. *)
Lemma nat_allocates_extends now w l w' :
  nat_allocates now w l w' ->
  (exists added, nw_mappings w' = nw_mappings w ++ added)
  /\ (forall h i, nw_mapping_hash w !! h = Some i ->
        nw_mapping_hash w' !! h = Some i).
Proof.
  induction 1 as [w | w b rest w' i Hi _ IH | w b rest wa w' Hi Hp _ IH].
  - split; [exists []; rewrite app_nil_r; reflexivity | auto].
  - exact IH.
  - destruct IH as [(added & Ea) Hh].
    destruct Hp as (m & Em & Eh & _). split.
    + exists (m :: added). rewrite Ea, Em, <- app_assoc. reflexivity.
    + intros h i Hb. apply Hh. rewrite Eh.
      rewrite lookup_insert_ne; [exact Hb|]. intros <-. congruence.
Qed.


End nat_alloc_facts.

(** ** Hash collisions: the entry of another flow (C9) *)


Section hash_collisions.
Context `{!XXHash, !VecMemory}.


End hash_collisions.

(** ** NAT node: every packet is served *)

Section nat_node_theorems.
Context `{!XXHash, !VecMemory}.

(** X1: the NAT node sends every packet of a frame to the encapsulation
    node; when the frame is done the hash of the packet's flow is bound to
    a mapping, and the packet was translated by that mapping if the
    pointer to it was still good when it was read (always in the
    single-packet loop and for the fourth packet of a block; in a block
    otherwise, if no packet behind it started a new flow).  The node adds
    at most one mapping per packet whose flow was not in the table and
    never removes, moves or rebinds a mapping that existed before. *)
Theorem nat_node_serves_every_packet vm w frame :
  nat_worker_wf w ->
  let '((vm', w'), outs) := opensase_nat_node vm w frame in
  nat_worker_wf w'
  /\ (exists added,
        nw_mappings w' = nw_mappings w ++ added
        /\ (length added <= length (nat_unknown w frame))%nat)
  /\ (forall h i, nw_mapping_hash w !! h = Some i ->
        nw_mapping_hash w' !! h = Some i)
  /\ Forall3
       (fun live b o =>
          snd o = OPENSASE_NAT_NEXT_ENCRYPT
          /\ exists i m,
               nw_mapping_hash w' !! buffer_nat_hash b = Some i
               /\ nw_mappings w' !! i = Some m
               /\ (live = true -> fst o = nat_translate b m))
       (nat_pointer_live w frame) frame outs.
Proof.
  intros Hwf. pose proof (nat_node_run vm w frame Hwf) as Hr.
  destruct (opensase_nat_node vm w frame) as [[vm' w'] outs].
  destruct Hr as (Hwf' & [Hadd Hh] & Hs).
  split_and!; auto.
Qed.

(** X2: once a flow has a mapping, it keeps it: packets whose flows hash
    alike are bound to one and the same mapping, in the frame that
    created it and in every later frame, whatever the clock says, and
    each of them that is translated through a good pointer is translated
    by that mapping. *)
Theorem nat_mapping_stable vm w frame vm2 frame2 :
  nat_worker_wf w ->
  let '((vm1, w1), outs1) := opensase_nat_node vm w frame in
  let '((vm2', w2), outs2) := opensase_nat_node vm2 w1 frame2 in
  forall j b o k b2 o2,
    frame !! j = Some b -> outs1 !! j = Some o ->
    frame2 !! k = Some b2 -> outs2 !! k = Some o2 ->
    buffer_nat_hash b2 = buffer_nat_hash b ->
    exists i m,
      nw_mapping_hash w1 !! buffer_nat_hash b = Some i
      /\ nw_mapping_hash w2 !! buffer_nat_hash b = Some i
      /\ nw_mappings w1 !! i = Some m /\ nw_mappings w2 !! i = Some m
      /\ (nat_pointer_live w frame !! j = Some true ->
          fst o = nat_translate b m)
      /\ (nat_pointer_live w1 frame2 !! k = Some true ->
          fst o2 = nat_translate b2 m).
Proof.
  intros Hwf.
  pose proof (nat_node_run vm w frame Hwf) as R1.
  destruct (opensase_nat_node vm w frame) as [[vm1 w1] outs1].
  destruct R1 as (Hwf1 & _ & F1).
  pose proof (nat_node_run vm2 w1 frame2 Hwf1) as R2.
  destruct (opensase_nat_node vm2 w1 frame2) as [[vm2' w2] outs2].
  destruct R2 as (_ & Hext & F2).
  intros j b o k b2 o2 Hb Ho Hb2 Ho2 Heq.
  destruct (lookup_lt_is_Some_2 (nat_pointer_live w frame) j) as [l1 Hl1].
  { rewrite (Forall3_length_lm _ _ _ _ F1). eapply lookup_lt_Some, Hb. }
  destruct (lookup_lt_is_Some_2 (nat_pointer_live w1 frame2) k) as [l2 Hl2].
  { rewrite (Forall3_length_lm _ _ _ _ F2). eapply lookup_lt_Some, Hb2. }
  destruct (Forall3_lookup_lmr _ _ _ _ _ _ _ _ F1 Hl1 Hb Ho)
    as (_ & i & m & Hi & Hm & Hx).
  destruct (Forall3_lookup_lmr _ _ _ _ _ _ _ _ F2 Hl2 Hb2 Ho2)
    as (_ & i' & m' & Hi' & Hm' & Hx').
  pose proof (proj2 Hext _ _ Hi) as Hi2.
  pose proof (nat_extends_lookup _ _ _ _ _ Hext Hm) as Hm2.
  rewrite Heq, Hi2 in Hi'. injection Hi' as <-.
  rewrite Hm2 in Hm'. injection Hm' as <-.
  exists i, m. split_and!; auto.
  - intros Hl. apply Hx. congruence.
  - intros Hl. apply Hx'. congruence.
Qed.
End nat_node_theorems.

(** ** NAT translation: what the packet looks like afterwards *)

Lemma bswap16_testbit x i :
  0 <= i ->
  Z.testbit (bswap16 x) i
  = (i <? 16) && Z.testbit x (if i <? 8 then i + 8 else i - 8).
Proof.
  intros Hi. unfold bswap16.
  rewrite <- (Z.shiftr_0_r x) at 1.
  rewrite <- (Z.shiftl_0_r (Z.land (Z.shiftr x 8) 255)).
  rewrite Z.lor_spec, !byte_lane_testbit by lia.
  destruct (Z.ltb_spec i 16), (Z.ltb_spec i 8), (Z.leb_spec 8 i),
    (Z.leb_spec 0 i), (Z.ltb_spec i (8 + 8)), (Z.ltb_spec i (0 + 8));
    try lia; simpl; rewrite ?orb_false_r, ?Z.sub_0_r, ?Z.add_0_r;
    try reflexivity; f_equal; lia.
Qed.

Lemma bswap16_involutive x : 0 <= x < 65536 -> bswap16 (bswap16 x) = x.
Proof.
  intros Hx. apply Z.bits_inj'. intros i Hi.
  rewrite bswap16_testbit by lia.
  destruct (Z.ltb_spec i 16) as [Hlt | Hge]; simpl.
  - destruct (Z.ltb_spec i 8); rewrite bswap16_testbit by lia.
    + replace (i + 8 <? 16) with true by (symmetry; apply Z.ltb_lt; lia).
      replace (i + 8 <? 8) with false by (symmetry; apply Z.ltb_ge; lia).
      simpl. f_equal. lia.
    + replace (i - 8 <? 16) with true by (symmetry; apply Z.ltb_lt; lia).
      replace (i - 8 <? 8) with true by (symmetry; apply Z.ltb_lt; lia).
      simpl. f_equal. lia.
  - symmetry. rewrite <- (Z.mod_small x (2 ^ 16)) by lia.
    apply Z.mod_pow2_bits_high. lia.
Qed.

Lemma bswap16_range x : 0 <= bswap16 x < 65536.
Proof.
  assert (E : bswap16 x = bswap16 x mod 2 ^ 16).
  { apply Z.bits_inj'. intros i Hi.
    rewrite Z.testbit_mod_pow2, bswap16_testbit by lia.
    destruct (i <? 16); reflexivity. }
  rewrite E. apply Z.mod_pos_bound. lia.
Qed.

Lemma byte_at_insert_eq l (i : nat) x :
  (i < length l)%nat -> byte_at (<[i := x]> l) (Z.of_nat i) = x.
Proof.
  intros Hi. unfold byte_at.
  destruct (Z.ltb_spec (Z.of_nat i) 0); [lia|].
  rewrite Nat2Z.id, nth_lookup, list_lookup_insert_eq by exact Hi.
  reflexivity.
Qed.

Lemma byte_at_insert_ne l (i : nat) x j :
  j <> Z.of_nat i -> byte_at (<[i := x]> l) j = byte_at l j.
Proof.
  intros Hne. unfold byte_at. destruct (Z.ltb_spec j 0); [reflexivity|].
  rewrite !nth_lookup, list_lookup_insert_ne by lia. reflexivity.
Qed.

Lemma insert_take_comm {A} n i (x : A) l :
  <[i := x]> (take n l) = take n (<[i := x]> l).
Proof.
  destruct (le_lt_dec n i) as [Hle | Hlt].
  - rewrite take_insert_ge by exact Hle.
    apply list_insert_ge. rewrite length_take. lia.
  - symmetry. apply take_insert_lt. exact Hlt.
Qed.

(** The header checksum does not depend on the checksum field. *)
Lemma ip4_header_checksum_set_checksum b c :
  ip4_header_checksum (set_ip4 b (set_checksum (b_ip4 b) c))
  = ip4_header_checksum b.
Proof.
  unfold ip4_header_checksum, ip4_checksum_wire. simpl.
  rewrite !insert_take_comm. reflexivity.
Qed.

(** X3: after [nat_translate] on a TCP or UDP packet the source address
    and the source port are those of the mapping, the destination address
    and port and the metadata are untouched, and the IP header checksum
    is the checksum of the rewritten header. *)
Theorem nat_translate_rewrites b m :
  (2 <= length (b_l4 b))%nat ->
  0 <= m_external_port m < 65536 ->
  ip4_protocol (b_ip4 b) = IP_PROTOCOL_TCP
  \/ ip4_protocol (b_ip4 b) = IP_PROTOCOL_UDP ->
  let b' := nat_translate b m in
  ip4_src_address (b_ip4 b') = m_external_addr m
  /\ l4_src_port b' = m_external_port m
  /\ ip4_dst_address (b_ip4 b') = ip4_dst_address (b_ip4 b)
  /\ l4_dst_port b' = l4_dst_port b
  /\ b_opaque b' = b_opaque b
  /\ ip4_checksum_ok b'.
Proof.
  intros Hlen Hport Hproto. cbv zeta.
  assert (Hp : 0 <= bswap16 (m_external_port m) < 65536)
    by apply bswap16_range.
  assert (Hsrc : forall l : list Z, (2 <= length l)%nat ->
            bswap16 (load_u16
              (<[0%nat := bswap16 (m_external_port m) mod 256]>
                 (<[1%nat := bswap16 (m_external_port m) / 256]> l)) 0)
            = m_external_port m).
  { intros l Hl. unfold load_u16.
    rewrite (byte_at_insert_eq _ 0) by (rewrite length_insert; lia).
    rewrite byte_at_insert_ne by (simpl; lia).
    rewrite (byte_at_insert_eq _ 1) by lia.
    rewrite Z.add_comm, <- Z.div_mod by lia.
    apply bswap16_involutive, Hport. }
  assert (Hdst : forall l (i j : nat) x y, (2 <= i)%nat -> (2 <= j)%nat ->
            (4 <= j)%nat -> (4 <= i)%nat ->
            load_u16
              (<[0%nat := bswap16 (m_external_port m) mod 256]>
                 (<[1%nat := bswap16 (m_external_port m) / 256]>
                    (<[i := x]> (<[j := y]> l)))) 2
            = load_u16 l 2).
  { intros l i j x y ? ? ? ?. unfold load_u16.
    rewrite !byte_at_insert_ne by lia. reflexivity. }
  unfold nat_translate, l4_src_port, l4_dst_port, ip4_checksum_ok,
    clib_net_to_host_u16, clib_host_to_net_u16.
  simpl ip4_protocol.
  destruct Hproto as [Ht | Hu].
  - rewrite Ht. simpl. rewrite ip4_header_checksum_set_checksum.
    split_and!; try reflexivity.
    + apply Hsrc. rewrite !length_insert. exact Hlen.
    + f_equal. apply Hdst; lia.
  - rewrite Hu. simpl. rewrite ip4_header_checksum_set_checksum.
    split_and!; try reflexivity.
    + apply Hsrc. rewrite !length_insert. exact Hlen.
    + f_equal. apply Hdst; lia.
Qed.

Section nat_pool_facts.
Context `{!XXHash, !VecMemory}.

(** X4: a pool configured with [opensase nat pool] is the one the next
    new flow of that tenant is mapped from, wherever the first packet of
    that flow stands in its frame: behind any number of packets of flows
    that are in the table already, in a four-packet block or in the
    single-packet loop.  The mapping the flow is bound to when the frame
    is done carries the configured address and the first port of the
    range (truncated to 16 bits, as the pool stores it). *)
Theorem nat_pool_config_round_trip w tenant addr port_start port_end
    vm pre b rest :
  length (nw_tenant_pools w) = 256%nat ->
  0 <= tenant < 256 -> addr <> 0 ->
  op_tenant_id (b_opaque b) = tenant ->
  nw_mapping_hash w !! buffer_nat_hash b = None ->
  Forall (fun p => is_Some (nw_mapping_hash w !! buffer_nat_hash p)) pre ->
  exists w0 m,
    opensase_nat_pool_fn w tenant addr port_start port_end = Some w0
    /\ let w' := snd (fst (opensase_nat_node vm w0 (pre ++ b :: rest))) in
       nw_mapping_hash w' !! buffer_nat_hash b = Some (length (nw_mappings w))
       /\ nw_mappings w' !! length (nw_mappings w) = Some m
       /\ m_external_addr m = addr
       /\ m_external_port m = u16 port_start.
Proof.
  intros Hlen Ht Haddr Hb Hmiss Hpre. subst tenant.
  unfold opensase_nat_pool_fn.
  destruct (Z.leb_spec 256 (op_tenant_id (b_opaque b))) as [?|_]; [lia|].
  set (w0 := {| nw_mappings := nw_mappings w |}).
  exists w0.
  assert (Hlen0 : length (nw_tenant_pools w0) = 256%nat)
    by (unfold w0; cbn [nw_tenant_pools]; rewrite length_insert; exact Hlen).
  pose proof (nat_node_alloc vm w0 (pre ++ b :: rest) Hlen0) as Hr.
  destruct Hr as (_ & Ha & _).
  cbv zeta.
  set (w' := snd (fst (opensase_nat_node vm w0 (pre ++ b :: rest)))) in *.
  clearbody w'.
  apply nat_allocates_known_prefix in Ha; [|exact Hpre].
  inversion Ha as [| ? ? ? ? ? Hk _ | ? ? ? w1 ? _ Hp Hrest]; subst.
  { exfalso. unfold w0 in Hk. simpl in Hk. congruence. }
  destruct Hp as (m & Em & Eh & _ & _ & Hea & Hep & _).
  destruct (nat_allocates_extends _ _ _ _ Hrest) as [(added & Ea) Hh].
  assert (Hpool : tenant_pool w0 (op_tenant_id (b_opaque b))
                  = {| pool_external_addr := addr;
                       pool_port_start := u16 port_start;
                       pool_port_end := u16 port_end;
                       pool_next_port := u16 port_start;
                       pool_pad :=
                         pool_pad (tenant_pool w (op_tenant_id (b_opaque b))) |}).
  { unfold tenant_pool, w0. simpl. rewrite nth_lookup.
    rewrite list_lookup_insert_eq by lia. reflexivity. }
  assert (Hidx : nat_pool_index w0 (op_tenant_id (b_opaque b))
                 = op_tenant_id (b_opaque b)).
  { unfold nat_pool_index.
    destruct (Z.leb_spec 256 (op_tenant_id (b_opaque b))) as [?|_]; [lia|].
    rewrite Hpool. simpl.
    destruct (Z.eqb_spec addr 0); [contradiction|reflexivity]. }
  rewrite Hidx, Hpool in Hea, Hep. simpl in Hea, Hep.
  exists m. split; [reflexivity|]. split_and!.
  - apply Hh. rewrite Eh. apply lookup_insert_eq.
  - rewrite Ea, Em. unfold w0. cbn [nw_mappings].
    rewrite <- app_assoc. rewrite lookup_app_r by lia.
    rewrite Nat.sub_diag. reflexivity.
  - exact Hea.
  - exact Hep.
Qed.
End nat_pool_facts.

(** ** Tenant table: adding and finding mappings *)

Lemma find_free_slot_spec entries k :
  match find_free_slot entries k with
  | Some i =>
      exists j e, i = (k + j)%nat /\ entries !! j = Some e /\ e_valid e = 0
                  /\ forall j' e', (j' < j)%nat -> entries !! j' = Some e' ->
                       e_valid e' <> 0
  | None => forall e, e ∈ entries -> e_valid e <> 0
  end.
Proof.
  revert k. induction entries as [|e rest IH]; intros k; simpl.
  - intros e He. inversion He.
  - destruct (Z.eqb_spec (e_valid e) 0) as [Hz | Hnz].
    + exists 0%nat, e.
      split; [lia|]. split; [reflexivity|]. split; [exact Hz|].
      intros j' e' Hj. lia.
    + specialize (IH (S k)). destruct (find_free_slot rest (S k)) as [i|].
      * destruct IH as (j & e0 & -> & Hj & Hv & Hb).
        exists (S j), e0.
        split; [lia|]. split; [exact Hj|]. split; [exact Hv|].
        intros [|j'] e' Hlt He'; simpl in He'; [congruence|].
        apply (Hb j' e'); [lia|exact He'].
      * intros e' He'. apply elem_of_cons in He' as [-> | He']; auto.
Qed.

Lemma tenant_bucket_scan_skip src_ip entries :
  (forall e, e ∈ entries -> tenant_entry_hit src_ip e = false) ->
  tenant_bucket_scan src_ip entries = (0, 0).
Proof.
  induction entries as [|e rest IH]; intros Hn; simpl; [reflexivity|].
  rewrite (Hn e) by (left). apply IH. intros e' He'. apply Hn. right.
  exact He'.
Qed.

Lemma tenant_bucket_scan_app src_ip l1 l2 :
  (forall e, e ∈ l1 -> tenant_entry_hit src_ip e = false) ->
  tenant_bucket_scan src_ip (l1 ++ l2) = tenant_bucket_scan src_ip l2.
Proof.
  induction l1 as [|e rest IH]; intros Hn; simpl; [reflexivity|].
  rewrite (Hn e) by (left). apply IH. intros e' He'. apply Hn. right.
  exact He'.
Qed.

Section tenant_table_facts.
Context `{!XXHash, !TenantAddStack}.

Lemma tenant_add_parse_none input :
  forall l, tenant_add_parse input l = None <-> Arg_other ∈ input.
Proof.
  induction input as [|a rest IH]; intros l; simpl.
  - split; [discriminate | intros Hin; inversion Hin].
  - destruct a as [addr len | id | id |]; simpl.
    + destruct (int_store_spill _ _) as [[p t] v]. rewrite IH.
      rewrite elem_of_cons. split; [auto | intros [? | ?]; [discriminate | auto]].
    + rewrite IH, elem_of_cons.
      split; [auto | intros [? | ?]; [discriminate | auto]].
    + rewrite IH, elem_of_cons.
      split; [auto | intros [? | ?]; [discriminate | auto]].
    + split; [intros _; left | reflexivity].
Qed.

(** X5: a mapping added with [opensase tenant add] is found again under
    the values the command stored.  With [l] the locals at the end of the
    parse loop, which is what line 265 hashes and the slot receives (and
    need not be what was typed), an address that falls into the bucket of
    [l.prefix] and under [l.prefix/l.prefix_len] gets the tenant and VRF
    of [l], unless an older entry of that bucket already matches it. *)
Theorem tenant_add_lookup_round_trip tbl input l tbl' src_ip :
  tenant_add_parse input tenant_add_locals_init = Some l ->
  0 < l_prefix_len l <= 32 ->
  opensase_tenant_add_fn tbl input = (tbl', Tenant_added) ->
  tenant_hash_of src_ip = tenant_hash_of (l_prefix l) ->
  ip4_number src_ip / 2 ^ (32 - l_prefix_len l)
  = ip4_number (l_prefix l) / 2 ^ (32 - l_prefix_len l) ->
  (forall e, e ∈ take 4 (tenant_bucket tbl (tenant_hash_of (l_prefix l))) ->
     tenant_entry_hit src_ip e = false) ->
  tenant_lookup_fast tbl' src_ip = (l_tenant_id l, l_vrf_id l).
Proof.
  intros Hparse Hlen Hadd Hhash Hcov Hold.
  unfold opensase_tenant_add_fn in Hadd. rewrite Hparse in Hadd.
  cbv zeta in Hadd.
  pose proof (find_free_slot_spec
                (take 4 (tenant_bucket tbl (tenant_hash_of (l_prefix l)))) 0)
    as Hf.
  destruct (find_free_slot _ 0) as [i|]; [|discriminate].
  injection Hadd as <-. destruct Hf as (j & e & -> & Hj & _ & _).
  simpl in *. unfold tenant_lookup_fast, tenant_bucket.
  rewrite Hhash, lookup_insert_eq. simpl.
  fold (tenant_bucket tbl (tenant_hash_of (l_prefix l))).
  set (bucket := tenant_bucket tbl (tenant_hash_of (l_prefix l))) in *.
  assert (Hj4 : (j < 4)%nat).
  { apply lookup_lt_Some in Hj. rewrite length_take in Hj. lia. }
  assert (Hjb : (j < length bucket)%nat).
  { apply lookup_lt_Some in Hj. rewrite length_take in Hj. lia. }
  rewrite <- insert_take_comm.
  rewrite insert_take_drop by (rewrite length_take; lia).
  rewrite tenant_bucket_scan_app.
  - simpl.
    assert (Hhit : tenant_entry_hit src_ip
                     {| e_src_prefix := l_prefix l;
                        e_prefix_len := l_prefix_len l;
                        e_tenant_id := l_tenant_id l;
                        e_vrf_id := l_vrf_id l;
                        e_valid := 1 |} = true).
    { apply tenant_entry_hit_spec; simpl.
      - intros _. lia.
      - split; [simpl; lia|]. simpl. exact Hcov. }
    rewrite Hhit. reflexivity.
  - intros e' He'. apply Hold.
    apply elem_of_take in He' as (k & Hk & _).
    eapply list_elem_of_lookup_2. exact Hk.
Qed.

(** X6: [opensase tenant add] writes into the first free slot of one
    bucket and nowhere else.  The bucket is that of the value [prefix]
    holds when line 265 hashes it, [l.prefix] for the locals [l] at the
    end of the parse loop, and the slot receives the values of [l].  Every
    valid entry of the table stays where it is.  The command leaves the
    table alone and fails with "hash bucket full" exactly when the four
    slots of that bucket are all valid, and with "unknown input" exactly
    when the command line has a piece the parse loop does not know. *)
Theorem tenant_add_keeps_entries tbl input :
  match opensase_tenant_add_fn tbl input with
  | (tbl', Tenant_added) =>
      (Arg_other ∉ input)
      /\ exists l,
        tenant_add_parse input tenant_add_locals_init = Some l
        /\ let h := tenant_hash_of (l_prefix l) in
           let bucket := take 4 (tenant_bucket tbl h) in
           (exists i e, bucket !! i = Some e /\ e_valid e = 0
              /\ (forall j e', (j < i)%nat -> bucket !! j = Some e' ->
                    e_valid e' <> 0)
              /\ tenant_bucket tbl' h !! i
                 = Some {| e_src_prefix := l_prefix l;
                           e_prefix_len := l_prefix_len l;
                           e_tenant_id := l_tenant_id l;
                           e_vrf_id := l_vrf_id l;
                           e_valid := 1 |})
           /\ (forall h' j e, tenant_bucket tbl h' !! j = Some e ->
                 e_valid e <> 0 -> tenant_bucket tbl' h' !! j = Some e)
  | (tbl', Tenant_hash_bucket_full) =>
      tbl' = tbl /\ (Arg_other ∉ input)
      /\ exists l,
           tenant_add_parse input tenant_add_locals_init = Some l
           /\ forall e,
                e ∈ take 4 (tenant_bucket tbl (tenant_hash_of (l_prefix l))) ->
                e_valid e <> 0
  | (tbl', Tenant_unknown_input) =>
      tbl' = tbl /\ Arg_other ∈ input
  end.
Proof.
  unfold opensase_tenant_add_fn.
  destruct (tenant_add_parse input tenant_add_locals_init) as [l|] eqn:Hparse.
  - cbv zeta.
    assert (Hknown : Arg_other ∉ input).
    { intros Hin. apply tenant_add_parse_none with (l := tenant_add_locals_init)
        in Hin. congruence. }
    pose proof (find_free_slot_spec
                  (take 4 (tenant_bucket tbl (tenant_hash_of (l_prefix l)))) 0)
      as Hf.
    destruct (find_free_slot _ 0) as [i|].
    + split; [exact Hknown|]. exists l. split; [reflexivity|]. cbv zeta.
      destruct Hf as (j & e & -> & Hj & Hv & Hb). simpl.
      assert (Hjb : tenant_bucket tbl (tenant_hash_of (l_prefix l)) !! j
                    = Some e).
      { rewrite lookup_take_Some in Hj. apply Hj. }
      split.
      * exists j, e. split_and!; auto.
        unfold tenant_bucket at 1. rewrite lookup_insert_eq. simpl.
        apply list_lookup_insert_eq. eapply lookup_lt_Some, Hjb.
      * intros h k e' Hk Hvalid. unfold tenant_bucket at 1.
        destruct (decide (h = tenant_hash_of (l_prefix l))) as [-> | Hne].
        -- rewrite lookup_insert_eq. simpl.
           rewrite list_lookup_insert_ne; [exact Hk|].
           intros <-. rewrite Hjb in Hk. congruence.
        -- rewrite lookup_insert_ne by congruence. exact Hk.
    + split; [reflexivity|]. split; [exact Hknown|].
      exists l. split; [reflexivity | exact Hf].
  - split; [reflexivity|]. apply tenant_add_parse_none in Hparse. exact Hparse.
Qed.
End tenant_table_facts.

(** ** NAT node: ports stay in the configured range *)

Lemma nat_ports_rel_refl w : nat_ports_rel w w.
Proof.
  intros Hok. split; [exact Hok|]. split; [reflexivity|].
  exists []. rewrite app_nil_r. split; [reflexivity | constructor].
Qed.

Lemma nat_ports_rel_trans w w1 w2 :
  nat_ports_rel w w1 -> nat_ports_rel w1 w2 -> nat_ports_rel w w2.
Proof.
  intros H1 H2 Hok.
  destruct (H1 Hok) as (Hok1 & Hr1 & a1 & E1 & F1).
  destruct (H2 Hok1) as (Hok2 & Hr2 & a2 & E2 & F2).
  split; [exact Hok2|]. split; [intros k; rewrite Hr2; apply Hr1|].
  exists (a1 ++ a2). split; [rewrite E2, E1, app_assoc; reflexivity|].
  apply Forall_app. split; [exact F1|].
  eapply Forall_impl; [exact F2|]. intros m (k & Ha & Hp).
  exists k. specialize (Hr1 k). unfold pool_range in Hr1.
  injection Hr1 as Ea Es Ee. cbv zeta. rewrite <- Ea, <- Es, <- Ee. auto.
Qed.

Lemma nth_insert_pool k i (p : nat_pool_t) pools :
  nth k (<[i := p]> pools) zero_pool
  = if decide (k = i /\ (i < length pools)%nat) then p
    else nth k pools zero_pool.
Proof.
  rewrite !nth_lookup.
  destruct (decide (k = i /\ (i < length pools)%nat)) as [[-> Hlt] | Hn].
  - rewrite list_lookup_insert_eq by exact Hlt. reflexivity.
  - destruct (decide (k = i)) as [-> | Hne].
    + rewrite list_insert_ge by lia. reflexivity.
    + rewrite list_lookup_insert_ne by congruence. reflexivity.
Qed.

Section nat_port_facts.
Context `{!XXHash, !VecMemory}.

Lemma nat_lookup_or_create_ports now w b :
  nat_ports_rel w (fst (nat_lookup_or_create now w b)).
Proof.
  unfold nat_lookup_or_create.
  destruct (nat_lookup w _ _ _ _ _); [apply nat_ports_rel_refl|].
  rewrite nat_create_mapping_spec. cbv zeta. simpl fst.
  set (idx := Z.to_nat (nat_pool_index w (op_tenant_id (b_opaque b)))).
  intros Hok. unfold tenant_pool. fold idx.
  pose proof (Hok idx) as Hp.
  set (pool := nth idx (nw_tenant_pools w) zero_pool) in *.
  destruct Hp as [[Hs0 Hsn] [Hne He]].
  assert (Hu : u16 (pool_next_port pool + 1) = pool_next_port pool + 1)
    by (unfold u16; apply Z.mod_small; lia).
  split; [|split].
  - intros k. simpl. rewrite nth_insert_pool.
    destruct (decide _) as [_ | _]; [|apply Hok].
    unfold pool_in_range. simpl. rewrite Hu.
    destruct (Z.ltb_spec (pool_port_end pool) (pool_next_port pool + 1)); lia.
  - intros k. simpl. rewrite nth_insert_pool.
    destruct (decide _) as [[-> _] | _]; reflexivity.
  - simpl. eexists. split; [reflexivity|].
    constructor; [|constructor]. exists idx. simpl. fold pool. lia.
Qed.

Lemma nat_single_ports now w b :
  nat_ports_rel w (fst (nat_single now w b)).
Proof.
  rewrite nat_single_as_lookup.
  pose proof (nat_lookup_or_create_ports now w b) as Hr.
  destruct (nat_lookup_or_create now w b) as [w1 [i|]]; simpl in *;
    [destruct (nw_mappings w1 !! i)|]; exact Hr.
Qed.

Lemma nat_quad_ports now w b0 b1 b2 b3 :
  nat_ports_rel w (fst (nat_quad now w b0 b1 b2 b3)).
Proof.
  unfold nat_quad.
  pose proof (nat_lookup_or_create_ports now w b0) as Q0.
  destruct (nat_lookup_or_create now w b0) as [w1 m0].
  pose proof (nat_lookup_or_create_ports now w1 b1) as Q1.
  destruct (nat_lookup_or_create now w1 b1) as [w2 m1].
  pose proof (nat_lookup_or_create_ports now w2 b2) as Q2.
  destruct (nat_lookup_or_create now w2 b2) as [w3 m2].
  pose proof (nat_lookup_or_create_ports now w3 b3) as Q3.
  destruct (nat_lookup_or_create now w3 b3) as [w4 m3].
  simpl in *.
  exact (nat_ports_rel_trans _ _ _ Q0
           (nat_ports_rel_trans _ _ _ Q1 (nat_ports_rel_trans _ _ _ Q2 Q3))).
Qed.

(** X16: as long as every pool has its next port inside its range and the
    range ends below 65535, the NAT node keeps it so: no frame changes
    the address or the range of a pool, and every mapping it adds carries
    the address of a pool and a port of that pool's range. *)
Theorem nat_ports_stay_in_range vm w frame :
  nat_pools_ok w ->
  let w' := snd (fst (opensase_nat_node vm w frame)) in
  nat_pools_ok w'
  /\ (forall k, pool_range (nth k (nw_tenant_pools w') zero_pool)
                = pool_range (nth k (nw_tenant_pools w) zero_pool))
  /\ exists added,
       nw_mappings w' = nw_mappings w ++ added
       /\ Forall (mapping_in_range w) added.
Proof.
  intros Hok. unfold opensase_nat_node. simpl.
  set (now := cpu_time vm (cpu_reads vm)).
  pose proof (frame_loop_preserves (nat_quad now) (nat_single now)
                nat_ports_rel nat_ports_rel_refl nat_ports_rel_trans
                (nat_single_ports now) (nat_quad_ports now) frame w Hok) as Hr.
  destruct (frame_loop (nat_quad now) (nat_single now) w frame) as [w' outs].
  exact Hr.
Qed.
End nat_port_facts.

(** ** IPS: what the fall-back scanner flags, and what the node does
    with it *)

Lemma scan_loop_true test n :
  forall start,
    scan_loop test start n = true
    <-> exists k, (k < n)%nat /\ test (start + Z.of_nat k) = true.
Proof.
  induction n as [|n IH]; intros start; simpl.
  - split; [discriminate|]. intros (k & Hk & _). lia.
  - destruct (test start) eqn:Ht.
    + split; [|reflexivity]. intros _. exists 0%nat.
      rewrite Z.add_0_r. split; [lia|exact Ht].
    + rewrite IH. split.
      * intros (k & Hk & Hk'). exists (S k). split; [lia|].
        rewrite <- Hk'. f_equal. lia.
      * intros ([|k] & Hk & Hk').
        -- rewrite Z.add_0_r in Hk'. congruence.
        -- exists k. split; [lia|]. rewrite <- Hk'. f_equal. lia.
Qed.

Lemma to_upper_test c u :
  65 <= u <= 90 ->
  (c =? u) || (c =? u + 32) = true <-> to_upper c = u.
Proof.
  intros Hu. unfold to_upper. rewrite orb_true_iff, !Z.eqb_eq.
  destruct (Z.leb_spec 97 c), (Z.leb_spec c 122); simpl; lia.
Qed.

Lemma jndi_at_spec data i :
  jndi_at data i = true
  <-> byte_at data i = chr "$"%char /\ byte_at data (i + 1) = chr "{"%char
      /\ to_upper (byte_at data (i + 2)) = chr "J"%char.
Proof.
  unfold jndi_at. rewrite !andb_true_iff, !Z.eqb_eq.
  change (chr "j") with (74 + 32). change (chr "J") with 74.
  rewrite <- (to_upper_test _ 74) by lia.
  rewrite (orb_comm (byte_at data (i + 2) =? 74 + 32)). tauto.
Qed.

Lemma union_at_spec data i :
  union_at data i = true
  <-> map (fun k => to_upper (byte_at data (i + k))) [0; 1; 2; 3; 4]
      = bytes_of_string "UNION".
Proof.
  unfold union_at. rewrite !andb_true_iff.
  change (chr "U") with 85. change (chr "u") with (85 + 32).
  change (chr "N") with 78. change (chr "n") with (78 + 32).
  change (chr "I") with 73. change (chr "i") with (73 + 32).
  change (chr "O") with 79. change (chr "o") with (79 + 32).
  rewrite !to_upper_test by lia. simpl. rewrite Z.add_0_r.
  change (chr "U") with 85. change (chr "N") with 78.
  change (chr "I") with 73. change (chr "O") with 79.
  split.
  - intros ((((-> & ->) & ->) & ->) & ->). reflexivity.
  - intros [= -> -> -> -> ->]. auto.
Qed.

Lemma jndi_loop_spec data len :
  (10 <=? len) && scan_loop (jndi_at data) 0 (Z.to_nat (len - 10)) = true
  <-> jndi_prefix_within data len.
Proof.
  rewrite andb_true_iff, scan_loop_true, Z.leb_le. unfold jndi_prefix_within.
  split.
  - intros (Hl & k & Hk & Ht). exists (Z.of_nat k). split; [lia|].
    apply jndi_at_spec, Ht.
  - intros (i & Hi & Ht). split; [lia|]. exists (Z.to_nat i).
    split; [lia|]. rewrite Z2Nat.id by lia. apply jndi_at_spec, Ht.
Qed.

Lemma union_loop_spec data len :
  (6 <=? len) && scan_loop (union_at data) 0 (Z.to_nat (len - 6)) = true
  <-> union_within data len.
Proof.
  rewrite andb_true_iff, scan_loop_true, Z.leb_le. unfold union_within.
  split.
  - intros (Hl & k & Hk & Ht). exists (Z.of_nat k). split; [lia|].
    apply union_at_spec, Ht.
  - intros (i & Hi & Ht). split; [lia|]. exists (Z.to_nat i).
    split; [lia|]. rewrite Z2Nat.id by lia. apply union_at_spec, Ht.
Qed.

(** X7: the fall-back scanner flags a payload exactly when [${j] or [${J]
    stands at an offset below [len - 10], or UNION in any letter case at
    an offset below [len - 6]; whatever it flags is to be dropped, and
    the first pattern wins the signature id. *)
Theorem simple_pattern_scan_flags data len result :
  r_matched result = 0 ->
  let r := simple_pattern_scan data len result in
  (r_matched r = 1
   <-> jndi_prefix_within data len \/ union_within data len)
  /\ (r_matched r <> 0 -> r_action r = IPS_ACTION_DROP)
  /\ (jndi_prefix_within data len ->
      r_signature_id r = 4001 /\ r_category r = IPS_CAT_CVE)
  /\ (~ jndi_prefix_within data len -> union_within data len ->
      r_signature_id r = 2003 /\ r_category r = IPS_CAT_EXPLOIT).
Proof.
  intros Hclean. cbv zeta. unfold simple_pattern_scan.
  pose proof (jndi_loop_spec data len) as Hj.
  pose proof (union_loop_spec data len) as Hu.
  destruct ((10 <=? len) && scan_loop (jndi_at data) 0 (Z.to_nat (len - 10))).
  - simpl. split_and!; auto.
    + split; [intros _; left; apply Hj; reflexivity | reflexivity].
    + intros Hn. contradict Hn. apply Hj. reflexivity.
  - assert (Hnj : ~ jndi_prefix_within data len)
      by (intros Hw; apply Hj in Hw; discriminate).
    destruct ((6 <=? len) && scan_loop (union_at data) 0 (Z.to_nat (len - 6))).
    + simpl. split_and!; auto.
      * split; [intros _; right; apply Hu; reflexivity | reflexivity].
      * intros Hw. contradiction.
    + assert (Hnu : ~ union_within data len)
        by (intros Hw; apply Hu in Hw; discriminate).
      split_and!.
      * rewrite Hclean. split; [discriminate | tauto].
      * rewrite Hclean. congruence.
      * intros Hw. contradiction.
      * intros _ Hw. contradiction.
Qed.









(** ** QoS node: marking, dropping and byte accounting *)

Lemma class_dscp_range c : 0 <= class_dscp c < 64.
Proof.
  unfold class_dscp. destruct (Z.ltb_spec c OPENSASE_QOS_N_CLASSES); [|lia].
  unfold qos_to_dscp.
  destruct (Z.to_nat c) as [|[|[|[|[|[|n]]]]]]; simpl; lia.
Qed.

Lemma tos_of_dscp d old :
  0 <= d < 64 ->
  u8 (Z.lor (Z.shiftl d 2) (Z.land old 3)) = 4 * d + Z.land old 3.
Proof.
  intros Hd.
  assert (He : 0 <= Z.land old 3 < 4).
  { change 3 with (Z.ones 2). rewrite Z.land_ones by lia.
    apply Z.mod_pos_bound. lia. }
  rewrite Z.shiftl_mul_pow2 by lia. change (2 ^ 2) with 4.
  rewrite <- Z.add_nocarry_lor.
  - unfold u8. rewrite Z.mod_small; lia.
  - apply Z.bits_inj'. intros i Hi. rewrite Z.land_spec, Z.bits_0.
    destruct (Z.ltb_spec i 2).
    + replace (d * 4) with (Z.shiftl d 2)
        by (rewrite Z.shiftl_mul_pow2; lia).
      rewrite Z.shiftl_spec_low by lia. reflexivity.
    + rewrite (Z.land_spec old 3). change 3 with (Z.ones 2).
      rewrite Z.ones_spec_high by lia. rewrite !andb_false_r. reflexivity.
Qed.

Lemma apply_dscp_marked b :
  qos_marked b (apply_dscp b (op_qos_class (b_opaque b)))
  /\ b_opaque (apply_dscp b (op_qos_class (b_opaque b))) = b_opaque b.
Proof.
  unfold qos_marked, apply_dscp. fold (class_dscp (op_qos_class (b_opaque b))).
  rewrite tos_of_dscp by apply class_dscp_range.
  set (t := 4 * class_dscp (op_qos_class (b_opaque b))
            + Z.land (ip4_tos (b_ip4 b)) 3).
  destruct (Z.eqb_spec (ip4_tos (b_ip4 b)) t) as [E | _]; simpl; auto.
Qed.

Lemma qos_rate_limit_output now st b b0 len :
  qos_marked b0 b -> b_opaque b = b_opaque b0 ->
  qos_output b0 (snd (qos_rate_limit now st b len)).
Proof.
  intros Hm Ho. unfold qos_rate_limit, qos_output.
  assert (Hpass : qos_marked b0 (fst (b, OPENSASE_QOS_NEXT_IP4_LOOKUP))
            /\ ((snd (b, OPENSASE_QOS_NEXT_IP4_LOOKUP)
                 = OPENSASE_QOS_NEXT_IP4_LOOKUP
                 /\ b_opaque (fst (b, OPENSASE_QOS_NEXT_IP4_LOOKUP))
                    = b_opaque b0)
                \/ (snd (b, OPENSASE_QOS_NEXT_IP4_LOOKUP)
                    = OPENSASE_QOS_NEXT_DROP
                    /\ op_qos_class (b_opaque b0) = OPENSASE_QOS_SCAVENGER
                    /\ b_opaque (fst (b, OPENSASE_QOS_NEXT_IP4_LOOKUP))
                       = b_opaque
                           (set_flags b0
                              (Z.lor (op_flags (b_opaque b0))
                                     OPENSASE_FLAG_RATE_LIMITED)))))
    by (split; [exact Hm | left; split; [reflexivity | exact Ho]]).
  destruct (Z.eqb_spec (op_qos_class (b_opaque b)) OPENSASE_QOS_SCAVENGER)
    as [Hc | _]; [|exact Hpass].
  destruct (0 <? _)%float; [|exact Hpass].
  destruct (rate_limit_check _ len now) as [tb' ok].
  destruct (ok =? 0); [|exact Hpass].
  simpl. split; [exact Hm|]. right. rewrite <- Ho.
  split; [reflexivity|]. split; [exact Hc|]. reflexivity.
Qed.

Lemma qos_single_output now st b :
  qos_output b (snd (qos_single now st b)).
Proof.
  unfold qos_single, qos_output. simpl.
  destruct (apply_dscp_marked b) as [Hm Ho]. auto.
Qed.

Lemma qos_quad_output now st b0 b1 b2 b3 :
  Forall2 qos_output [b0; b1; b2; b3] (snd (qos_quad now st b0 b1 b2 b3)).
Proof.
  unfold qos_quad.
  destruct (apply_dscp_marked b0) as [Hm0 Ho0].
  pose proof (qos_rate_limit_output now
                {| q_worker :=
                     set_bytes_processed (q_worker st)
                       (u64 (w_bytes_processed (q_worker st)
                             + u32 (vlib_buffer_length_in_chain
                                      (apply_dscp b0 (op_qos_class (b_opaque b0)))
                                    + vlib_buffer_length_in_chain
                                        (apply_dscp b1 (op_qos_class (b_opaque b1)))
                                    + vlib_buffer_length_in_chain
                                        (apply_dscp b2 (op_qos_class (b_opaque b2)))
                                    + vlib_buffer_length_in_chain
                                        (apply_dscp b3 (op_qos_class (b_opaque b3))))));
                   q_limiters := q_limiters st |}
                _ b0 (vlib_buffer_length_in_chain
                        (apply_dscp b0 (op_qos_class (b_opaque b0))))
                Hm0 Ho0) as H0.
  destruct (qos_rate_limit now _ _ _) as [st' o0]. simpl in *.
  repeat (apply Forall2_cons; split;
          [first [exact H0 | unfold qos_output; simpl;
                  destruct (apply_dscp_marked b1), (apply_dscp_marked b2),
                    (apply_dscp_marked b3); auto]|]).
  constructor.
Qed.

(** X9: the QoS node marks every packet of a frame with the code point of
    its class, keeps the ECN bits and everything but the ToS byte and the
    header checksum, and sends it to [ip4-lookup] with its metadata
    untouched; the only packets it ever drops are of the scavenger class,
    and those leave with the rate-limited flag set. *)
Theorem qos_node_marks_every_packet vm st frame :
  Forall2
    (fun b o =>
       qos_marked b (fst o)
       /\ ((snd o = OPENSASE_QOS_NEXT_IP4_LOOKUP
            /\ b_opaque (fst o) = b_opaque b)
           \/ (snd o = OPENSASE_QOS_NEXT_DROP
               /\ op_qos_class (b_opaque b) = OPENSASE_QOS_SCAVENGER
               /\ b_opaque (fst o)
                  = b_opaque (set_flags b
                                (Z.lor (op_flags (b_opaque b))
                                       OPENSASE_FLAG_RATE_LIMITED)))))
    frame (snd (opensase_qos_node vm st frame)).
Proof.
  unfold opensase_qos_node. simpl.
  set (now := cpu_time vm (cpu_reads vm)).
  pose proof (frame_loop_pointwise (qos_quad now) (qos_single now) qos_output
                (qos_single_output now) (qos_quad_output now) frame st) as Hp.
  destruct (frame_loop (qos_quad now) (qos_single now) st frame) as [st' outs].
  exact Hp.
Qed.

Lemma qos_rate_limit_idle now st b len :
  no_scavenger_limit (q_limiters st) ->
  qos_rate_limit now st b len = (st, (b, OPENSASE_QOS_NEXT_IP4_LOOKUP)).
Proof.
  intros Hn. unfold qos_rate_limit.
  destruct (_ =? OPENSASE_QOS_SCAVENGER); [|reflexivity].
  rewrite Hn. reflexivity.
Qed.

(** X10: while no scavenger limiter has a positive rate (the state the
    plugin starts in), the QoS node drops nothing: every packet of every
    frame goes to [ip4-lookup], no bucket is touched and the drop counter
    stands still. *)
Theorem qos_no_limiter_no_drop vm st frame :
  no_scavenger_limit (q_limiters st) ->
  let '((vm', st'), outs) := opensase_qos_node vm st frame in
  Forall (fun o => snd o = OPENSASE_QOS_NEXT_IP4_LOOKUP) outs
  /\ q_limiters st' = q_limiters st
  /\ w_packets_dropped (q_worker st') = w_packets_dropped (q_worker st).
Proof.
  intros Hn. unfold opensase_qos_node. simpl.
  set (now := cpu_time vm (cpu_reads vm)).
  pose proof (frame_loop_pointwise_inv (qos_quad now) (qos_single now)
                (fun s => q_limiters s = q_limiters st
                          /\ w_packets_dropped (q_worker s)
                             = w_packets_dropped (q_worker st))
                (fun _ o => snd o = OPENSASE_QOS_NEXT_IP4_LOOKUP)) as Hp.
  destruct (Hp) with (bufs := frame) (s := st) as [[Hl Hd] Ho].
  - intros s b [Hl Hd]. unfold qos_single. simpl. auto.
  - intros s b0 b1 b2 b3 [Hl Hd]. unfold qos_quad.
    rewrite qos_rate_limit_idle by (simpl; rewrite Hl; exact Hn).
    simpl. split; [auto|]. repeat constructor.
  - auto.
  - destruct (frame_loop (qos_quad now) (qos_single now) st frame)
      as [st' outs]. simpl in *. split_and!; auto.
    clear -Ho. induction Ho; constructor; auto.
Qed.

Lemma apply_dscp_length b c :
  vlib_buffer_length_in_chain (apply_dscp b c) = vlib_buffer_length_in_chain b.
Proof.
  unfold apply_dscp, vlib_buffer_length_in_chain.
  destruct (negb _); reflexivity.
Qed.

Lemma qos_rate_limit_bytes now st b len :
  w_bytes_processed (q_worker (fst (qos_rate_limit now st b len)))
  = w_bytes_processed (q_worker st).
Proof.
  unfold qos_rate_limit.
  destruct (_ =? OPENSASE_QOS_SCAVENGER); [|reflexivity].
  destruct (0 <? _)%float; [|reflexivity].
  destruct (rate_limit_check _ _ _) as [tb' ok].
  destruct (ok =? 0); reflexivity.
Qed.

Lemma buffer_length_pos b : 20 <= vlib_buffer_length_in_chain b.
Proof. unfold vlib_buffer_length_in_chain. lia. Qed.

Lemma qos_bytes_rel_nil st : qos_bytes_rel st [] [] st.
Proof. intros _. unfold frame_bytes. simpl. rewrite Z.add_0_r. reflexivity. Qed.

Lemma frame_bytes_app l1 l2 :
  frame_bytes (l1 ++ l2) = frame_bytes l1 + frame_bytes l2.
Proof.
  unfold frame_bytes. induction l1 as [|b l IH]; simpl; [reflexivity|].
  rewrite IH. lia.
Qed.

Lemma qos_bytes_rel_app st l1 o1 st1 l2 o2 st2 :
  qos_bytes_rel st l1 o1 st1 -> qos_bytes_rel st1 l2 o2 st2 ->
  qos_bytes_rel st (l1 ++ l2) (o1 ++ o2) st2.
Proof.
  intros H1 H2 Hf. apply Forall_app in Hf as [Hf1 Hf2].
  rewrite (H2 Hf2), frame_bytes_app.
  rewrite <- u64_add_l, (H1 Hf1), u64_add_l. f_equal. lia.
Qed.

Lemma qos_single_bytes now st b :
  qos_bytes_rel st [b] [snd (qos_single now st b)] (fst (qos_single now st b)).
Proof.
  intros _. unfold qos_single, frame_bytes. simpl.
  rewrite apply_dscp_length, Z.add_0_r. unfold u64. apply Zmod_mod.
Qed.

Lemma qos_quad_bytes now st b0 b1 b2 b3 :
  qos_bytes_rel st [b0; b1; b2; b3] (snd (qos_quad now st b0 b1 b2 b3))
    (fst (qos_quad now st b0 b1 b2 b3)).
Proof.
  intros Hf. unfold qos_quad.
  pose proof (qos_rate_limit_bytes now
                {| q_worker :=
                     set_bytes_processed (q_worker st)
                       (u64 (w_bytes_processed (q_worker st)
                             + u32 (vlib_buffer_length_in_chain
                                      (apply_dscp b0 (op_qos_class (b_opaque b0)))
                                    + vlib_buffer_length_in_chain
                                        (apply_dscp b1 (op_qos_class (b_opaque b1)))
                                    + vlib_buffer_length_in_chain
                                        (apply_dscp b2 (op_qos_class (b_opaque b2)))
                                    + vlib_buffer_length_in_chain
                                        (apply_dscp b3 (op_qos_class (b_opaque b3))))));
                   q_limiters := q_limiters st |}
                (apply_dscp b0 (op_qos_class (b_opaque b0)))
                (vlib_buffer_length_in_chain
                   (apply_dscp b0 (op_qos_class (b_opaque b0))))) as Hb.
  destruct (qos_rate_limit now _ _ _) as [st' o0]. simpl in Hb |- *.
  rewrite Hb, !apply_dscp_length. unfold frame_bytes. simpl.
  apply Forall_cons in Hf as [L0 Hf]. apply Forall_cons in Hf as [L1 Hf].
  apply Forall_cons in Hf as [L2 Hf]. apply Forall_cons in Hf as [L3 _].
  pose proof (buffer_length_pos b0). pose proof (buffer_length_pos b1).
  pose proof (buffer_length_pos b2). pose proof (buffer_length_pos b3).
  unfold u32. rewrite (Z.mod_small (_ + _ + _ + _)) by lia.
  unfold u64. rewrite Zmod_mod. f_equal. lia.
Qed.

(** X11: the byte counter of the QoS node grows by the total length of
    the frame (modulo 2^64), dropped packets included, as long as no
    packet is a gigabyte long. *)
Theorem qos_node_counts_bytes vm st frame :
  Forall (fun b => vlib_buffer_length_in_chain b < 2 ^ 30) frame ->
  let '((vm', st'), outs) := opensase_qos_node vm st frame in
  u64 (w_bytes_processed (q_worker st'))
  = u64 (w_bytes_processed (q_worker st) + frame_bytes frame).
Proof.
  intros Hf. unfold opensase_qos_node. simpl.
  set (now := cpu_time vm (cpu_reads vm)).
  pose proof (frame_loop_run (qos_quad now) (qos_single now) qos_bytes_rel
                qos_bytes_rel_nil qos_bytes_rel_app (qos_single_bytes now)
                (qos_quad_bytes now) frame st Hf) as Hr.
  destruct (frame_loop (qos_quad now) (qos_single now) st frame) as [st' outs].
  exact Hr.
Qed.

(** ** Policy node: which policies can win, and what is written *)

(** The scan returns the running best match or a later candidate of
    strictly better priority. *)
Lemma policy_scan_pick ps ip4 sp dp tenant :
  forall i bm bp,
    let r := policy_scan ps i ip4 sp dp tenant bm bp in
    r = bm
    \/ exists k p, r = i + Z.of_nat k /\ ps !! k = Some p
         /\ policy_continue p ip4 sp dp tenant = false
         /\ p_priority p < bp.
Proof.
  induction ps as [|p rest IH]; intros i bm bp; simpl; [left; reflexivity|].
  assert (Hshift : forall bm' bp',
            bp' <= bp ->
            policy_scan rest (i + 1) ip4 sp dp tenant bm' bp' = bm'
            \/ exists k q,
                 policy_scan rest (i + 1) ip4 sp dp tenant bm' bp'
                 = i + Z.of_nat k
                 /\ (p :: rest) !! k = Some q
                 /\ policy_continue q ip4 sp dp tenant = false
                 /\ p_priority q < bp).
  { intros bm' bp' Hle.
    destruct (IH (i + 1) bm' bp') as [H | (k & q & Hr & Hk & Hc & Hp)];
      [left; exact H|].
    right. exists (S k), q. split_and!; auto; lia. }
  destruct (policy_continue p ip4 sp dp tenant) eqn:Hc.
  - apply Hshift. lia.
  - destruct (Z.ltb_spec (p_priority p) bp) as [Hlt | Hge].
    + destruct (Hshift i (p_priority p)) as [H | H]; [lia| |right; exact H].
      right. exists 0%nat, p. rewrite H. split_and!; auto. lia.
    + apply Hshift. lia.
Qed.

Lemma policy_continue_false p ip4 sp dp tenant :
  policy_continue p ip4 sp dp tenant = false ->
  policy_in_use p
  /\ (p_tenant_id p = 0 \/ p_tenant_id p = tenant)
  /\ (p_protocol p = 0 \/ p_protocol p = ip4_protocol ip4).
Proof.
  unfold policy_continue, policy_in_use.
  destruct (Z.eqb_spec (p_policy_id p) 0), (Z.eqb_spec (p_priority p) 0);
    simpl; try discriminate;
    destruct (Z.eqb_spec (p_tenant_id p) 0),
      (Z.eqb_spec (p_tenant_id p) tenant); simpl; try discriminate;
    destruct (_ && _); try discriminate;
    destruct (_ && _); try discriminate;
    destruct (Z.eqb_spec (p_protocol p) 0),
      (Z.eqb_spec (p_protocol p) (ip4_protocol ip4)); simpl;
    try discriminate; intros _; split_and!; auto.
Qed.

(** X12: a policy that the matcher selects is in use, is global or of the
    packet's own tenant, names the packet's protocol or none, and has a
    priority below 2^32 - 1: as the search starts from that value and only
    moves to strictly smaller ones, a policy of priority 2^32 - 1 is never
    applied to any packet. *)
Theorem policy_match_skips_priority_max osm b p :
  matched_policy osm b = Some p ->
  p ∈ osm_policies osm
  /\ p_priority p < U32_MAX
  /\ policy_in_use p
  /\ (p_tenant_id p = 0 \/ p_tenant_id p = op_tenant_id (b_opaque b))
  /\ (p_protocol p = 0 \/ p_protocol p = ip4_protocol (b_ip4 b)).
Proof.
  unfold matched_policy, opensase_policy_match.
  destruct (extract_ports b) as [sp dp].
  pose proof (policy_scan_pick (osm_policies osm) (b_ip4 b) sp dp
                (op_tenant_id (b_opaque b)) 0 U32_MAX U32_MAX) as Hpick.
  cbv zeta in Hpick.
  destruct (Z.eqb_spec (policy_scan (osm_policies osm) 0 (b_ip4 b) sp dp
                          (op_tenant_id (b_opaque b)) U32_MAX U32_MAX)
                       U32_MAX) as [E | Hne]; [discriminate|].
  destruct Hpick as [E | (k & q & Hr & Hk & Hc & Hp)]; [contradiction|].
  rewrite Hr, Z.add_0_l, Nat2Z.id, Hk. intros [= <-].
  split; [eapply list_elem_of_lookup_2, Hk|]. split; [exact Hp|].
  eapply policy_continue_false, Hc.
Qed.

Lemma policy_single_stamp osm w b :
  fst (snd (policy_single osm w b)) = policy_stamp osm b.
Proof.
  unfold policy_single, policy_stamp, matched_policy.
  destruct (extract_ports b) as [sp dp].
  destruct (_ =? U32_MAX); simpl; [reflexivity|].
  destruct (osm_policies osm !! _); reflexivity.
Qed.

(** X13: the policy node writes the id and the QoS class of the matched
    policy into the metadata of every packet that matches one, dropped
    packets included, and changes nothing else of the packet; a packet
    that matches no policy leaves as it came. *)
Theorem policy_node_stamps_metadata osm w frame :
  Forall2 (fun b o => fst o = policy_stamp osm b)
          frame (snd (opensase_policy_node osm w frame)).
Proof.
  unfold opensase_policy_node.
  apply (frame_loop_pointwise (policy_quad osm) (policy_single osm)
           (fun b o => fst o = policy_stamp osm b)).
  - intros s b. apply policy_single_stamp.
  - intros s b0 b1 b2 b3. unfold policy_quad.
    pose proof (policy_single_stamp osm s b0) as H0.
    destruct (policy_single osm s b0) as [w1 o0].
    pose proof (policy_single_stamp osm w1 b1) as H1.
    destruct (policy_single osm w1 b1) as [w2 o1].
    pose proof (policy_single_stamp osm w2 b2) as H2.
    destruct (policy_single osm w2 b2) as [w3 o2].
    pose proof (policy_single_stamp osm w3 b3) as H3.
    destruct (policy_single osm w3 b3) as [w4 o3].
    simpl in *. repeat (apply Forall2_cons; split; [assumption|]).
    constructor.
Qed.

(** ** Session table: flows and slots stay in step *)

Section session_table_facts.
Context `{!XXHash}.

Lemma session_table_run_refl st : session_table_run 0 st st.
Proof.
  intros Hwf. split_and!; auto; try lia.
  rewrite Z.sub_diag, Z.add_0_r. reflexivity.
Qed.

Lemma session_table_run_trans n1 n2 st st1 st2 :
  session_table_run n1 st st1 -> session_table_run n2 st1 st2 ->
  session_table_run (n1 + n2) st st2.
Proof.
  intros H1 H2 Hwf.
  destruct (H1 Hwf) as (Hwf1 & Hc1 & Hn1 & Hs1).
  destruct (H2 Hwf1) as (Hwf2 & Hc2 & Hn2 & Hs2).
  split_and!; auto; try lia.
  rewrite Hs2, <- u64_add_l, Hs1, u64_add_l. f_equal. lia.
Qed.

Lemma lookup_or_create_table_run vm w ip4 sp dp :
  session_table_run 1 (vm, w)
    (fst (opensase_session_lookup_or_create vm w ip4 sp dp)).
Proof.
  intros Hwf. simpl in Hwf.
  unfold opensase_session_lookup_or_create.
  destruct (w_session_hash w !! opensase_session_hash ip4 sp dp) as [p|] eqn:Hp.
  { simpl. split_and!; auto; try lia.
    rewrite Z.sub_diag, Z.add_0_r. reflexivity. }
  destruct (Z.leb_spec (Z.of_nat (length (w_sessions w))) (w_n_sessions w))
    as [Hfull | Hroom].
  { simpl. split_and!; auto; try lia.
    rewrite Z.sub_diag, Z.add_0_r. reflexivity. }
  destruct Hwf as (Hn & Hlen & Hh).
  assert (Hu : u32 (w_n_sessions w + 1) = w_n_sessions w + 1)
    by (unfold u32; apply Z.mod_small; lia).
  simpl. rewrite Hu. split; [|split; [|split]].
  - unfold worker_wf. simpl. rewrite length_insert.
    split; [lia|]. split; [lia|].
    intros h i. destruct (decide (h = opensase_session_hash ip4 sp dp))
      as [-> | Hne].
    + rewrite lookup_insert_eq. intros [= <-]. lia.
    + rewrite lookup_insert_ne by congruence. intros Hi.
      apply Hh in Hi. lia.
  - intros [Hc1 Hc2]. unfold session_table_consistent. simpl.
    split.
    + intros h i. destruct (decide (h = opensase_session_hash ip4 sp dp))
        as [-> | Hne].
      * rewrite lookup_insert_eq. intros [= <-].
        eexists. split; [apply list_lookup_insert_eq; lia | reflexivity].
      * rewrite lookup_insert_ne by congruence. intros Hi.
        destruct (Hc1 h i Hi) as (s & Hs & Hf). exists s. split; [|exact Hf].
        rewrite list_lookup_insert_ne; [exact Hs|].
        apply Hh in Hi. lia.
    + intros i Hi.
      destruct (decide (i = Z.to_nat (w_n_sessions w))) as [-> | Hne].
      * exists (opensase_session_hash ip4 sp dp). apply lookup_insert_eq.
      * destruct (Hc2 i ltac:(lia)) as (h & Hi').
        exists h. rewrite lookup_insert_ne; [exact Hi'|]. congruence.
  - lia.
  - unfold u64. rewrite Zmod_mod. f_equal. lia.
Qed.

Lemma update_stats_table_run vm w s b :
  session_table_run 0 (vm, w) (session_update_stats vm w s b).
Proof.
  destruct s as [idx|]; [|apply session_table_run_refl].
  intros Hwf. simpl in Hwf. simpl.
  destruct Hwf as (Hn & Hlen & Hh).
  split; [|split; [|split]].
  - unfold worker_wf. simpl. rewrite length_alter. auto.
  - intros [Hc1 Hc2]. split; [|exact Hc2]. simpl. intros h i Hi.
    destruct (Hc1 h i Hi) as (s & Hs & Hf).
    destruct (decide (i = idx)) as [-> | Hne].
    + eexists. split; [rewrite list_lookup_alter_eq, Hs; reflexivity|].
      exact Hf.
    + exists s. split; [|exact Hf].
      rewrite list_lookup_alter_ne by congruence. exact Hs.
  - lia.
  - rewrite Z.sub_diag, Z.add_0_r. reflexivity.
Qed.

Lemma security_single_table_run st b :
  session_table_run 1 st (fst (security_single st b)).
Proof.
  destruct st as [vm w]. unfold security_single.
  destruct (extract_ports b) as [sp dp].
  pose proof (lookup_or_create_table_run vm w (b_ip4 b) sp dp) as H1.
  destruct (opensase_session_lookup_or_create vm w (b_ip4 b) sp dp)
    as [[vm1 w1] r].
  pose proof (update_stats_table_run vm1 w1 (lk_s r)
                (set_session_idx b (lk_session_idx r))) as H2.
  destruct (session_update_stats vm1 w1 (lk_s r) _) as [vm2 w2].
  simpl in *. exact (session_table_run_trans 1 0 _ _ _ H1 H2).
Qed.

Lemma security_quad_table_run st b0 b1 b2 b3 :
  session_table_run 4 st (fst (security_quad st b0 b1 b2 b3)).
Proof.
  destruct st as [vm w]. unfold security_quad.
  destruct (extract_ports b0) as [sp0 dp0].
  destruct (extract_ports b1) as [sp1 dp1].
  destruct (extract_ports b2) as [sp2 dp2].
  destruct (extract_ports b3) as [sp3 dp3].
  pose proof (lookup_or_create_table_run vm w (b_ip4 b0) sp0 dp0) as L0.
  destruct (opensase_session_lookup_or_create vm w (b_ip4 b0) sp0 dp0)
    as [[vm1 w1] r0].
  pose proof (lookup_or_create_table_run vm1 w1 (b_ip4 b1) sp1 dp1) as L1.
  destruct (opensase_session_lookup_or_create vm1 w1 (b_ip4 b1) sp1 dp1)
    as [[vm2 w2] r1].
  pose proof (lookup_or_create_table_run vm2 w2 (b_ip4 b2) sp2 dp2) as L2.
  destruct (opensase_session_lookup_or_create vm2 w2 (b_ip4 b2) sp2 dp2)
    as [[vm3 w3] r2].
  pose proof (lookup_or_create_table_run vm3 w3 (b_ip4 b3) sp3 dp3) as L3.
  destruct (opensase_session_lookup_or_create vm3 w3 (b_ip4 b3) sp3 dp3)
    as [[vm4 w4] r3].
  pose proof (update_stats_table_run vm4 w4 (lk_s r0)
                (set_session_idx b0 (lk_session_idx r0))) as U0.
  destruct (session_update_stats vm4 w4 (lk_s r0) _) as [vm5 w5].
  pose proof (update_stats_table_run vm5 w5 (lk_s r1)
                (set_session_idx b1 (lk_session_idx r1))) as U1.
  destruct (session_update_stats vm5 w5 (lk_s r1) _) as [vm6 w6].
  pose proof (update_stats_table_run vm6 w6 (lk_s r2)
                (set_session_idx b2 (lk_session_idx r2))) as U2.
  destruct (session_update_stats vm6 w6 (lk_s r2) _) as [vm7 w7].
  pose proof (update_stats_table_run vm7 w7 (lk_s r3)
                (set_session_idx b3 (lk_session_idx r3))) as U3.
  destruct (session_update_stats vm7 w7 (lk_s r3) _) as [vm8 w8].
  simpl in *.
  exact (session_table_run_trans 1 3 _ _ _ L0
           (session_table_run_trans 1 2 _ _ _ L1
              (session_table_run_trans 1 1 _ _ _ L2
                 (session_table_run_trans 1 0 _ _ _ L3
                    (session_table_run_trans 0 0 _ _ _ U0
                       (session_table_run_trans 0 0 _ _ _ U1
                          (session_table_run_trans 0 0 _ _ _ U2 U3))))))).
Qed.

Lemma security_node_table_run vm w frame :
  session_table_run (length frame) (vm, w)
    (fst (opensase_security_node vm w frame)).
Proof.
  unfold opensase_security_node.
  pose proof (frame_loop_run security_quad security_single
                (fun s l _ s' => session_table_run (length l) s s')
                session_table_run_refl) as Hr.
  specialize (Hr (fun s l1 o1 s1 l2 o2 s2 H1 H2 =>
                    eq_rect_r (fun n => session_table_run n s s2)
                      (session_table_run_trans _ _ _ _ _ H1 H2)
                      (length_app l1 l2))).
  specialize (Hr security_single_table_run security_quad_table_run
                frame (vm, w)).
  destruct (frame_loop security_quad security_single (vm, w) frame)
    as [[vm' w'] outs].
  simpl in *. intros Hwf. destruct (Hr Hwf) as (Hwf' & Hc' & Hn & Hs).
  split; [exact Hwf'|]. split; [exact Hc'|]. split; [exact Hn | exact Hs].
Qed.

(** X14: the session tracker keeps its table in step with its hash: after
    any frame every hash entry still points to a slot that stores a
    5-tuple with that very hash, and every slot in use still has a hash
    entry, so distinct hash values never share a slot. *)
Theorem session_table_stays_consistent vm w frame :
  worker_wf w -> session_table_consistent w ->
  let w' := snd (fst (opensase_security_node vm w frame)) in
  worker_wf w' /\ session_table_consistent w'
  /\ (forall h1 h2 i, w_session_hash w' !! h1 = Some i ->
        w_session_hash w' !! h2 = Some i -> h1 = h2).
Proof.
  intros Hwf Hc.
  destruct (security_node_table_run vm w frame Hwf)
    as (Hwf' & Hc' & _ & _).
  cbv zeta. specialize (Hc' Hc). split_and!; auto.
  intros h1 h2 i H1 H2. destruct Hc' as [Hc1 _].
  destruct (Hc1 h1 i H1) as (s1 & Hs1 & <-).
  destruct (Hc1 h2 i H2) as (s2 & Hs2 & <-). congruence.
Qed.

(** X15: a frame creates at most one session per packet, and
    [sessions_created] counts exactly the slots that were taken (modulo
    2^64). *)
Theorem session_creation_is_counted vm w frame :
  worker_wf w ->
  let w' := snd (fst (opensase_security_node vm w frame)) in
  w_n_sessions w <= w_n_sessions w'
  <= w_n_sessions w + Z.of_nat (length frame)
  /\ u64 (w_sessions_created w')
     = u64 (w_sessions_created w + (w_n_sessions w' - w_n_sessions w)).
Proof.
  intros Hwf.
  destruct (security_node_table_run vm w frame Hwf) as (_ & _ & Hn & Hs).
  cbv zeta. split; [exact Hn | exact Hs].
Qed.
End session_table_facts.

(** ** The Hyperscan callback: what a scan settles on *)

Lemma find_signature_elem sigs id sig :
  find_signature sigs id = Some sig -> sig ∈ sigs /\ sig_id sig = id.
Proof.
  induction sigs as [|s rest IH]; simpl; [discriminate|].
  destruct (Z.eqb_spec (sig_id s) id) as [E | _].
  - intros [= <-]. split; [left | exact E].
  - intros Hf. destruct (IH Hf). split; [right|]; assumption.
Qed.

Lemma find_signature_action id sig :
  find_signature default_signatures id = Some sig ->
  sig_action sig = IPS_ACTION_ALERT \/ sig_action sig = IPS_ACTION_DROP.
Proof.
  intros Hf. apply find_signature_elem in Hf as [Hin _].
  assert (Hall : Forall (fun s => sig_action s = IPS_ACTION_ALERT
                                  \/ sig_action s = IPS_ACTION_DROP)
                        default_signatures).
  { unfold default_signatures.
    repeat (apply Forall_cons; split; [simpl; auto|]). constructor. }
  rewrite Forall_forall in Hall. apply Hall, Hin.
Qed.

(** One call of the handler on a result that holds no drop yet. *)
Lemma hs_match_handler_step id r :
  (r_matched r = 0 \/ r_matched r = 1) -> r_action r = IPS_ACTION_ALERT ->
  match find_signature default_signatures id with
  | Some sig =>
      (sig_action sig = IPS_ACTION_ALERT
       /\ snd (hs_match_handler id r) = 0
       /\ r_matched (fst (hs_match_handler id r)) = 1
       /\ r_action (fst (hs_match_handler id r)) = IPS_ACTION_ALERT)
      \/ (sig_action sig = IPS_ACTION_DROP
          /\ snd (hs_match_handler id r) = 1
          /\ r_matched (fst (hs_match_handler id r)) = 1
          /\ r_action (fst (hs_match_handler id r)) = IPS_ACTION_DROP)
  | None => hs_match_handler id r = (r, 0)
  end.
Proof.
  intros Hm Ha. unfold hs_match_handler.
  destruct (find_signature default_signatures id) as [sig|] eqn:Hf.
  - destruct (find_signature_action id sig Hf) as [Hs | Hs]; [left | right];
      destruct Hm as [Hm | Hm]; rewrite Hm, Ha, Hs; simpl;
      rewrite ?Ha, ?Hm; simpl; auto.
  - cbv zeta. rewrite Ha. reflexivity.
Qed.

Lemma deliver_matches_spec ids :
  forall r,
    (r_matched r = 0 \/ r_matched r = 1) -> r_action r = IPS_ACTION_ALERT ->
    let r' := deliver_matches ids r in
    (r_action r' = IPS_ACTION_ALERT \/ r_action r' = IPS_ACTION_DROP)
    /\ (r_matched r' <> 0
        <-> r_matched r <> 0
            \/ exists id, id ∈ ids
                 /\ is_Some (find_signature default_signatures id))
    /\ (r_action r' = IPS_ACTION_DROP
        <-> exists id sig, id ∈ ids
              /\ find_signature default_signatures id = Some sig
              /\ sig_action sig = IPS_ACTION_DROP).
Proof.
  induction ids as [|id rest IH]; intros r Hm Ha; cbv zeta.
  - simpl. split; [auto|]. split.
    + split; [auto|]. intros [H | (id & Hid & _)]; [exact H|]. inversion Hid.
    + split.
      * rewrite Ha. discriminate.
      * intros (id & sig & Hid & _). inversion Hid.
  - cbn [deliver_matches].
    pose proof (hs_match_handler_step id r Hm Ha) as Hstep.
    destruct (hs_match_handler id r) as [r1 stop].
    destruct (find_signature default_signatures id) as [sig|] eqn:Hf.
    + simpl in Hstep.
      destruct Hstep as [(Hs & -> & Hm1 & Ha1) | (Hs & -> & Hm1 & Ha1)].
      * change (0 =? 0) with true. cbv iota.
        destruct (IH r1 (or_intror Hm1) Ha1) as (I1 & I2 & I3).
        split; [exact I1|]. split.
        -- rewrite I2. split.
           ++ intros _. right. exists id. split; [left|]. rewrite Hf. eauto.
           ++ intros _. left. rewrite Hm1. discriminate.
        -- rewrite I3. split.
           ++ intros (i & s & Hi & Hsi & Hsa). exists i, s.
              split; [right; exact Hi | auto].
           ++ intros (i & s & Hi & Hsi & Hsa).
              apply elem_of_cons in Hi as [-> | Hi].
              ** rewrite Hf in Hsi. injection Hsi as <-.
                 rewrite Hs in Hsa. discriminate.
              ** exists i, s. auto.
      * change (1 =? 0) with false. cbv iota. split; [auto|]. split.
        -- split; [|rewrite Hm1; discriminate]. intros _. right. exists id.
           split; [left|]. rewrite Hf. eauto.
        -- split; [|exact (fun _ => Ha1)]. intros _. exists id, sig.
           split; [left | auto].
    + injection Hstep as -> ->. change (0 =? 0) with true. cbv iota.
      destruct (IH r Hm Ha) as (I1 & I2 & I3).
      split; [exact I1|]. split.
      * rewrite I2. split.
        -- intros [H | (i & Hi & Hs)]; [left; exact H|].
           right. exists i. split; [right; exact Hi | exact Hs].
        -- intros [H | (i & Hi & Hs)]; [left; exact H|].
           apply elem_of_cons in Hi as [-> | Hi].
           ++ rewrite Hf in Hs. destruct Hs as [? Hs]. discriminate.
           ++ right. exists i. auto.
      * rewrite I3. split.
        -- intros (i & s & Hi & Hs & Hsa). exists i, s.
           split; [right; exact Hi | auto].
        -- intros (i & s & Hi & Hs & Hsa).
           apply elem_of_cons in Hi as [-> | Hi]; [congruence|].
           exists i, s. auto.
Qed.

(** X17: with Hyperscan, whatever match events a scan reports to
    [hs_match_handler], starting from the result that [ips_scan_packet]
    initialises: the packet counts as matched exactly when an event names
    a signature of the table, the action settles on drop exactly when an
    event names a drop signature, and it is alert otherwise (no signature
    asks for a reject). *)
Theorem hs_match_handler_settles ids r0 :
  r_matched r0 = 0 -> r_action r0 = IPS_ACTION_ALERT ->
  let r := deliver_matches ids r0 in
  (r_action r = IPS_ACTION_ALERT \/ r_action r = IPS_ACTION_DROP)
  /\ (r_matched r <> 0
      <-> exists id, id ∈ ids
            /\ is_Some (find_signature default_signatures id))
  /\ (r_action r = IPS_ACTION_DROP
      <-> exists id sig, id ∈ ids
            /\ find_signature default_signatures id = Some sig
            /\ sig_action sig = IPS_ACTION_DROP).
Proof.
  intros Hm Ha.
  destruct (deliver_matches_spec ids r0 (or_introl Hm) Ha)
    as (I1 & I2 & I3).
  cbv zeta. split; [exact I1|]. split; [|exact I3].
  rewrite I2. split; [|auto]. intros [H | H]; [congruence | exact H].
Qed.

(** ** QoS marking twice *)

(** X18: marking is idempotent: a packet that went through [apply_dscp]
    for a class is left as it is by a second [apply_dscp] for that class;
    in particular the second pass does not touch the header checksum
    again. *)
Theorem apply_dscp_idempotent b qos_class :
  apply_dscp (apply_dscp b qos_class) qos_class = apply_dscp b qos_class.
Proof.
  unfold apply_dscp at 1. rewrite apply_dscp_tos.
  fold (class_dscp qos_class).
  rewrite !tos_of_dscp by apply class_dscp_range.
  set (d := class_dscp qos_class).
  assert (He : Z.land (4 * d + Z.land (ip4_tos (b_ip4 b)) 3) 3
               = Z.land (ip4_tos (b_ip4 b)) 3).
  { change 3 with (Z.ones 2). rewrite !Z.land_ones by lia.
    change (2 ^ 2) with 4. rewrite Z.add_comm, Z.mul_comm, Z_mod_plus_full.
    apply Zmod_mod. }
  rewrite He, Z.eqb_refl. reflexivity.
Qed.

(** ** [show opensase sessions] *)

Lemma show_sessions_worker_spec sessions limit :
  0 <= limit < 2 ^ 32 ->
  forall count,
    0 <= count <= limit ->
    let r := show_sessions_worker sessions count limit in
    fst r
    = take (Z.to_nat (limit - count))
        (map session_row
           (filter (fun s => s_state s <> OPENSASE_SESSION_CLOSED) sessions))
    /\ snd r = count + Z.of_nat (length (fst r)).
Proof.
  intros Hlim. induction sessions as [|s rest IH]; intros count Hc; cbv zeta.
  - simpl. rewrite take_nil. split; [reflexivity | simpl; lia].
  - simpl. destruct (Z.leb_spec limit count) as [Hfull | Hroom].
    + simpl. replace (limit - count) with 0 by lia. simpl. split; [reflexivity | lia].
    + destruct (Z.eqb_spec (s_state s) OPENSASE_SESSION_CLOSED) as [Hcl | Hop].
      * rewrite filter_cons_False by (intros H; apply H; exact Hcl).
        apply IH. lia.
      * rewrite filter_cons_True by exact Hop.
        assert (Hu : u32 (count + 1) = count + 1)
          by (unfold u32; apply Z.mod_small; lia).
        rewrite Hu. specialize (IH (count + 1) ltac:(lia)). cbv zeta in IH.
        destruct (show_sessions_worker rest (count + 1) limit) as [rows c].
        simpl in IH. destruct IH as [-> ->]. simpl.
        replace (Z.to_nat (limit - count))
          with (S (Z.to_nat (limit - (count + 1)))) by lia.
        simpl. split; [reflexivity | lia].
Qed.

Lemma show_sessions_workers_spec workers limit :
  0 <= limit < 2 ^ 32 ->
  forall count,
    0 <= count <= limit ->
    let r := show_sessions_workers workers count limit in
    fst r
    = take (Z.to_nat (limit - count)) (map session_row (open_slots workers))
    /\ snd r = count + Z.of_nat (length (fst r)).
Proof.
  intros Hlim. unfold open_slots.
  induction workers as [|w rest IH]; intros count Hc; cbv zeta.
  - simpl. rewrite take_nil. split; [reflexivity | simpl; lia].
  - simpl.
    pose proof (show_sessions_worker_spec (w_sessions w) limit Hlim count Hc)
      as Hw. cbv zeta in Hw.
    destruct (show_sessions_worker (w_sessions w) count limit) as [rows c].
    simpl in Hw. destruct Hw as [Hrows ->].
    assert (Hlen : Z.of_nat (length rows) <= limit - count).
    { rewrite Hrows, length_take. lia. }
    specialize (IH (count + Z.of_nat (length rows)) ltac:(lia)).
    cbv zeta in IH.
    destruct (show_sessions_workers rest _ limit) as [rows' c'].
    simpl in IH. destruct IH as [-> ->]. simpl.
    rewrite filter_app, map_app, length_app, length_take.
    set (l1 := map session_row
                 (filter (fun s => s_state s <> OPENSASE_SESSION_CLOSED)
                         (w_sessions w))) in *.
    set (l2 := map session_row
                 (filter (fun s => s_state s <> OPENSASE_SESSION_CLOSED)
                         (concat (map w_sessions rest)))) in *.
    assert (Hl : length rows
                 = (Z.to_nat (limit - count) `min` length l1)%nat)
      by (rewrite Hrows, length_take; reflexivity).
    split; [|lia].
    rewrite take_app, <- Hrows. f_equal.
    destruct (le_lt_dec (length l1) (Z.to_nat (limit - count))) as [Hle | Hgt].
    + f_equal. lia.
    + replace (Z.to_nat (limit - (count + Z.of_nat (length rows)))) with 0%nat
        by lia.
      replace (Z.to_nat (limit - count) - length l1)%nat with 0%nat by lia.
      reflexivity.
Qed.

(** X19: [show opensase sessions limit N] prints, in table order over the
    workers, the first N slots of the session vectors whose state is not
    closed, and reports their number; it walks the whole vectors, so slots
    that no session has used yet (state 0, which is new) are listed as
    well. *)
Theorem show_sessions_lists_open_slots workers limit :
  0 <= limit < 2 ^ 32 ->
  let '(rows, count) := opensase_show_sessions_fn workers limit in
  rows = take (Z.to_nat limit) (map session_row (open_slots workers))
  /\ count = Z.of_nat (length rows).
Proof.
  intros Hlim. unfold opensase_show_sessions_fn.
  pose proof (show_sessions_workers_spec workers limit Hlim 0 ltac:(lia))
    as Hs. cbv zeta in Hs.
  destruct (show_sessions_workers workers 0 limit) as [rows count].
  simpl in Hs. rewrite Z.sub_0_r in Hs. destruct Hs as [-> ->].
  split; [reflexivity | lia].
Qed.
(** ** Concrete runs, with VPP's hash *)

Lemma worker_init_wf n :
  Z.of_nat n < 2 ^ 32 -> worker_wf (opensase_worker_init n).
Proof.
  intros Hn. unfold worker_wf, opensase_worker_init; simpl.
  rewrite length_replicate. split_and!; try lia.
  intros h i Hi. rewrite lookup_empty in Hi. discriminate.
Qed.

Section concrete_runs.
#[local] Existing Instance vpp_xxhash.
#[local] Existing Instance old_block_kept.
#[local] Existing Instance prefix_behind_len.



(** The same frame with a table of two slots, evaluated: the flow and
    its reply take the two slots, the packet of another connection finds
    the table full and is dropped. *)
Lemma session_tracker_full_run :
  let '((vm', w'), outs) :=
    opensase_security_node vm0 (opensase_worker_init 2)
      [syn_packet; synack_packet; fin_packet; rst_packet;
       other_flow_packet] in
  w_n_sessions w' = 2
  /\ ((fun o => op_session_idx (b_opaque (fst o))) <$> outs)
     = [0; 1; 0; 0; U32_MAX]
  /\ (snd <$> outs)
     = replicate 4 OPENSASE_SECURITY_NEXT_POLICY
       ++ [OPENSASE_SECURITY_NEXT_DROP].
Proof. vm_compute. repeat split; reflexivity. Qed.

(** The same frame, evaluated: the SYN, FIN and RST of one connection share
    slot 0, the SYN-ACK travelling the other way gets slot 1 and the
    packet of another connection slot 2; all three stay in state new. *)
Lemma session_tracker_frame_run :
  let '((vm', w'), outs) :=
    opensase_security_node vm0 (opensase_worker_init 8)
      [syn_packet; synack_packet; fin_packet; rst_packet;
       other_flow_packet] in
  w_n_sessions w' = 3
  /\ ((fun s => (s_packets_fwd s, s_bytes_fwd s, s_state s))
        <$> take 3 (w_sessions w'))
     = [(3, 120, OPENSASE_SESSION_NEW); (1, 40, OPENSASE_SESSION_NEW);
        (1, 40, OPENSASE_SESSION_NEW)]
  /\ ((fun o => op_session_idx (b_opaque (fst o))) <$> outs) = [0; 1; 0; 0; 2]
  /\ (snd <$> outs) = replicate 5 OPENSASE_SECURITY_NEXT_POLICY.
Proof. vm_compute. repeat split; reflexivity. Qed.

(** Two distinct 5-tuples with one hash, whatever [clib_xxhash] is. *)
Lemma session_key_collision :
  five_tuple syn_packet <> five_tuple colliding_packet
  /\ session_key (b_ip4 syn_packet) 33000 443
     = session_key (b_ip4 colliding_packet) 33001 443
  /\ nat_key (ip4_addr 10 1 0 5) (ip4_addr 203 0 113 10) 33000 443 6
     = nat_key (ip4_addr 10 1 1 5) (ip4_addr 203 0 113 10) 33001 443 6.
Proof. vm_compute. repeat split; [discriminate | reflexivity..]. Qed.





(** The same run, evaluated.  The three packets of the colliding
    connection and the packet of the first connection all land in slot 0,
    which still stores the 5-tuple of the first connection and now counts
    five packets; the other connection gets slot 1.  In the NAT node the
    colliding connection gets no mapping: the only mapping added is that
    of the other connection, and the packets of the colliding connection
    that are translated through a good pointer leave with port 10000, the
    port of the first connection. *)
Lemma hash_collision_frame_run :
  five_tuple syn_packet <> five_tuple colliding_packet
  /\ buffer_session_hash colliding_packet = buffer_session_hash syn_packet
  /\ buffer_nat_hash colliding_packet = buffer_nat_hash syn_packet
  /\ (let '((vm', w'), outs) :=
        opensase_security_node vm0 worker_after_syn collision_frame in
      w_n_sessions w' = 2
      /\ ((fun o => op_session_idx (b_opaque (fst o))) <$> outs)
         = [0; 1; 0; 0; 0]
      /\ ((fun s => (s_src_addr s, s_src_port s, s_packets_fwd s))
            <$> w_sessions w' !! 0%nat)
         = Some (ip4_addr 10 1 0 5, 33000, 5))
  /\ (let '((nvm', nw'), nouts) :=
        opensase_nat_node vm0 nat_worker_after_syn collision_frame in
      map m_internal_addr (drop 2 (nw_mappings nw'))
      = [ip4_addr 10 1 0 5; ip4_addr 10 1 0 6]
      /\ nat_pointer_live nat_worker_after_syn collision_frame
         = [false; true; true; true; true]
      /\ map (fun o => l4_src_port (fst o)) nouts
         = [10000; 10001; 10000; 10000; 10000]
      /\ map snd nouts = replicate 5 OPENSASE_NAT_NEXT_ENCRYPT).
Proof. vm_compute. repeat split; [discriminate | reflexivity..]. Qed.



(** The same run, evaluated: with ports 10000 and 10001 in the pool the
    three new flows of the block get 10000, 10001 and, the cursor having
    wrapped, 10000 again; the new flow of the last packet gets 10001
    again; all four mappings expire at 400 s. *)
Lemma nat_ports_in_sequence_run :
  let '((vm', w'), outs) :=
    opensase_nat_node vm0 (nat_worker_with_pool 2 10000 10001)
      [syn_packet; other_flow_packet; third_flow_packet; syn_packet;
       synack_packet] in
  map m_external_port (drop 2 (nw_mappings w')) = [10000; 10001; 10000; 10001]
  /\ map m_expire_time (drop 2 (nw_mappings w'))
     = [400%float; 400%float; 400%float; 400%float]
  /\ pool_next_port (tenant_pool w' 7) = 10000
  /\ map snd outs = replicate 5 OPENSASE_NAT_NEXT_ENCRYPT.
Proof. vm_compute. repeat split; reflexivity. Qed.




Lemma tenant_table_24_entries h i e :
  tenant_bucket tenant_table_24 h !! i = Some e -> e_valid e <> 0 ->
  e = {| e_src_prefix := ip4_addr 10 1 0 0; e_prefix_len := 24;
         e_tenant_id := 7; e_vrf_id := 0; e_valid := 1 |}.
Proof.
  unfold tenant_table_24, tenant_bucket.
  intros Hi Hv. rewrite lookup_insert in Hi. case_decide.
  - simpl in Hi. destruct i as [|[|[|[|i]]]]; simpl in Hi;
      try (injection Hi as <-); auto; try (exfalso; apply Hv; reflexivity).
    discriminate.
  - rewrite lookup_empty in Hi. simpl in Hi.
    destruct i as [|[|[|[|i]]]]; simpl in Hi;
      try (injection Hi as <-); try (exfalso; apply Hv; reflexivity).
    discriminate.
Qed.

(** C7, the code against the claim.  With the mapping 10.1.0.0/24 to
    tenant 7 in the table, in the bucket of its prefix address, the
    longest-prefix match of the source address 10.1.0.5 is that mapping;
    [tenant_lookup_fast] looks into the bucket of the hash of 10.1.0.5,
    which is another one (48358, not 20806) and empty, and the node
    stores the default tenant 0.  The command [opensase tenant add 10.1.0.0/24 tenant 7]
    itself, with [prefix] lying behind [prefix_len] on the stack, stores
    0.0.0.0/24 in bucket 30866, and 10.1.0.5 is again given tenant 0. *)
Lemma tenant_lookup_misses_prefix_hosts :
  (exists e, longest_prefix_match tenant_table_24 (ip4_addr 10 1 0 5) e)
  /\ (forall e,
        longest_prefix_match tenant_table_24 (ip4_addr 10 1 0 5) e ->
        e_tenant_id e = 7)
  /\ tenant_hash_of (ip4_addr 10 1 0 5) = 48358
  /\ tenant_hash_of (ip4_addr 10 1 0 0) = 20806
  /\ tenant_lookup_fast tenant_table_24 (ip4_addr 10 1 0 5) = (0, 0)
  /\ map (fun o => op_tenant_id (b_opaque (fst o)))
         (opensase_tenant_node tenant_table_24 [syn_packet]) = [0]
  /\ opensase_tenant_add_fn ∅ tenant_add_10_1_0_0_24
     = (<[30866 :=
            [ {| e_src_prefix := ip4_addr 0 0 0 0; e_prefix_len := 24;
                 e_tenant_id := 7; e_vrf_id := 0; e_valid := 1 |};
              zero_entry; zero_entry; zero_entry ]]> ∅,
        Tenant_added)
  /\ tenant_lookup_fast (fst (opensase_tenant_add_fn ∅ tenant_add_10_1_0_0_24))
       (ip4_addr 10 1 0 5) = (0, 0).
Proof.
  set (e24 := {| e_src_prefix := ip4_addr 10 1 0 0; e_prefix_len := 24;
                 e_tenant_id := 7; e_vrf_id := 0; e_valid := 1 |}).
  assert (Hinst : tenant_installed tenant_table_24 e24).
  { split; [discriminate|].
    exists (tenant_hash_of (ip4_addr 10 1 0 0)), 0%nat.
    unfold tenant_table_24, tenant_bucket.
    rewrite lookup_insert_eq. reflexivity. }
  assert (Hcov : tenant_entry_covers (ip4_addr 10 1 0 5) e24).
  { split; [discriminate | reflexivity]. }
  split_and!.
  - exists e24. split; [exact Hinst|]. split; [exact Hcov|].
    intros e' [Hv (h & i & Hi)] _.
    rewrite (tenant_table_24_entries h i e' Hi Hv). simpl. lia.
  - intros e ([Hv (h & i & Hi)] & _ & _).
    rewrite (tenant_table_24_entries h i e Hi Hv). reflexivity.
  - vm_compute. reflexivity.
  - vm_compute. reflexivity.
  - vm_compute. reflexivity.
  - vm_compute. reflexivity.
  - vm_compute. reflexivity.
  - vm_compute. reflexivity.
Qed.

Lemma tenant_table_16_32_entries h i e :
  tenant_bucket tenant_table_16_32 h !! i = Some e -> e_valid e <> 0 ->
  e = {| e_src_prefix := ip4_addr 10 1 0 5; e_prefix_len := 16;
         e_tenant_id := 1; e_vrf_id := 11; e_valid := 1 |}
  \/ e = {| e_src_prefix := ip4_addr 10 1 0 5; e_prefix_len := 32;
            e_tenant_id := 2; e_vrf_id := 22; e_valid := 1 |}.
Proof.
  unfold tenant_table_16_32, tenant_bucket.
  intros Hi Hv. rewrite lookup_insert in Hi. case_decide.
  - simpl in Hi. destruct i as [|[|[|[|i]]]]; simpl in Hi;
      try (injection Hi as <-); auto; try (exfalso; apply Hv; reflexivity).
    discriminate.
  - rewrite lookup_empty in Hi. simpl in Hi.
    destruct i as [|[|[|[|i]]]]; simpl in Hi;
      try (injection Hi as <-); try (exfalso; apply Hv; reflexivity).
    discriminate.
Qed.

(** Within one bucket the order of the slots decides, not the length of
    the prefix: with 10.1.0.5/16 for tenant 1 in front of the host route
    10.1.0.5/32 for tenant 2, a packet from 10.1.0.5 has the /32 as its
    longest-prefix match, and the classifier returns the /16 of
    tenant 1. *)
Lemma tenant_lookup_not_longest_prefix :
  (exists e, longest_prefix_match tenant_table_16_32 (ip4_addr 10 1 0 5) e)
  /\ (forall e,
        longest_prefix_match tenant_table_16_32 (ip4_addr 10 1 0 5) e ->
        e_tenant_id e = 2 /\ e_vrf_id e = 22)
  /\ tenant_lookup_fast tenant_table_16_32 (ip4_addr 10 1 0 5) = (1, 11)
  /\ map (fun o => op_tenant_id (b_opaque (fst o)))
         (opensase_tenant_node tenant_table_16_32 [syn_packet]) = [1].
Proof.
  set (e32 := {| e_src_prefix := ip4_addr 10 1 0 5; e_prefix_len := 32;
                 e_tenant_id := 2; e_vrf_id := 22; e_valid := 1 |}).
  assert (Hinst : tenant_installed tenant_table_16_32 e32).
  { split; [discriminate|].
    exists (tenant_hash_of (ip4_addr 10 1 0 5)), 1%nat.
    unfold tenant_table_16_32, tenant_bucket.
    rewrite lookup_insert_eq. reflexivity. }
  assert (Hcov : tenant_entry_covers (ip4_addr 10 1 0 5) e32).
  { split; [discriminate | reflexivity]. }
  split_and!.
  - exists e32. split; [exact Hinst|]. split; [exact Hcov|].
    intros e' [Hv (h & i & Hi)] _.
    destruct (tenant_table_16_32_entries h i e' Hi Hv) as [-> | ->];
      simpl; lia.
  - intros e ([Hv (h & i & Hi)] & _ & Hmax).
    specialize (Hmax e32 Hinst Hcov).
    destruct (tenant_table_16_32_entries h i e Hi Hv) as [-> | ->];
      simpl in *; [lia | split; reflexivity].
  - vm_compute. reflexivity.
  - vm_compute. reflexivity.
Qed.

(** *** Runs of the whole-frame, table and command properties *)

Lemma nat_init_wf n : nat_worker_wf (opensase_nat_init n).
Proof. intros h i Hh. simpl in Hh. rewrite lookup_empty in Hh. discriminate. Qed.

Lemma nat_init_pools_ok n : nat_pools_ok (opensase_nat_init n).
Proof.
  unfold nat_pools_ok, opensase_nat_init. cbn [nw_tenant_pools].
  intros [|k]; cbn [nth]; [unfold pool_in_range; simpl; lia|].
  rewrite nth_lookup.
  destruct (replicate 255 zero_pool !! k) as [p|] eqn:Hk; simpl.
  - apply lookup_replicate in Hk as [-> _]. unfold pool_in_range; simpl; lia.
  - unfold pool_in_range; simpl; lia.
Qed.

Lemma worker_init_consistent n :
  session_table_consistent (opensase_worker_init n).
Proof.
  split; simpl.
  - intros h i Hh. rewrite lookup_empty in Hh. discriminate.
  - intros i Hi. lia.
Qed.

Lemma nat_node_serves_every_packet_witness :
  nat_worker_wf (opensase_nat_init 0)
  /\ (let '((vm', w'), outs) :=
        opensase_nat_node vm0 (opensase_nat_init 0)
          [syn_packet; other_flow_packet; syn_packet; third_flow_packet;
           syn_packet] in
      nat_worker_wf w'
      /\ (exists added,
            nw_mappings w' = nw_mappings (opensase_nat_init 0) ++ added
            /\ (length added
                <= length (nat_unknown (opensase_nat_init 0)
                             [syn_packet; other_flow_packet; syn_packet;
                              third_flow_packet; syn_packet]))%nat)
      /\ (forall h i,
            nw_mapping_hash (opensase_nat_init 0) !! h = Some i ->
            nw_mapping_hash w' !! h = Some i)
      /\ Forall3
           (fun live b o =>
              snd o = OPENSASE_NAT_NEXT_ENCRYPT
              /\ exists i m,
                   nw_mapping_hash w' !! buffer_nat_hash b = Some i
                   /\ nw_mappings w' !! i = Some m
                   /\ (live = true -> fst o = nat_translate b m))
           (nat_pointer_live (opensase_nat_init 0)
              [syn_packet; other_flow_packet; syn_packet; third_flow_packet;
               syn_packet])
           [syn_packet; other_flow_packet; syn_packet; third_flow_packet;
            syn_packet] outs).
Proof.
  split; [apply nat_init_wf|].
  apply (nat_node_serves_every_packet vm0 (opensase_nat_init 0)
           [syn_packet; other_flow_packet; syn_packet; third_flow_packet;
            syn_packet] (nat_init_wf 0)).
Defined.

Lemma nat_mapping_stable_witness :
  nat_worker_wf (opensase_nat_init 0)
  /\ (let '((vm1, w1), outs1) :=
        opensase_nat_node vm0 (opensase_nat_init 0) [syn_packet] in
      let '((vm2', w2), outs2) :=
        opensase_nat_node vm0 w1
          [other_flow_packet; syn_packet; third_flow_packet; syn_packet;
           syn_packet] in
      forall j b o k b2 o2,
        [syn_packet] !! j = Some b -> outs1 !! j = Some o ->
        [other_flow_packet; syn_packet; third_flow_packet; syn_packet;
         syn_packet] !! k = Some b2 ->
        outs2 !! k = Some o2 ->
        buffer_nat_hash b2 = buffer_nat_hash b ->
        exists i m,
          nw_mapping_hash w1 !! buffer_nat_hash b = Some i
          /\ nw_mapping_hash w2 !! buffer_nat_hash b = Some i
          /\ nw_mappings w1 !! i = Some m /\ nw_mappings w2 !! i = Some m
          /\ (nat_pointer_live (opensase_nat_init 0) [syn_packet] !! j
              = Some true ->
              fst o = nat_translate b m)
          /\ (nat_pointer_live w1
                [other_flow_packet; syn_packet; third_flow_packet;
                 syn_packet; syn_packet] !! k = Some true ->
              fst o2 = nat_translate b2 m)).
Proof.
  split; [apply nat_init_wf|].
  apply (nat_mapping_stable vm0 (opensase_nat_init 0) [syn_packet] vm0
           [other_flow_packet; syn_packet; third_flow_packet; syn_packet;
            syn_packet] (nat_init_wf 0)).
Defined.


Lemma nat_translate_rewrites_witness :
  (2 <= length (b_l4 syn_packet))%nat
  /\ 0 <= m_external_port nat_mapping_20000 < 65536
  /\ (ip4_protocol (b_ip4 syn_packet) = IP_PROTOCOL_TCP
      \/ ip4_protocol (b_ip4 syn_packet) = IP_PROTOCOL_UDP)
  /\ (let b' := nat_translate syn_packet nat_mapping_20000 in
      ip4_src_address (b_ip4 b') = m_external_addr nat_mapping_20000
      /\ l4_src_port b' = m_external_port nat_mapping_20000
      /\ ip4_dst_address (b_ip4 b') = ip4_dst_address (b_ip4 syn_packet)
      /\ l4_dst_port b' = l4_dst_port syn_packet
      /\ b_opaque b' = b_opaque syn_packet
      /\ ip4_checksum_ok b').
Proof.
  assert (H1 : (2 <= length (b_l4 syn_packet))%nat) by (simpl; lia).
  assert (H2 : 0 <= m_external_port nat_mapping_20000 < 65536)
    by (simpl; lia).
  assert (H3 : ip4_protocol (b_ip4 syn_packet) = IP_PROTOCOL_TCP
               \/ ip4_protocol (b_ip4 syn_packet) = IP_PROTOCOL_UDP)
    by (left; reflexivity).
  split; [exact H1|]. split; [exact H2|]. split; [exact H3|].
  apply (nat_translate_rewrites syn_packet nat_mapping_20000 H1 H2 H3).
Defined.

Lemma nat_pool_config_round_trip_witness :
  length (nw_tenant_pools nat_worker_after_syn) = 256%nat
  /\ 0 <= 7 < 256
  /\ ip4_addr 192 0 2 9 <> 0
  /\ op_tenant_id (b_opaque other_flow_packet) = 7
  /\ nw_mapping_hash nat_worker_after_syn !! buffer_nat_hash other_flow_packet
     = None
  /\ Forall (fun p => is_Some (nw_mapping_hash nat_worker_after_syn
                                !! buffer_nat_hash p))
            [syn_packet; colliding_packet]
  /\ exists w0 m,
       opensase_nat_pool_fn nat_worker_after_syn 7 (ip4_addr 192 0 2 9)
         20000 20999 = Some w0
       /\ let w' :=
            snd (fst (opensase_nat_node vm0 w0
                        ([syn_packet; colliding_packet]
                           ++ other_flow_packet
                           :: [third_flow_packet; syn_packet]))) in
          nw_mapping_hash w' !! buffer_nat_hash other_flow_packet
          = Some (length (nw_mappings nat_worker_after_syn))
          /\ nw_mappings w' !! length (nw_mappings nat_worker_after_syn)
             = Some m
          /\ m_external_addr m = ip4_addr 192 0 2 9
          /\ m_external_port m = u16 20000.
Proof.
  assert (H1 : length (nw_tenant_pools nat_worker_after_syn) = 256%nat)
    by (vm_compute; reflexivity).
  assert (H2 : 0 <= 7 < 256) by lia.
  assert (H3 : ip4_addr 192 0 2 9 <> 0) by (vm_compute; discriminate).
  assert (H4 : op_tenant_id (b_opaque other_flow_packet) = 7) by reflexivity.
  assert (H5 : nw_mapping_hash nat_worker_after_syn
               !! buffer_nat_hash other_flow_packet = None)
    by (vm_compute; reflexivity).
  assert (H6 : Forall (fun p => is_Some (nw_mapping_hash nat_worker_after_syn
                                          !! buffer_nat_hash p))
                      [syn_packet; colliding_packet]).
  { repeat constructor; exists 2%nat; vm_compute; reflexivity. }
  split; [exact H1|]. split; [exact H2|]. split; [exact H3|].
  split; [exact H4|]. split; [exact H5|]. split; [exact H6|].
  apply (nat_pool_config_round_trip nat_worker_after_syn 7
           (ip4_addr 192 0 2 9) 20000 20999 vm0
           [syn_packet; colliding_packet] other_flow_packet
           [third_flow_packet; syn_packet] H1 H2 H3 H4 H5 H6).
Defined.

Lemma nat_ports_stay_in_range_witness :
  nat_pools_ok (opensase_nat_init 0)
  /\ (let w' :=
        snd (fst (opensase_nat_node vm0 (opensase_nat_init 0)
                    [syn_packet; other_flow_packet])) in
      nat_pools_ok w'
      /\ (forall k,
            pool_range (nth k (nw_tenant_pools w') zero_pool)
            = pool_range (nth k (nw_tenant_pools (opensase_nat_init 0))
                              zero_pool))
      /\ exists added,
           nw_mappings w' = nw_mappings (opensase_nat_init 0) ++ added
           /\ Forall (mapping_in_range (opensase_nat_init 0)) added).
Proof.
  split; [apply nat_init_pools_ok|].
  apply (nat_ports_stay_in_range vm0 (opensase_nat_init 0)
           [syn_packet; other_flow_packet] (nat_init_pools_ok 0)).
Defined.

Lemma tenant_add_lookup_round_trip_witness :
  let l := {| l_prefix := ip4_addr 0 0 0 0; l_prefix_len := 8;
              l_tenant_id := 7; l_vrf_id := 0 |} in
  let tbl' := fst (opensase_tenant_add_fn ∅ tenant_add_10_1_0_0_8) in
  tenant_add_parse tenant_add_10_1_0_0_8 tenant_add_locals_init = Some l
  /\ 0 < l_prefix_len l <= 32
  /\ opensase_tenant_add_fn ∅ tenant_add_10_1_0_0_8 = (tbl', Tenant_added)
  /\ tenant_hash_of (ip4_addr 0 112 37 0) = tenant_hash_of (l_prefix l)
  /\ ip4_number (ip4_addr 0 112 37 0) / 2 ^ (32 - l_prefix_len l)
     = ip4_number (l_prefix l) / 2 ^ (32 - l_prefix_len l)
  /\ (forall e,
        e ∈ take 4 (tenant_bucket ∅ (tenant_hash_of (l_prefix l))) ->
        tenant_entry_hit (ip4_addr 0 112 37 0) e = false)
  /\ tenant_lookup_fast tbl' (ip4_addr 0 112 37 0)
     = (l_tenant_id l, l_vrf_id l).
Proof.
  cbv zeta.
  set (l := {| l_prefix := ip4_addr 0 0 0 0; l_prefix_len := 8;
               l_tenant_id := 7; l_vrf_id := 0 |}).
  assert (H1 : tenant_add_parse tenant_add_10_1_0_0_8 tenant_add_locals_init
               = Some l) by reflexivity.
  assert (H2 : 0 < l_prefix_len l <= 32) by (simpl; lia).
  assert (H3 : opensase_tenant_add_fn ∅ tenant_add_10_1_0_0_8
               = (fst (opensase_tenant_add_fn ∅ tenant_add_10_1_0_0_8),
                  Tenant_added)) by reflexivity.
  assert (H4 : tenant_hash_of (ip4_addr 0 112 37 0)
               = tenant_hash_of (l_prefix l)) by (vm_compute; reflexivity).
  assert (H5 : ip4_number (ip4_addr 0 112 37 0) / 2 ^ (32 - l_prefix_len l)
               = ip4_number (l_prefix l) / 2 ^ (32 - l_prefix_len l))
    by reflexivity.
  assert (H6 : forall e,
             e ∈ take 4 (tenant_bucket ∅ (tenant_hash_of (l_prefix l))) ->
             tenant_entry_hit (ip4_addr 0 112 37 0) e = false).
  { intros e He. unfold tenant_bucket in He. rewrite lookup_empty in He.
    simpl in He.
    repeat (apply elem_of_cons in He as [-> | He]; [reflexivity|]).
    inversion He. }
  split; [exact H1|]. split; [exact H2|]. split; [exact H3|].
  split; [exact H4|]. split; [exact H5|]. split; [exact H6|].
  apply (tenant_add_lookup_round_trip ∅ tenant_add_10_1_0_0_8 l _
           (ip4_addr 0 112 37 0) H1 H2 H3 H4 H5 H6).
Defined.

(** The command as typed and what the table holds afterwards, with
    [prefix] lying behind [prefix_len] on the stack: the three leading
    octets of the address are gone, and the hosts that are found are
    those of 0.0.0.0/8 that hash to bucket 30866. *)
Lemma tenant_add_run :
  opensase_tenant_add_fn ∅ tenant_add_10_1_0_0_8
  = (<[30866 :=
         [ {| e_src_prefix := ip4_addr 0 0 0 0; e_prefix_len := 8;
              e_tenant_id := 7; e_vrf_id := 0; e_valid := 1 |};
           zero_entry; zero_entry; zero_entry ]]> ∅,
     Tenant_added)
  /\ tenant_lookup_fast (fst (opensase_tenant_add_fn ∅ tenant_add_10_1_0_0_8))
       (ip4_addr 0 112 37 0) = (7, 0)
  /\ tenant_lookup_fast (fst (opensase_tenant_add_fn ∅ tenant_add_10_1_0_0_8))
       (ip4_addr 10 1 0 0) = (0, 0)
  /\ opensase_tenant_add_fn ∅ [Arg_prefix (ip4_addr 10 1 0 0) 8; Arg_other]
     = (∅, Tenant_unknown_input).
Proof. vm_compute. repeat split; reflexivity. Qed.

Lemma simple_pattern_scan_flags_witness :
  r_matched clean_result = 0
  /\ (let data := bytes_of_string "x=${jndi:ldap://h/a}" in
      let r := simple_pattern_scan data 20 clean_result in
      (r_matched r = 1
       <-> jndi_prefix_within data 20 \/ union_within data 20)
      /\ (r_matched r <> 0 -> r_action r = IPS_ACTION_DROP)
      /\ (jndi_prefix_within data 20 ->
          r_signature_id r = 4001 /\ r_category r = IPS_CAT_CVE)
      /\ (~ jndi_prefix_within data 20 -> union_within data 20 ->
          r_signature_id r = 2003 /\ r_category r = IPS_CAT_EXPLOIT)).
Proof.
  split; [reflexivity|].
  apply (simple_pattern_scan_flags (bytes_of_string "x=${jndi:ldap://h/a}")
           20 clean_result eq_refl).
Defined.

Lemma qos_no_limiter_no_drop_witness :
  no_scavenger_limit (q_limiters qos_state_init)
  /\ (let '((vm', st'), outs) :=
        opensase_qos_node vm0 qos_state_init
          [scavenger_packet; scavenger_packet] in
      Forall (fun o => snd o = OPENSASE_QOS_NEXT_IP4_LOOKUP) outs
      /\ q_limiters st' = q_limiters qos_state_init
      /\ w_packets_dropped (q_worker st')
         = w_packets_dropped (q_worker qos_state_init)).
Proof.
  assert (H1 : no_scavenger_limit (q_limiters qos_state_init))
    by (intros t; reflexivity).
  split; [exact H1|].
  apply (qos_no_limiter_no_drop vm0 qos_state_init
           [scavenger_packet; scavenger_packet] H1).
Defined.

Lemma qos_node_counts_bytes_witness :
  Forall (fun b => vlib_buffer_length_in_chain b < 2 ^ 30)
         [syn_packet; scavenger_packet]
  /\ (let '((vm', st'), outs) :=
        opensase_qos_node vm0 qos_state_init [syn_packet; scavenger_packet] in
      u64 (w_bytes_processed (q_worker st'))
      = u64 (w_bytes_processed (q_worker qos_state_init)
             + frame_bytes [syn_packet; scavenger_packet])).
Proof.
  assert (H1 : Forall (fun b => vlib_buffer_length_in_chain b < 2 ^ 30)
                      [syn_packet; scavenger_packet])
    by (repeat constructor).
  split; [exact H1|].
  apply (qos_node_counts_bytes vm0 qos_state_init
           [syn_packet; scavenger_packet] H1).
Defined.

Lemma policy_match_skips_priority_max_witness :
  matched_policy (osm_with [any_policy 1 10 OPENSASE_ACTION_ALLOW]) syn_packet
  = Some (any_policy 1 10 OPENSASE_ACTION_ALLOW)
  /\ any_policy 1 10 OPENSASE_ACTION_ALLOW
       ∈ osm_policies (osm_with [any_policy 1 10 OPENSASE_ACTION_ALLOW])
  /\ p_priority (any_policy 1 10 OPENSASE_ACTION_ALLOW) < U32_MAX
  /\ policy_in_use (any_policy 1 10 OPENSASE_ACTION_ALLOW)
  /\ (p_tenant_id (any_policy 1 10 OPENSASE_ACTION_ALLOW) = 0
      \/ p_tenant_id (any_policy 1 10 OPENSASE_ACTION_ALLOW)
         = op_tenant_id (b_opaque syn_packet))
  /\ (p_protocol (any_policy 1 10 OPENSASE_ACTION_ALLOW) = 0
      \/ p_protocol (any_policy 1 10 OPENSASE_ACTION_ALLOW)
         = ip4_protocol (b_ip4 syn_packet)).
Proof.
  assert (H1 : matched_policy
                 (osm_with [any_policy 1 10 OPENSASE_ACTION_ALLOW]) syn_packet
               = Some (any_policy 1 10 OPENSASE_ACTION_ALLOW))
    by reflexivity.
  split; [exact H1|].
  apply (policy_match_skips_priority_max
           (osm_with [any_policy 1 10 OPENSASE_ACTION_ALLOW]) syn_packet
           (any_policy 1 10 OPENSASE_ACTION_ALLOW) H1).
Defined.

Lemma session_table_stays_consistent_witness :
  worker_wf (opensase_worker_init 8)
  /\ session_table_consistent (opensase_worker_init 8)
  /\ (let w' :=
        snd (fst (opensase_security_node vm0 (opensase_worker_init 8)
                    [syn_packet; synack_packet; syn_packet])) in
      worker_wf w' /\ session_table_consistent w'
      /\ (forall h1 h2 i, w_session_hash w' !! h1 = Some i ->
            w_session_hash w' !! h2 = Some i -> h1 = h2)).
Proof.
  assert (Hwf : worker_wf (opensase_worker_init 8))
    by (apply worker_init_wf; reflexivity).
  split; [exact Hwf|]. split; [apply worker_init_consistent|].
  apply (session_table_stays_consistent vm0 (opensase_worker_init 8)
           [syn_packet; synack_packet; syn_packet] Hwf
           (worker_init_consistent 8)).
Defined.

Lemma session_creation_is_counted_witness :
  worker_wf (opensase_worker_init 8)
  /\ (let w' :=
        snd (fst (opensase_security_node vm0 (opensase_worker_init 8)
                    [syn_packet; synack_packet; syn_packet])) in
      w_n_sessions (opensase_worker_init 8) <= w_n_sessions w'
      <= w_n_sessions (opensase_worker_init 8)
         + Z.of_nat (length [syn_packet; synack_packet; syn_packet])
      /\ u64 (w_sessions_created w')
         = u64 (w_sessions_created (opensase_worker_init 8)
                + (w_n_sessions w'
                   - w_n_sessions (opensase_worker_init 8)))).
Proof.
  assert (Hwf : worker_wf (opensase_worker_init 8))
    by (apply worker_init_wf; reflexivity).
  split; [exact Hwf|].
  apply (session_creation_is_counted vm0 (opensase_worker_init 8)
           [syn_packet; synack_packet; syn_packet] Hwf).
Defined.

Lemma hs_match_handler_settles_witness :
  r_matched clean_result = 0
  /\ r_action clean_result = IPS_ACTION_ALERT
  /\ (let r := deliver_matches [5001; 7; 4001; 1001] clean_result in
      (r_action r = IPS_ACTION_ALERT \/ r_action r = IPS_ACTION_DROP)
      /\ (r_matched r <> 0
          <-> exists id, id ∈ [5001; 7; 4001; 1001]
                /\ is_Some (find_signature default_signatures id))
      /\ (r_action r = IPS_ACTION_DROP
          <-> exists id sig, id ∈ [5001; 7; 4001; 1001]
                /\ find_signature default_signatures id = Some sig
                /\ sig_action sig = IPS_ACTION_DROP)).
Proof.
  split; [reflexivity|]. split; [reflexivity|].
  apply (hs_match_handler_settles [5001; 7; 4001; 1001] clean_result
           eq_refl eq_refl).
Defined.

Lemma show_sessions_lists_open_slots_witness :
  0 <= 2 < 2 ^ 32
  /\ (let '(rows, count) :=
        opensase_show_sessions_fn [opensase_worker_init 3] 2 in
      rows = take (Z.to_nat 2)
               (map session_row (open_slots [opensase_worker_init 3]))
      /\ count = Z.of_nat (length rows)).
Proof.
  assert (H1 : 0 <= 2 < 2 ^ 32) by lia.
  split; [exact H1|].
  apply (show_sessions_lists_open_slots [opensase_worker_init 3] 2 H1).
Defined.

(** The listing of a worker that has not seen a packet: two of its three
    zeroed slots, as state 0 is "new". *)
Lemma show_sessions_fresh_worker :
  opensase_show_sessions_fn [opensase_worker_init 3] 2
  = ([session_row zero_session; session_row zero_session], 2).
Proof. reflexivity. Qed.

(** The callback on an alert, an unknown id and two drop signatures: the
    first drop signature is kept. *)
Lemma hs_match_handler_run :
  deliver_matches [5001; 7; 4001; 1001] clean_result
  = {| r_signature_id := 4001; r_action := IPS_ACTION_DROP;
       r_category := IPS_CAT_CVE; r_matched := 1 |}.
Proof. reflexivity. Qed.

End concrete_runs.
